(** * ocrpricer: price discovery and aggregation engine

    A shallow embedding of [scrapper.py] (class [RealTimeScraper]) and of
    [region_model.py] (class [ReferenceModel]), and the properties of the
    specification proved or refuted on it.

    Conventions of the embedding.
    - A Python [float] is a binary64 value: Rocq's primitive [float], whose
      operations are IEEE 754 round-to-nearest-even like Python's.
    - A Python [str] is a [string]; the character classes ([str.lower],
      [str.strip], [\d], [\s]) are the ASCII ones, so the model is exact on
      ASCII text.
    - A Python exception is [None] in an [option] result.
    - Network access, the browser, [print] and [time.sleep] are events of a
      trace; the answers of the outside world come from an environment that
      may depend on the whole history. *)

From Stdlib Require Import Bool Arith ZArith Lia List String Ascii.
From Stdlib Require Import Floats Permutation Sorted.
From Stdlib Require Import Reals Lra.
Import ListNotations.

Set Warnings "-inexact-float,-register-all".
Local Open Scope list_scope.

(** ** Python built-ins used by the program *)

Module Py.

(** *** [str] *)

Definition isupper (c : ascii) : bool :=
  let n := nat_of_ascii c in (65 <=? n) && (n <=? 90).

Definition isdigit (c : ascii) : bool :=
  let n := nat_of_ascii c in (48 <=? n) && (n <=? 57).

(** [str.isspace] on one ASCII character: TAB..CR, FS..US and the space.
    The regular expression class [\s] on [str] patterns is the same. *)
Definition isspace (c : ascii) : bool :=
  let n := nat_of_ascii c in
  ((9 <=? n) && (n <=? 13)) || ((28 <=? n) && (n <=? 32)).

Definition lower_char (c : ascii) : ascii :=
  if isupper c then ascii_of_nat (nat_of_ascii c + 32) else c.

(** [s.lower()] *)
Fixpoint lower (s : string) : string :=
  match s with
  | EmptyString => EmptyString
  | String c s' => String (lower_char c) (lower s')
  end.

(** [sub in s] *)
Fixpoint contains (sub s : string) : bool :=
  String.prefix sub s ||
  match s with
  | EmptyString => false
  | String _ s' => contains sub s'
  end.

(** [any(x in s for x in keywords)] *)
Definition any_in (keywords : list string) (s : string) : bool :=
  existsb (fun x => contains x s) keywords.

(** [s.replace(old, new)] for a one-character [old] *)
Fixpoint replace (old : ascii) (new : string) (s : string) : string :=
  match s with
  | EmptyString => EmptyString
  | String c s' =>
      if Ascii.eqb c old then String.append new (replace old new s')
      else String c (replace old new s')
  end.

Fixpoint lstrip (s : string) : string :=
  match s with
  | EmptyString => EmptyString
  | String c s' => if isspace c then lstrip s' else s
  end.

Fixpoint rstrip (s : string) : string :=
  match s with
  | EmptyString => EmptyString
  | String c s' =>
      match rstrip s' with
      | EmptyString => if isspace c then EmptyString else String c EmptyString
      | r => String c r
      end
  end.

(** [s.strip()] *)
Definition strip (s : string) : string := rstrip (lstrip s).

(** *** [list] *)

(** Truth value of a list: [if prices:] *)
Definition truthy {A} (l : list A) : bool :=
  match l with [] => false | _ :: _ => true end.

(** A slice bound [i] of a list of length [n]: negative bounds count from
    the end, and every bound is clamped to [0..n]. *)
Definition slice_index (n : nat) (i : Z) : nat :=
  if (i <? 0)%Z then Z.to_nat (Z.max (i + Z.of_nat n) 0)
  else Nat.min (Z.to_nat i) n.

(** [l[lo:hi]] *)
Definition slice {A} (l : list A) (lo hi : Z) : list A :=
  let n := List.length l in
  let a := slice_index n lo in
  let b := slice_index n hi in
  firstn (b - a) (skipn a l).

(** *** [float] *)

(** The binary64 value nearest to the rational [n / d] (ties to even). *)
Definition nearest_ratio (sign : bool) (n : N) (d : positive) : float :=
  match n with
  | N0 => if sign then neg_zero else zero
  | Npos p =>
      SF2Prim (SFdiv prec emax (S754_finite sign p 0) (S754_finite false d 0))
  end.

(** The binary64 value nearest to the integer [z] (ties to even). *)
Definition nearest_int (z : Z) : float :=
  SF2Prim (binary_normalize prec emax z 0 false).

(** [float(n)] for an [int]: [OverflowError] when [n] is too large. *)
Definition float_of_int (z : Z) : option float :=
  let f := nearest_int z in
  if is_infinity f then None else Some f.

Fixpoint digits_value (acc : N) (s : string) : N :=
  match s with
  | EmptyString => acc
  | String c s' => digits_value (acc * 10 + N.of_nat (nat_of_ascii c - 48)) s'
  end.

(** Longest prefix of decimal digits, and the rest. *)
Fixpoint span_digits (s : string) : string * string :=
  match s with
  | EmptyString => (EmptyString, EmptyString)
  | String c s' =>
      if isdigit c then let (d, r) := span_digits s' in (String c d, r)
      else (EmptyString, s)
  end.

(** In a numeric literal an underscore stands between two digits. *)
Fixpoint underscores_ok (prev : option ascii) (s : string) : bool :=
  match s with
  | EmptyString =>
      match prev with Some "_"%char => false | _ => true end
  | String c s' =>
      (if Ascii.eqb c "_"
       then match prev with Some p => isdigit p | None => false end
       else match prev with Some "_"%char => isdigit c | _ => true end)
      && underscores_ok (Some c) s'
  end.

Definition remove_underscores (s : string) : string :=
  replace "_" EmptyString s.

(** The white space that [float] takes off the two ends of an ASCII
    string: TAB..CR and the space. FS..US, which [str.strip] takes off, stay
    and make the literal invalid. *)
Definition isspace_c (c : ascii) : bool :=
  let n := nat_of_ascii c in
  ((9 <=? n) && (n <=? 13)) || (n =? 32).

Fixpoint lstrip_c (s : string) : string :=
  match s with
  | EmptyString => EmptyString
  | String c s' => if isspace_c c then lstrip_c s' else s
  end.

Fixpoint rstrip_c (s : string) : string :=
  match s with
  | EmptyString => EmptyString
  | String c s' =>
      match rstrip_c s' with
      | EmptyString => if isspace_c c then EmptyString else String c EmptyString
      | r => String c r
      end
  end.

Definition strip_c (s : string) : string := rstrip_c (lstrip_c s).

(** An optional sign. *)
Definition split_sign (s : string) : bool * string :=
  match s with
  | String "-" s' => (true, s')
  | String "+" s' => (false, s')
  | _ => (false, s)
  end.

(** The exponent part of a literal: empty, or [e], an optional sign and at
    least one digit. *)
Definition parse_exponent (s : string) : option Z :=
  match s with
  | EmptyString => Some 0%Z
  | String c s' =>
      if Ascii.eqb (lower_char c) "e" then
        let (neg, s'') := split_sign s' in
        match span_digits s'' with
        | (String d ds, EmptyString) =>
            let v := Z.of_N (digits_value 0 (String d ds)) in
            Some (if neg then (- v)%Z else v)
        | _ => None
        end
      else None
  end.

(** The value [(-1)^sign * m * 10^e], correctly rounded. *)
Definition decimal_value (sign : bool) (m : N) (e : Z) : float :=
  match e with
  | Zneg p => nearest_ratio sign m (10 ^ p)
  | _ =>
      let v := (Z.of_N m * 10 ^ e)%Z in
      match v with
      | Z0 => if sign then neg_zero else zero
      | _ => nearest_int (if sign then - v else v)
      end
  end.

(** [float(s)] for a [str]: surrounding white space, an optional sign, then
    [inf], [infinity], [nan] (in any case) or a decimal literal with an
    optional fraction and exponent. [None] is [ValueError]. *)
Definition float_of_string (s : string) : option float :=
  let s := strip_c s in
  if negb (underscores_ok None s) then None else
  let (sign, body) := split_sign (remove_underscores s) in
  let word := lower body in
  if String.eqb word "inf" || String.eqb word "infinity"
  then Some (if sign then neg_infinity else infinity)
  else if String.eqb word "nan" then Some nan
  else
    let (ip, r1) := span_digits body in
    let (fp, r2) :=
      match r1 with
      | String "." r => span_digits r
      | _ => (EmptyString, r1)
      end in
    match String.length ip + String.length fp with
    | O => None
    | S _ =>
        match parse_exponent r2 with
        | None => None
        | Some e =>
            Some (decimal_value sign
                    (digits_value 0 (String.append ip fp))
                    (e - Z.of_nat (String.length fp)))
        end
    end.

(** [round(x, 2)]: the decimal with two fractional digits nearest to the
    exact value of [x] (ties to even), converted back to the nearest
    [float]; infinities, NaN and zeros are returned unchanged. *)
Definition round2 (x : float) : float :=
  match Prim2SF x with
  | S754_finite s m e =>
      let num := (Zpos m * 100)%Z in
      let cents :=
        if (0 <=? e)%Z then (num * 2 ^ e)%Z
        else
          let den := (2 ^ (- e))%Z in
          let q := (num / den)%Z in
          let r := (num mod den)%Z in
          match (2 * r ?= den)%Z with
          | Lt => q
          | Gt => (q + 1)%Z
          | Eq => if Z.even q then q else (q + 1)%Z
          end in
      nearest_ratio s (Z.to_N cents) 100
  | _ => x
  end.

(** [sum(l)]: the items added from left to right, starting from [0].
    (From Python 3.12 on [sum] carries a compensation term, which can move
    the last bit of the result.) *)
Definition sum (l : list float) : float :=
  fold_left PrimFloat.add l zero.

(** [x / y]: [ZeroDivisionError] when [y] is zero. *)
Definition truediv (x y : float) : option float :=
  if (y =? 0)%float then None else Some (x / y)%float.

(** [x / n] for the length [n] of a list: [ZeroDivisionError] when [n] is
    zero. A list holds fewer than [2^63] items, so [float(n)] is finite. *)
Definition truediv_len (x : float) (n : nat) : option float :=
  match n with
  | O => None
  | S _ => Some (x / nearest_int (Z.of_nat n))%float
  end.

(** [x ** 2]: [OverflowError] when a finite [x] has an infinite square. *)
Definition pow2 (x : float) : option float :=
  let r := (x * x)%float in
  if is_finite x && is_infinity r then None else Some r.

(** [math.sqrt(x)]: [ValueError] when [x] is negative. *)
Definition math_sqrt (x : float) : option float :=
  if (x <? 0)%float then None else Some (PrimFloat.sqrt x).

(** [list.sort()] on floats. Python's sort is stable and compares with [<];
    on a list without NaN every stable sort gives the same list, here the
    one of a left-to-right insertion sort. *)
Fixpoint insert (x : float) (l : list float) : list float :=
  match l with
  | [] => [x]
  | y :: l' => if (x <? y)%float then x :: l else y :: insert x l'
  end.

Definition sorted (l : list float) : list float :=
  fold_left (fun acc x => insert x acc) l [].

(** *** Calls *)

(** How a call ends: with a returned value or with an exception. *)
Inductive outcome (A : Type) : Type :=
| Return (a : A)
| Raise.
Arguments Return {A} a.
Arguments Raise {A}.

End Py.

(** ** [scrapper.py]: class [RealTimeScraper] *)

Module Scrapper.

(** *** Regular expressions of the price extractor *)

(** Number of leading white-space characters, and the rest. *)
Fixpoint skip_spaces (s : string) : nat * string :=
  match s with
  | EmptyString => (0, EmptyString)
  | String c s' =>
      if Py.isspace c then let (n, r) := skip_spaces s' in (S n, r)
      else (0, s)
  end.

(** At most [n] leading digits. *)
Fixpoint take_digits (n : nat) (s : string) : string :=
  match n, s with
  | S k, String c s' =>
      if Py.isdigit c then String c (take_digits k s') else EmptyString
  | _, _ => EmptyString
  end.

(** One match of [\$?\s*(\d+\.?\d{0,2})] at the start of [s]: the captured
    group and the length of the whole match. Every quantifier is greedy,
    and giving back a dollar sign or a space never lets [\d+] succeed, so
    the greedy attempt is the only one. *)
Definition match_price (s : string) : option (string * nat) :=
  let (n0, s1) :=
    match s with String "$" r => (1, r) | _ => (0, s) end in
  let (n1, s2) := skip_spaces s1 in
  match Py.span_digits s2 with
  | (EmptyString, _) => None
  | (ip, r1) =>
      let (dot, r2) :=
        match r1 with
        | String "." r => (String "." EmptyString, r)
        | _ => (EmptyString, r1)
        end in
      let group := String.append ip (String.append dot (take_digits 2 r2)) in
      Some (group, n0 + n1 + String.length group)
  end.

(** One match of [\$\s*(\d+\.\d{2})] at the start of [s]. *)
Definition match_dollar_price (s : string) : option (string * nat) :=
  match s with
  | String "$" r =>
      let (n1, s2) := skip_spaces r in
      match Py.span_digits s2 with
      | (EmptyString, _) => None
      | (ip, String "." (String a (String b _))) =>
          if Py.isdigit a && Py.isdigit b then
            let group :=
              String.append ip (String "." (String a (String b EmptyString))) in
            Some (group, 1 + n1 + String.length group)
          else None
      | _ => None
      end
  | _ => None
  end.

(** [re.findall] for a pattern with one group that never matches the empty
    string: the text is scanned from left to right, a match is tried at
    every position that the previous match did not cover ([skip] counts the
    characters still covered). *)
Fixpoint findall_from (matcher : string -> option (string * nat))
    (skip : nat) (s : string) : list string :=
  match s with
  | EmptyString => []
  | String _ s' =>
      match skip with
      | S k => findall_from matcher k s'
      | O =>
          match matcher s with
          | Some (group, len) => group :: findall_from matcher (len - 1) s'
          | None => findall_from matcher 0 s'
          end
      end
  end.

Definition findall (matcher : string -> option (string * nat)) (s : string)
  : list string :=
  findall_from matcher 0 s.

(** *** The parsed document *)

(** A value produced by [json.loads]. A [JDict] lists the items of the
    dictionary, each key once. *)
Inductive json : Type :=
| JNull
| JBool (b : bool)
| JInt (z : Z)
| JFloat (f : float)
| JStr (s : string)
| JList (l : list json)
| JDict (items : list (string * json)).

(** [d[key]] on the items of a dictionary; [None] when the key is absent. *)
Fixpoint dict_get (key : string) (items : list (string * json)) : option json :=
  match items with
  | [] => None
  | (k, v) :: rest => if String.eqb k key then Some v else dict_get key rest
  end.

(** [float(v)]: [None] stands for [TypeError], [ValueError] and
    [OverflowError]. *)
Definition float_of_json (v : json) : option float :=
  match v with
  | JInt z => Py.float_of_int z
  | JFloat f => Some f
  | JBool b => Some (if b then one else zero)
  | JStr s => Py.float_of_string s
  | JNull | JList _ | JDict _ => None
  end.

(** What [_extract_prices_from_soup] observes of a [BeautifulSoup] object:
    - [select sel]: [elem.get_text()] for each element of
      [soup.select(sel)], in document order;
    - [ld_json]: for each script of
      [soup.find_all('script', type='application/ld+json')] the result of
      [json.loads(script.string)], [None] when it raises;
    - [get_text]: [soup.get_text()]. *)
Record soup : Type := {
  select : string -> list string;
  ld_json : list (option json);
  get_text : string
}.

Definition dq : string := String (ascii_of_nat 34) EmptyString.

Definition price_selectors : list string :=
  [ String.append "[data-automation-id="
      (String.append dq (String.append "product-price" (String.append dq "]")));
    ".price-current"%string;
    String.append "[itemprop="
      (String.append dq (String.append "price" (String.append dq "]")));
    String.append "[data-testid="
      (String.append dq (String.append "price" (String.append dq "]")));
    ".price"%string;
    String.append "[class*="
      (String.append dq (String.append "price" (String.append dq "]")));
    String.append "[class*="
      (String.append dq (String.append "Price" (String.append dq "]")));
    String.append "span[class*="
      (String.append dq (String.append "currency" (String.append dq "]")));
    "[data-price]"%string ].

(** [0.50 < price < 200] *)
Definition plausible (price : float) : bool :=
  (0.50 <? price)%float && (price <? 200)%float.

(** The body shared by the three layers: [float(...)], then the bound;
    [except: continue] skips the candidate. *)
Definition accept (candidate : option float) : list float :=
  match candidate with
  | Some price => if plausible price then [price] else []
  | None => []
  end.

(** The matches of the price pattern in the text of one element
    (line 138): [re.findall(..., text.replace(',', ''))]. *)
Definition price_matches (text : string) : list string :=
  findall match_price (Py.replace "," EmptyString text).

(** The prices appended for one element (lines 136-145). *)
Definition element_prices (text : string) : list float :=
  flat_map (fun price_str => accept (Py.float_of_string price_str))
    (price_matches text).

(** The prices appended for one selector (lines 134-145): the loop over
    [price_elements[:15]]. *)
Definition selector_prices (sp : soup) (selector : string) : list float :=
  flat_map element_prices (firstn 15 (select sp selector)).

(** The prices appended for one JSON-LD script (lines 150-163). *)
Definition script_prices (loaded : option json) : list float :=
  match loaded with
  | Some (JDict data) =>
      match dict_get "offers" data with
      | Some (JDict offers) =>
          match dict_get "price" offers with
          | Some v => accept (float_of_json v)
          | None => []
          end
      | _ =>
          match dict_get "price" data with
          | Some v => accept (float_of_json v)
          | None => []
          end
      end
  | _ => []
  end.

(** The prices appended from the whole text (lines 166-175). *)
Definition text_prices (sp : soup) : list float :=
  flat_map (fun m => accept (Py.float_of_string m))
    (firstn 20 (findall match_dollar_price (get_text sp))).

(** [_extract_prices_from_soup]: [prices] after the three loops. *)
Definition _extract_prices_from_soup (sp : soup) : list float :=
  flat_map (selector_prices sp) price_selectors
  ++ flat_map script_prices (ld_json sp)
  ++ text_prices sp.

(** *** [_filter_prices_by_product_type] *)

Definition between (lo hi p : float) : bool :=
  (lo <=? p)%float && (p <=? hi)%float.

Definition _filter_prices_by_product_type (prices : list float)
    (item_name : string) : list float :=
  let item_lower := Py.lower item_name in
  let filtered_prices :=
    if Py.any_in ["coke"; "coca cola"; "cola"; "soda"; "drink"; "beverage"]%string
         item_lower
    then
      if negb (Py.any_in ["pack"; "case"; "12"; "24"; "family"; "bulk"]%string
                 item_lower)
      then
        let single_item_prices := filter (between 0.50 5.00) prices in
        if Py.truthy single_item_prices then single_item_prices else prices
      else prices
    else if Py.contains "chip" item_lower then
      let filtered_prices :=
        if Py.contains "family" item_lower || Py.contains "large" item_lower
        then filter (between 2.50 10.00) prices
        else filter (between 1.00 7.00) prices in
      if negb (Py.truthy filtered_prices) then prices else filtered_prices
    else if Py.contains "chocolate" item_lower then
      if negb (Py.any_in ["pack"; "case"; "multi"]%string item_lower)
      then
        let single_item_prices := filter (between 0.50 5.00) prices in
        if Py.truthy single_item_prices then single_item_prices else prices
      else prices
    else prices in
  if Py.truthy filtered_prices then filtered_prices else prices.

(** *** The end of [fetch_price_data] (lines 402-412) *)

(** Lines 403-407: sort, then drop [len // 5] prices at each end when
    there are more than four. *)
Definition trim_outliers (all_prices : list float) : list float :=
  let all_prices := Py.sorted all_prices in
  if 4 <? List.length all_prices then
    let trim := List.length all_prices / 5 in
    if 0 <? trim
    then Py.slice all_prices (Z.of_nat trim) (- Z.of_nat trim)
    else all_prices
  else all_prices.

(** Line 410: [sum(all_prices) / len(all_prices)] *)
Definition average (all_prices : list float) : option float :=
  Py.truediv_len (Py.sum all_prices) (List.length all_prices).

(** *** The outside world *)

(** The lines written by [print]. *)
Inductive message : Type :=
| Searching (item_name city : string)
| Trying (search_term : string)
| Found (n : nat) (source_name : string)
| TryingFallback
| Collected (n : nat).

(** What the scraper does to the outside world, in order of execution:
    [print(...)], [self.driver.get(url)], reading [self.driver.page_source],
    [self.session.get(url, ...)] and [time.sleep(...)] (in milliseconds). *)
Inductive event : Type :=
| Print (m : message)
| DriverGet (url : string)
| PageSource
| SessionGet (url : string)
| Sleep (ms : nat).

(** The answers of the outside world; each may depend on everything that
    happened before.
    - [driver_get h url]: [false] when [self.driver.get(url)] raises;
    - [page_source h]: [BeautifulSoup(self.driver.page_source, ...)],
      [None] when it raises;
    - [session_get h url]: the status code of the response and
      [BeautifulSoup(response.text, ...)], [None] when the request raises.
    The request headers (a random user agent) are not modelled. *)
Record world : Type := {
  driver_get : list event -> string -> bool;
  page_source : list event -> option soup;
  session_get : list event -> string -> option (Z * soup)
}.

(** A computation reads the world and extends the trace. *)
Definition M (A : Type) : Type := world -> list event -> A * list event.

Definition ret {A} (a : A) : M A := fun _ h => (a, h).

Definition bind {A B} (m : M A) (f : A -> M B) : M B :=
  fun w h => let (a, h') := m w h in f a w h'.

Notation "x <- m ;; k" := (bind m (fun x => k))
  (at level 61, m at next level, right associativity).
Notation "m ;;; k" := (bind m (fun _ => k))
  (at level 61, right associativity).

Definition print (m : message) : M unit := fun _ h => (tt, h ++ [Print m]).
Definition sleep (ms : nat) : M unit := fun _ h => (tt, h ++ [Sleep ms]).
Definition get (url : string) : M bool :=
  fun w h => (driver_get w h url, h ++ [DriverGet url]).
Definition read_page : M (option soup) :=
  fun w h => (page_source w h, h ++ [PageSource]).
Definition request (url : string) : M (option (Z * soup)) :=
  fun w h => (session_get w h url, h ++ [SessionGet url]).

(** The scraper object: [driver] tells whether [self.driver] is set. *)
Record RealTimeScraper : Type := { driver : bool }.

(** *** The sources *)

(** The [try] block of the browser path: load the page, wait, parse the
    page source and extract; any exception leaves [prices] as it was. *)
Definition via_driver (search_url : string) (wait : nat) : M (list float) :=
  ok <- get search_url ;;
  if ok then
    sleep wait ;;;
    page <- read_page ;;
    match page with
    | Some sp => ret (_extract_prices_from_soup sp)
    | None => ret []
    end
  else ret [].

(** The [try] block of the [requests] path, with the test
    [response.status_code == 200]. *)
Definition via_session (search_url : string) : M (list float) :=
  response <- request search_url ;;
  match response with
  | Some (status_code, sp) =>
      if (status_code =? 200)%Z then ret (_extract_prices_from_soup sp)
      else ret []
  | None => ret []
  end.

Definition _scrape_walmart (self : RealTimeScraper) (item_name city : string)
  : M (list float) :=
  let search_url :=
    String.append "https://www.walmart.com/search?q="
      (Py.replace " " "+" item_name) in
  prices <- (if driver self then via_driver search_url 3000 else ret []) ;;
  if negb (Py.truthy prices)
  then more <- via_session search_url ;; ret (prices ++ more)
  else ret prices.

Definition _scrape_target (self : RealTimeScraper) (item_name city : string)
  : M (list float) :=
  let search_url :=
    String.append "https://www.target.com/s?searchTerm="
      (Py.replace " " "+" item_name) in
  prices <- (if driver self then via_driver search_url 3000 else ret []) ;;
  if negb (Py.truthy prices)
  then more <- via_session search_url ;; ret (prices ++ more)
  else ret prices.

Definition _scrape_publix_api (self : RealTimeScraper) (item_name : string)
  : M (list float) :=
  prices <-
    (if driver self
     then via_driver
            (String.append "https://www.instacart.com/store/publix/search_v3/"
               (Py.replace " " "%20" item_name)) 3000
     else ret []) ;;
  if negb (Py.truthy prices)
  then
    more <- via_session
              (String.append "https://www.publix.com/shop/search?query="
                 (Py.replace " " "+" item_name)) ;;
    ret (prices ++ more)
  else ret prices.

Definition _scrape_instacart (self : RealTimeScraper) (item_name city : string)
  : M (list float) :=
  if driver self
  then via_driver
         (String.append "https://www.instacart.com/store/publix/search_v3/"
            (Py.replace " " "%20" item_name)) 3000
  else ret [].

(** The URL requested by [_scrape_google_shopping]. *)
Definition google_url (item_name city : string) : string :=
  let search_query :=
    String.append item_name
      (String.append " price "
         (String.append city " Florida grocery store")) in
  String.append "https://www.google.com/search?q="
    (String.append (Py.replace " " "+" search_query) "&tbm=shop").

Definition _scrape_google_shopping (self : RealTimeScraper)
    (item_name city : string) : M (list float) :=
  let search_url := google_url item_name city in
  if driver self then via_driver search_url 2000
  else
    response <- request search_url ;;
    match response with
    | Some (_, sp) => ret (_extract_prices_from_soup sp)
    | None => ret []
    end.

(** *** [fetch_price_data] *)

(** Lines 341-364: the search terms before the cut to three. *)
Definition search_terms (item_name : string) : list string :=
  let item_lower := Py.lower item_name in
  let search_terms := [item_name] in
  let search_terms :=
    if Py.any_in ["coke"; "coca cola"; "cola"]%string item_lower
       && negb (Py.contains "coca cola" item_lower)
    then
      (search_terms
       ++ (if negb (Py.any_in ["pack"; "case"; "12"; "24"]%string item_lower)
           then ["coca cola 20 oz"; "coca cola can"; "coca cola bottle"]%string
           else []))
      ++ ["coca cola"; "coca cola 2 liter"]%string
    else if Py.contains "coca cola" item_lower then
      search_terms
      ++ ["coca cola 2 liter"; "coca cola 20 oz"; "coca cola can"; "coke"]%string
    else if Py.contains "soda" item_lower || Py.contains "pop" item_lower then
      search_terms ++ ["soda 2 liter"%string]
    else search_terms in
  let search_terms :=
    if Py.contains "chip" item_lower then
      (search_terms
       ++ (if negb (Py.contains "bag" item_lower)
              && negb (Py.contains "family" item_lower)
           then [String.append item_name " bag"] else []))
      ++ ["potato chips"%string]
    else search_terms in
  let search_terms :=
    if Py.contains "chocolate" item_lower then
      (search_terms
       ++ (if negb (Py.contains "bar" item_lower)
           then [String.append item_name " bar"] else []))
      ++ ["chocolate bar"%string]
    else search_terms in
  search_terms.

(** Line 367: the terms that the loop iterates over, [search_terms[:3]]. *)
Definition expand (item_name : string) : list string :=
  firstn 3 (search_terms item_name).

(** Lines 371-376 *)
Definition sources (self : RealTimeScraper) (search_term city : string)
  : list (string * M (list float)) :=
  [ ("Walmart"%string, _scrape_walmart self search_term city);
    ("Target"%string, _scrape_target self search_term city);
    ("Instacart"%string, _scrape_instacart self search_term city);
    ("Publix"%string, _scrape_publix_api self search_term) ].

(** Lines 378-386: the loop over the sources of one term. *)
Fixpoint scrape_sources (srcs : list (string * M (list float)))
    (all_prices : list float) : M (list float) :=
  match srcs with
  | [] => ret all_prices
  | (source_name, scrape_func) :: rest =>
      prices <- scrape_func ;;
      if Py.truthy prices then
        print (Found (List.length prices) source_name) ;;;
        sleep 500 ;;;
        scrape_sources rest (all_prices ++ prices)
      else scrape_sources rest all_prices
  end.

(** Lines 367-390: the loop over the search terms, with its [break]. *)
Fixpoint try_terms (self : RealTimeScraper) (city : string)
    (terms : list string) (all_prices : list float) : M (list float) :=
  match terms with
  | [] => ret all_prices
  | search_term :: rest =>
      print (Trying search_term) ;;;
      all_prices <- scrape_sources (sources self search_term city) all_prices ;;
      if 5 <=? List.length all_prices then ret all_prices
      else try_terms self city rest all_prices
  end.

(** Lines 333-395: [all_prices] when the program reaches line 397. *)
Definition collect_prices (self : RealTimeScraper) (item_name city : string)
  : M (list float) :=
  print (Searching item_name city) ;;;
  all_prices <- try_terms self city (expand item_name) [] ;;
  if negb (Py.truthy all_prices) then
    print TryingFallback ;;;
    _scrape_google_shopping self item_name city
  else ret all_prices.

(** Lines 397-414: from [all_prices] to the returned value. *)
Definition summarize (all_prices : list float) (item_name : string)
  : M (Py.outcome (option float)) :=
  if Py.truthy all_prices then
    let all_prices := _filter_prices_by_product_type all_prices item_name in
    let all_prices := trim_outliers all_prices in
    match average all_prices with
    | Some avg_price =>
        print (Collected (List.length all_prices)) ;;;
        ret (Py.Return (Some (Py.round2 avg_price)))
    | None => ret Py.Raise
    end
  else ret (Py.Return None).

Definition fetch_price_data (self : RealTimeScraper) (item_name city : string)
  : M (Py.outcome (option float)) :=
  all_prices <- collect_prices self item_name city ;;
  summarize all_prices item_name.

End Scrapper.

(** ** [region_model.py]: class [ReferenceModel] *)

Module RegionModel.

Record hub : Type := { coords : float * float; index : float }.

(** [self.hubs], in insertion order (the order of [self.hubs.items()]). *)
Definition hubs : list (string * hub) :=
  [ ("miami"%string,
      {| coords := (25.7617, -80.1918)%float; index := 1.15%float |});
    ("orlando"%string,
      {| coords := (28.5383, -81.3792)%float; index := 1.02%float |});
    ("tampa"%string,
      {| coords := (27.9506, -82.4572)%float; index := 1.03%float |});
    ("jacksonville"%string,
      {| coords := (30.3322, -81.6557)%float; index := 0.95%float |});
    ("tallahassee"%string,
      {| coords := (30.4383, -84.2807)%float; index := 0.93%float |});
    ("key west"%string,
      {| coords := (24.5551, -81.7800)%float; index := 1.25%float |}) ].

Definition florida_center : float * float := (28.5383, -81.3792)%float.

Definition known_others : list (string * (float * float)) :=
  [ ("naples"%string, (26.1420, -81.7948)%float);
    ("sarasota"%string, (27.3364, -82.5307)%float);
    ("gainesville"%string, (29.6516, -82.3248)%float);
    ("pensacola"%string, (30.4213, -87.2169)%float);
    ("clearwater"%string, (27.9659, -82.8001)%float);
    ("fort lauderdale"%string, (26.1224, -80.1373)%float) ].

(** [d.get(key)] on the items of a dictionary with string keys. *)
Fixpoint lookup {A} (key : string) (items : list (string * A)) : option A :=
  match items with
  | [] => None
  | (k, v) :: rest => if String.eqb k key then Some v else lookup key rest
  end.

Definition get_coordinates (city_name : string) : float * float :=
  let city_name := Py.strip (Py.lower city_name) in
  match lookup city_name hubs with
  | Some data => coords data
  | None =>
      match lookup city_name known_others with
      | Some c => c
      | None => florida_center
      end
  end.

(** Lines 57-65: the loop over the hubs and the final division.
    [x ** 2] is taken as the correctly rounded product [x * x]. *)
Fixpoint weigh (items : list (string * hub)) (lat lon : float)
    (total_weight weighted_index : float) : Py.outcome float :=
  match items with
  | [] =>
      match Py.truediv weighted_index total_weight with
      | Some r => Py.Return r
      | None => Py.Raise
      end
  | (_, data) :: rest =>
      let (h_lat, h_lon) := coords data in
      match Py.pow2 (lat - h_lat), Py.pow2 (lon - h_lon) with
      | Some a, Some b =>
          match Py.math_sqrt (a + b) with
          | Some dist =>
              if (dist =? 0)%float then Py.Return (index data)
              else
                match Py.pow2 dist with
                | Some d2 =>
                    match Py.truediv 1 d2 with
                    | Some weight =>
                        weigh rest lat lon
                          (total_weight + weight)%float
                          (weighted_index + index data * weight)%float
                    | None => Py.Raise
                    end
                | None => Py.Raise
                end
          | None => Py.Raise
          end
      | _, _ => Py.Raise
      end
  end.

(** [get_regional_multiplier(city, latitude, longitude)]; an argument left
    at its default is [None]. *)
Definition get_regional_multiplier (city : option string)
    (latitude longitude : option float) : Py.outcome float :=
  match latitude, longitude with
  | Some lat, Some lon => weigh hubs lat lon 0 0
  | _, _ =>
      match city with
      | Some c => let (lat, lon) := get_coordinates c in weigh hubs lat lon 0 0
      | None => Py.Raise
      end
  end.

(** The coordinates that [get_coordinates] can return. *)
Definition city_coordinates : list (float * float) :=
  map (fun h => coords (snd h)) hubs ++ map snd known_others
  ++ [florida_center].


(** *** The same computation in exact arithmetic

    The formula of [get_regional_multiplier] read over the real numbers,
    with the decimal constants of the source: what the floating-point code
    approximates. A hub is [(latitude, longitude, index)]. *)








End RegionModel.

(** ** The vocabulary of the specification *)

Module Spec.

Import Scrapper.

(** The product categories of the specification. *)
Inductive category : Type :=
| beverage_single
| beverage_bulk
| snack_regular
| snack_family
| confection_single
| confection_multi
| generic.

(** The category of an item name: the keyword tests of
    [_filter_prices_by_product_type], in their order. *)
Definition classify (item_name : string) : category :=
  let item_lower := Py.lower item_name in
  if Py.any_in ["coke"; "coca cola"; "cola"; "soda"; "drink"; "beverage"]%string
       item_lower
  then
    if Py.any_in ["pack"; "case"; "12"; "24"; "family"; "bulk"]%string item_lower
    then beverage_bulk else beverage_single
  else if Py.contains "chip" item_lower then
    if Py.contains "family" item_lower || Py.contains "large" item_lower
    then snack_family else snack_regular
  else if Py.contains "chocolate" item_lower then
    if Py.any_in ["pack"; "case"; "multi"]%string item_lower
    then confection_multi else confection_single
  else generic.

(** The envelope of a category; [None] is "unfiltered". *)
Definition envelope (c : category) : option (float * float) :=
  match c with
  | beverage_single => Some (0.50, 5.00)%float
  | beverage_bulk => None
  | snack_regular => Some (1.00, 7.00)%float
  | snack_family => Some (2.50, 10.00)%float
  | confection_single => Some (0.50, 5.00)%float
  | confection_multi => None
  | generic => None
  end.

Definition in_envelope (c : category) (p : float) : bool :=
  match envelope c with
  | Some (lo, hi) => between lo hi p
  | None => true
  end.

(** The pool restricted to the envelope of a category. *)
Definition restrict (c : category) (pool : list float) : list float :=
  filter (in_envelope c) pool.

(** *** Observations on a trace *)

(** The search terms started, in order: the [Trying] lines. *)
Fixpoint tried_terms (tr : list event) : list string :=
  match tr with
  | [] => []
  | Print (Trying t) :: r => t :: tried_terms r
  | _ :: r => tried_terms r
  end.

(** The number of prices announced by the [Found] lines. *)
Fixpoint found_count (tr : list event) : nat :=
  match tr with
  | [] => 0
  | Print (Found n _) :: r => n + found_count r
  | _ :: r => found_count r
  end.

(** The number of times the fallback was announced. *)
Fixpoint fallback_count (tr : list event) : nat :=
  match tr with
  | [] => 0
  | Print TryingFallback :: r => S (fallback_count r)
  | _ :: r => fallback_count r
  end.

(** The URLs requested, through the browser or through [requests]. *)
Fixpoint requested (tr : list event) : list string :=
  match tr with
  | [] => []
  | DriverGet url :: r => url :: requested r
  | SessionGet url :: r => url :: requested r
  | _ :: r => requested r
  end.

(** A trace without [print]. *)
Definition silent (tr : list event) : Prop :=
  Forall (fun e => match e with Print _ => False | _ => True end) tr.

(** No search term is started once [count] prices and those announced
    since then make five or more. *)
Fixpoint starts_below_five (count : nat) (tr : list event) : Prop :=
  match tr with
  | [] => True
  | Print (Trying _) :: r => count < 5 /\ starts_below_five count r
  | Print (Found n _) :: r => starts_below_five (count + n) r
  | _ :: r => starts_below_five count r
  end.

(** A URL of the fallback search engine. *)
Definition is_google (url : string) : bool :=
  String.prefix "https://www.google.com/" url.

(** A price within the plausibility bound. *)
Definition in_bound (p : float) : Prop := plausible p = true.

(** What every source guarantees, whatever the world answers: it extends
    the trace without printing, asks no page of the fallback search engine,
    and returns prices within the plausibility bound. *)
Definition source_ok (m : M (list float)) : Prop :=
  forall w h, exists evs,
    snd (m w h) = h ++ evs
    /\ silent evs
    /\ Forall (fun u => is_google u = false) (requested evs)
    /\ Forall in_bound (fst (m w h)).

(** *** Attempting everything

    The straight-line program that tries every source for every search
    term and then the fallback, whatever they answer. *)

Fixpoint run_all (ms : list (M (list float))) : M unit :=
  match ms with
  | [] => ret tt
  | m :: rest => m ;;; run_all rest
  end.

Fixpoint attempt_terms (self : RealTimeScraper) (city : string)
    (terms : list string) : M unit :=
  match terms with
  | [] => ret tt
  | search_term :: rest =>
      print (Trying search_term) ;;;
      run_all (map snd (sources self search_term city)) ;;;
      attempt_terms self city rest
  end.

Definition attempt_everything (self : RealTimeScraper)
    (item_name city : string) : M unit :=
  print (Searching item_name city) ;;;
  attempt_terms self city (expand item_name) ;;;
  print TryingFallback ;;;
  _scrape_google_shopping self item_name city ;;;
  ret tt.

(** The part of [collect_prices] before the fallback (lines 333-390). *)
Definition term_phase (self : RealTimeScraper) (item_name city : string)
  : M (list float) :=
  print (Searching item_name city) ;;;
  try_terms self city (expand item_name) [].

(** *** Sample inputs *)

(** A page where one element matched by [.price] lists sixteen prices. *)
Definition crowded_page : soup :=
  {| select := fun selector =>
       if String.eqb selector ".price"
       then ["$1.00 $2.00 $3.00 $4.00 $5.00 $6.00 $7.00 $8.00 $9.00 $10.00 $11.00 $12.00 $13.00 $14.00 $15.00 $16.00"%string]
       else [];
     ld_json := [];
     get_text := EmptyString |}.

(** A page with the six prices of scenario A in its text. *)
Definition scenario_page : soup :=
  {| select := fun _ => [];
     ld_json := [];
     get_text := "$1.89 $1.95 $1.99 $2.05 $2.10 $10.50" |}.

(** A world where every request fails. *)
Definition offline : world :=
  {| driver_get := fun _ _ => false;
     page_source := fun _ => None;
     session_get := fun _ _ => None |}.

(** A world where every request is answered with the page of scenario A. *)
Definition stocked : world :=
  {| driver_get := fun _ _ => true;
     page_source := fun _ => Some scenario_page;
     session_get := fun _ _ => Some (200%Z, scenario_page) |}.

(** What [summarize] adds to the trace: nothing, or the [Collected] line. *)
Definition summary_tail (tail : list event) : Prop :=
  tail = [] \/ exists n, tail = [Print (Collected n)].

(** The document cut to the first fifteen elements of every selector. *)
Definition first_fifteen (sp : soup) : soup :=
  {| select := fun selector => firstn 15 (select sp selector);
     ld_json := ld_json sp;
     get_text := get_text sp |}.

(** A float that is not NaN. *)
Definition ordered (x : float) : Prop := is_nan x = false.

(** [a <= b] on floats. *)
Definition fle (a b : float) : Prop := (a <=? b)%float = true.

(** The shape of a group captured by [\d+\.?\d{0,2}]: digits, then
    nothing, a dot, or a dot and one or two digits. *)
Definition all_digits (s : string) : bool :=
  forallb Py.isdigit (list_ascii_of_string s).

Definition currency_shaped (g : string) : Prop :=
  exists ip dot fp,
    g = String.append ip (String.append dot fp)
    /\ all_digits ip = true /\ 1 <= String.length ip
    /\ (dot = EmptyString \/ dot = String "." EmptyString)
    /\ all_digits fp = true /\ String.length fp <= 2
    /\ (dot = EmptyString -> fp = EmptyString).

End Spec.

(** ** More observations on a trace *)

Module Cost.

Import Scrapper Spec.

(** The time spent in [time.sleep], in milliseconds. *)
Fixpoint slept (tr : list event) : nat :=
  match tr with
  | [] => 0
  | Sleep ms :: r => ms + slept r
  | _ :: r => slept r
  end.

(** The number of [Found] lines: the sources that gave prices. *)
Fixpoint found_lines (tr : list event) : nat :=
  match tr with
  | [] => 0
  | Print (Found _ _) :: r => S (found_lines r)
  | _ :: r => found_lines r
  end.

(** The number of half-second pauses. *)
Fixpoint short_pauses (tr : list event) : nat :=
  match tr with
  | [] => 0
  | Sleep 500 :: r => S (short_pauses r)
  | _ :: r => short_pauses r
  end.

(** A computation that, whatever the world answers, extends the trace
    with events that all satisfy [P]. *)
Definition emits {A} (P : event -> Prop) (m : M A) : Prop :=
  forall w h, exists evs, snd (m w h) = h ++ evs /\ Forall P evs.

(** A source that asks at most [r] pages and sleeps at most [s]
    milliseconds, without printing. *)
Definition costs (r s : nat) (m : M (list float)) : Prop :=
  forall w h, exists evs,
    snd (m w h) = h ++ evs
    /\ silent evs
    /\ List.length (requested evs) <= r
    /\ slept evs <= s.

(** An event of a run without browser: a line printed, a page asked
    through [requests], or a pause of half a second. *)
Definition browserless (e : event) : Prop :=
  match e with
  | DriverGet _ | PageSource => False
  | Sleep ms => ms = 500
  | Print _ | SessionGet _ => True
  end.

(** A string without the space character. *)
Definition no_space (s : string) : bool :=
  forallb (fun c => negb (Ascii.eqb c " ")) (list_ascii_of_string s).

(** The five sites that the scraper addresses. *)
Definition sites : list string :=
  [ "https://www.walmart.com/search?q=";
    "https://www.target.com/s?searchTerm=";
    "https://www.instacart.com/store/publix/search_v3/";
    "https://www.publix.com/shop/search?query=";
    "https://www.google.com/search?q=" ]%string.

(** A URL of one of the five sites, without a space. *)
Definition well_formed (url : string) : bool :=
  no_space url && existsb (fun site => String.prefix site url) sites.

(** An event whose URL, if it has one, is well formed. *)
Definition asks_well_formed (e : event) : Prop :=
  match e with
  | DriverGet url | SessionGet url => well_formed url = true
  | _ => True
  end.

(** A string of digits and dots. *)
Definition plain (s : string) : bool :=
  forallb (fun c => Py.isdigit c || Ascii.eqb c ".") (list_ascii_of_string s).

(** [a <= b] between prices within the plausibility bound. *)
Definition price_le (a b : float) : Prop :=
  in_bound a /\ in_bound b /\ fle a b.

(** A string that does not start with white space. *)
Definition tidy (s : string) : Prop :=
  match s with
  | EmptyString => True
  | String c _ => Py.isspace c = false
  end.

End Cost.


(** ** More Python built-ins *)

Module PyMore.

Import Scrapper.

Definition islower (c : ascii) : bool :=
  let n := nat_of_ascii c in (97 <=? n) && (n <=? 122).

Definition upper_char (c : ascii) : ascii :=
  if islower c then ascii_of_nat (nat_of_ascii c - 32) else c.

(** [s.upper()] *)
Fixpoint upper (s : string) : string :=
  match s with
  | EmptyString => EmptyString
  | String c s' => String (upper_char c) (upper s')
  end.

(** [s.replace(old, new)] for a non-empty [old]: the occurrences are
    replaced from left to right and do not overlap ([skip] counts the
    characters of the occurrence just replaced). *)
Fixpoint replace_from (old new : string) (skip : nat) (s : string) : string :=
  match s with
  | EmptyString => EmptyString
  | String c s' =>
      match skip with
      | S k => replace_from old new k s'
      | O =>
          if String.prefix old s
          then String.append new
                 (replace_from old new (String.length old - 1) s')
          else String c (replace_from old new 0 s')
      end
  end.

Definition replace_all (old new s : string) : string :=
  replace_from old new 0 s.

(** The truth value of a value loaded from JSON: [None], [False], zero,
    the empty string, list and dictionary are false. *)
Definition truth (v : json) : bool :=
  match v with
  | JNull => false
  | JBool b => b
  | JInt z => negb (z =? 0)%Z
  | JFloat f => negb (f =? 0)%float
  | JStr s => negb (String.eqb s EmptyString)
  | JList l => Py.truthy l
  | JDict items => Py.truthy items
  end.

(** [a or b] *)
Definition or_else (a b : json) : json := if truth a then a else b.

(** [d.get(key)]: [None] when the key is absent. *)
Definition get (key : string) (items : list (string * json)) : json :=
  match dict_get key items with
  | Some v => v
  | None => JNull
  end.

(** [d.get(key, default)] *)
Definition get_default (key : string) (default : json)
    (items : list (string * json)) : json :=
  match dict_get key items with
  | Some v => v
  | None => default
  end.

(** [round(x, ndigits)] for [ndigits >= 0]: as [Py.round2], with
    [10 ^ ndigits] in place of [100]. *)
Definition round_to (ndigits : nat) (x : float) : float :=
  match Prim2SF x with
  | S754_finite s m e =>
      let scale := (10 ^ Z.of_nat ndigits)%Z in
      let num := (Zpos m * scale)%Z in
      let scaled :=
        if (0 <=? e)%Z then (num * 2 ^ e)%Z
        else
          let den := (2 ^ (- e))%Z in
          let q := (num / den)%Z in
          let r := (num mod den)%Z in
          match (2 * r ?= den)%Z with
          | Lt => q
          | Gt => (q + 1)%Z
          | Eq => if Z.even q then q else (q + 1)%Z
          end in
      Py.nearest_ratio s (Z.to_N scaled) (Z.to_pos scale)
  | _ => x
  end.

End PyMore.

(** ** [geocoding.py]: class [GeocodingService] *)

Module Geocoding.

Import Scrapper.

(** The failures that [reverse_geocode] reports with ['success': False];
    the text of the exception that follows "Network error:" and
    "Geocoding error:" is not modelled. *)
Inductive failure : Type :=
| GeocodingFailed
| NetworkError
| GeocodingError.

(** The dictionary returned by [reverse_geocode]: the one without the key
    ['success'] (the location is not in Florida), the one with
    ['success': True], and the failures. *)
Inductive located : Type :=
| NotInFlorida (state state_code : json)
| Located (city state state_code : json) (county : string)
    (latitude longitude : float) (full_address : json)
    (raw : list (string * json))
| Failure (why : failure).

(** [response.json()]: the value, or an exception; whether that exception
    is a [requests.exceptions.RequestException] depends on the version of
    [requests]. *)
Inductive body : Type :=
| Body (data : json)
| BadBody (request_exception : bool).

(** [self.session.get(...)]: a response, or an exception. *)
Inductive reply : Type :=
| Reply (status_code : Z) (b : body)
| Unreachable (request_exception : bool).

(** The receiver of a [str] method; [None] is [AttributeError]. *)
Definition as_str (v : json) : option string :=
  match v with
  | JStr s => Some s
  | _ => None
  end.

(** [address.get('county', '').replace(' County', '')] *)
Definition county_of (address : list (string * json)) : option string :=
  match as_str (PyMore.get_default "county" (JStr EmptyString) address) with
  | Some s => Some (PyMore.replace_all " County" EmptyString s)
  | None => None
  end.

(** Lines 58-64: the first of city, town, village and municipality that is
    true, else the county without " County". *)
Definition city_of (address : list (string * json)) : option json :=
  if PyMore.truth (PyMore.get "city" address)
  then Some (PyMore.get "city" address)
  else if PyMore.truth (PyMore.get "town" address)
  then Some (PyMore.get "town" address)
  else if PyMore.truth (PyMore.get "village" address)
  then Some (PyMore.get "village" address)
  else if PyMore.truth (PyMore.get "municipality" address)
  then Some (PyMore.get "municipality" address)
  else option_map JStr (county_of address).

(** Line 71: [state_code.upper() != 'FL' and 'florida' not in
    state.lower()]; [None] is [AttributeError]. *)
Definition outside_florida (state state_code : json) : option bool :=
  match as_str state_code with
  | Some code =>
      if negb (String.eqb (PyMore.upper code) "FL") then
        match as_str state with
        | Some name => Some (negb (Py.contains "florida" (Py.lower name)))
        | None => None
        end
      else Some false
  | None => None
  end.

(** ['address' in data]; [None] is [TypeError]. *)
Definition has_address (data : json) : option bool :=
  match data with
  | JDict items =>
      Some (match dict_get "address" items with
            | Some _ => true
            | None => false
            end)
  | JList l =>
      Some (existsb (fun v => match v with
                              | JStr s => String.eqb s "address"
                              | _ => false
                              end) l)
  | JStr s => Some (Py.contains "address" s)
  | JNull | JBool _ | JInt _ | JFloat _ => None
  end.

(** Lines 54-88, for a loaded [data]; [None] is an exception, caught by
    [except Exception]. Only a dictionary can be indexed by ['address'],
    and only a dictionary has [get]. *)
Definition read_address (data : json) (latitude longitude : float)
  : option located :=
  match has_address data with
  | None => None
  | Some false => Some (Failure GeocodingFailed)
  | Some true =>
      match data with
      | JDict items =>
          match dict_get "address" items with
          | Some (JDict address) =>
              match city_of address with
              | None => None
              | Some city =>
                  let state :=
                    PyMore.get_default "state" (JStr EmptyString) address in
                  let state_code :=
                    PyMore.get_default "state_code" (JStr EmptyString)
                      address in
                  match county_of address with
                  | None => None
                  | Some county =>
                      match outside_florida state state_code with
                      | None => None
                      | Some true => Some (NotInFlorida state state_code)
                      | Some false =>
                          Some (Located city state state_code county
                                  latitude longitude
                                  (PyMore.get_default "display_name"
                                     (JStr EmptyString) items)
                                  address)
                      end
                  end
              end
          | _ => None
          end
      | _ => None
      end
  end.

(** Lines 49-95, from the reply of the server to the dictionary returned. *)
Definition interpret (r : reply) (latitude longitude : float) : located :=
  match r with
  | Unreachable true => Failure NetworkError
  | Unreachable false => Failure GeocodingError
  | Reply status_code b =>
      if (status_code =? 200)%Z then
        match b with
        | BadBody true => Failure NetworkError
        | BadBody false => Failure GeocodingError
        | Body data =>
            match read_address data latitude longitude with
            | Some d => d
            | None => Failure GeocodingError
            end
        end
      else Failure GeocodingFailed
  end.

(** What the service does to the outside world: reading [time.time()],
    [time.sleep(seconds)], and the request with its coordinates. *)
Inductive event : Type :=
| Clock
| Pause (seconds : float)
| Reverse (latitude longitude : float).

(** The answers of the outside world, each depending on what happened
    before: the clock, whether [time.sleep] returns (it raises on a length
    that it cannot take), and the server. *)
Record world : Type := {
  time : list event -> float;
  sleeps : list event -> float -> bool;
  server : list event -> reply
}.

(** The service object: [self.last_request_time]
    ([self.min_request_interval] is always [1.0]). *)
Record GeocodingService : Type := { last_request_time : float }.

(** A computation reads the world, updates the service object and extends
    the trace. *)
Definition G (A : Type) : Type :=
  world -> GeocodingService -> list event ->
  A * GeocodingService * list event.

(** [_rate_limit]; [None] when [time.sleep] raises. *)
Definition _rate_limit : G (option unit) :=
  fun w self h =>
    let current_time := time w h in
    let h := h ++ [Clock] in
    let time_since_last := (current_time - last_request_time self)%float in
    if (time_since_last <? 1.0)%float then
      let seconds := (1.0 - time_since_last)%float in
      if sleeps w h seconds then
        let h := h ++ [Pause seconds] in
        (Some tt, {| last_request_time := time w h |}, h ++ [Clock])
      else (None, self, h ++ [Pause seconds])
    else (Some tt, {| last_request_time := time w h |}, h ++ [Clock]).

Definition reverse_geocode (latitude longitude : float) : G located :=
  fun w self h =>
    match _rate_limit w self h with
    | (Some _, self, h) =>
        (interpret (server w h) latitude longitude, self,
         h ++ [Reverse latitude longitude])
    | (None, self, h) => (Failure GeocodingError, self, h)
    end.

(** The requests of a trace. *)
Definition lookups (tr : list event) : list (float * float) :=
  flat_map (fun e => match e with
                     | Reverse latitude longitude => [(latitude, longitude)]
                     | _ => []
                     end) tr.

End Geocoding.

(** ** [api.py]: the two price endpoints *)

Module Api.

Import Scrapper.

(** The methods that reach the handlers of the routes declared with
    [methods=['POST', 'GET']]. *)
Inductive http_method : Type := GET | HEAD | POST.

(** What a handler reads of [flask.request]: [request.method], the result
    of [request.get_json()] (a value or an exception), and the fields of
    [request.form] and [request.args] in the order received. *)
Record request : Type := {
  method : http_method;
  get_json : Py.outcome json;
  form : list (string * string);
  args : list (string * string)
}.

(** [fields.get(key)] on a [MultiDict]: the first value of the key, else
    [None]. *)
Fixpoint first_value (key : string) (fields : list (string * string)) : json :=
  match fields with
  | [] => JNull
  | (k, v) :: rest =>
      if String.eqb k key then JStr v else first_value key rest
  end.

(** The four variables set by lines 68-78 ([subject] is [product] in
    [check_price] and [item] in [vendor_pricing]). *)
Record parameters : Type := {
  subject : json;
  city : json;
  latitude : json;
  longitude : json
}.

(** Lines 68-78 and 204-214; [key] is ['product'] or ['item']. [Raise]
    when [get_json] raises or when the body is not a dictionary
    ([data.get] is [AttributeError]). *)
Definition read_parameters (key : string) (r : request)
  : Py.outcome parameters :=
  match method r with
  | POST =>
      match get_json r with
      | Py.Raise => Py.Raise
      | Py.Return loaded =>
          match PyMore.or_else loaded (JDict []) with
          | JDict data =>
              Py.Return
                {| subject :=
                     PyMore.or_else (PyMore.get key data)
                       (first_value key (form r));
                   city :=
                     PyMore.or_else (PyMore.get "city" data)
                       (first_value "city" (form r));
                   latitude :=
                     PyMore.or_else
                       (PyMore.or_else
                          (PyMore.or_else (PyMore.get "latitude" data)
                             (PyMore.get "lat" data))
                          (first_value "latitude" (form r)))
                       (first_value "lat" (form r));
                   longitude :=
                     PyMore.or_else
                       (PyMore.or_else
                          (PyMore.or_else (PyMore.get "longitude" data)
                             (PyMore.get "lon" data))
                          (first_value "longitude" (form r)))
                       (first_value "lon" (form r)) |}
          | _ => Py.Raise
          end
      end
  | GET | HEAD =>
      Py.Return
        {| subject := first_value key (args r);
           city := first_value "city" (args r);
           latitude :=
             PyMore.or_else (first_value "latitude" (args r))
               (first_value "lat" (args r));
           longitude :=
             PyMore.or_else (first_value "longitude" (args r))
               (first_value "lon" (args r)) |}
  end.

(** [float(v)] with the kind of the exception: [ValueError] for a string
    that is no number, [TypeError] or [OverflowError] otherwise. *)
Inductive conversion : Type :=
| Number (f : float)
| ValueError
| OtherError.

Definition to_float (v : json) : conversion :=
  match v with
  | JStr s =>
      match Py.float_of_string s with
      | Some f => Number f
      | None => ValueError
      end
  | JInt z =>
      match Py.float_of_int z with
      | Some f => Number f
      | None => OtherError
      end
  | JFloat f => Number f
  | JBool b => Number (if b then one else zero)
  | JNull | JList _ | JDict _ => OtherError
  end.

(** Line 95: [24 <= lat <= 31] and [-87 <= lon <= -80]. *)
Definition in_florida_bounds (lat lon : float) : bool :=
  ((24 <=? lat) && (lat <=? 31) && ((-87) <=? lon) && (lon <=? (-80)))%float.

Inductive level : Type := HIGH | MEDIUM | LOW.

(** The responses of the two handlers: the JSON body, with the fields that
    vary, and through [status_code] the status. *)
Inductive response : Type :=
| MissingParameter
| OutsideBounds
| GeocodeFailed (details : Geocoding.located)
| CityUndetermined (details : Geocoding.located)
| InvalidCoordinates
| MissingLocation
| Unavailable (subject city : json)
| Price (product city : json) (price : float) (location_type : level)
    (multiplier : float) (coordinates : option (float * float))
| Recommendation (item city : json)
    (competitor_avg recommended_min recommended_max : float)
    (location_type : level) (multiplier : float)
    (coordinates : option (float * float))
| ServerError.

Definition status_code (r : response) : Z :=
  match r with
  | Price _ _ _ _ _ _ | Recommendation _ _ _ _ _ _ _ _ => 200
  | Unavailable _ _ => 404
  | ServerError => 500
  | MissingParameter | OutsideBounds | GeocodeFailed _ | CityUndetermined _
  | InvalidCoordinates | MissingLocation => 400
  end.

(** The surroundings of a handler: [str(v)] for a value that is not a
    string (used where an f-string prints it), the world of the geocoding
    service and the world of the scraper. *)
Record environment : Type := {
  str : json -> string;
  nominatim : Geocoding.world;
  web : Scrapper.world
}.

(** What a handler changes: the module's [geocoding] object with the trace
    of its calls, and the trace of the scraper. *)
Record state : Type := {
  geocoding : Geocoding.GeocodingService;
  located : list Geocoding.event;
  scraped : list Scrapper.event
}.

(** [f'{v}'] *)
Definition text (env : environment) (v : json) : string :=
  match v with
  | JStr s => s
  | _ => str env v
  end.

(** Lines 88-119 and 224-255: [city], [lat] and [lon] after the block, or
    the response returned from inside it. *)
Inductive position : Type :=
| Resolved (city : json) (coordinates : option (float * float))
| Rejected (r : response).

Definition locate (env : environment) (p : parameters) (s : state)
  : position * state :=
  if PyMore.truth (latitude p) && PyMore.truth (longitude p) then
    match to_float (latitude p) with
    | ValueError => (Rejected InvalidCoordinates, s)
    | OtherError => (Rejected ServerError, s)
    | Number lat =>
        match to_float (longitude p) with
        | ValueError => (Rejected InvalidCoordinates, s)
        | OtherError => (Rejected ServerError, s)
        | Number lon =>
            if negb (in_florida_bounds lat lon)
            then (Rejected OutsideBounds, s)
            else
              let '(geo_result, service, h) :=
                Geocoding.reverse_geocode lat lon (nominatim env)
                  (geocoding s) (located s) in
              let s := {| geocoding := service; located := h;
                          scraped := scraped s |} in
              match geo_result with
              | Geocoding.Located city _ _ _ _ _ _ _ =>
                  if PyMore.truth city
                  then (Resolved city (Some (lat, lon)), s)
                  else (Rejected (CityUndetermined geo_result), s)
              | _ => (Rejected (GeocodeFailed geo_result), s)
              end
        end
    end
  else (Resolved (city p) None, s).

(** [scraper.fetch_price_data(subject, city)] for values of the request:
    a subject that is not a string has no [lower], which raises after the
    first line is printed; the city is only printed and formatted. *)
Definition fetch (env : environment) (self : RealTimeScraper)
    (subject city : json) (s : state) : Py.outcome (option float) * state :=
  match subject with
  | JStr item_name =>
      let (r, h) :=
        fetch_price_data self item_name (text env city) (web env) (scraped s) in
      (r, {| geocoding := geocoding s; located := located s; scraped := h |})
  | _ =>
      (Py.Raise,
       {| geocoding := geocoding s; located := located s;
          scraped := scraped s
                     ++ [Print (Searching (text env subject) (text env city))] |})
  end.

(** Lines 145-148: by the coordinates when there are, else by the name
    ([lower] of a city that is not a string raises). *)
Definition multiplier_of (city : json) (coordinates : option (float * float))
  : Py.outcome float :=
  match coordinates with
  | Some (lat, lon) =>
      RegionModel.get_regional_multiplier None (Some lat) (Some lon)
  | None =>
      match city with
      | JStr c => RegionModel.get_regional_multiplier (Some c) None None
      | _ => Py.Raise
      end
  end.

(** Lines 151-156. *)
Definition location_type_of (multiplier : float) : level :=
  if (1.05 <? multiplier)%float then HIGH
  else if (multiplier <? 0.98)%float then LOW
  else MEDIUM.

(** [check_price], for the scraper [self] of the thread. *)
Definition check_price (env : environment) (self : RealTimeScraper)
    (r : request) (s : state) : response * state :=
  match read_parameters "product" r with
  | Py.Raise => (ServerError, s)
  | Py.Return p =>
      if negb (PyMore.truth (subject p)) then (MissingParameter, s)
      else
        match locate env p s with
        | (Rejected e, s) => (e, s)
        | (Resolved city coordinates, s) =>
            if negb (PyMore.truth city) then (MissingLocation, s)
            else
              match fetch env self (subject p) city s with
              | (Py.Raise, s) => (ServerError, s)
              | (Py.Return None, s) => (Unavailable (subject p) city, s)
              | (Py.Return (Some live_price), s) =>
                  match multiplier_of city coordinates with
                  | Py.Raise => (ServerError, s)
                  | Py.Return multiplier =>
                      (Price (subject p) city (Py.round2 live_price)
                         (location_type_of multiplier)
                         (PyMore.round_to 3 multiplier) coordinates, s)
                  end
              end
        end
  end.

(** [vendor_pricing], for the scraper [self] of the thread. *)
Definition vendor_pricing (env : environment) (self : RealTimeScraper)
    (r : request) (s : state) : response * state :=
  match read_parameters "item" r with
  | Py.Raise => (ServerError, s)
  | Py.Return p =>
      if negb (PyMore.truth (subject p)) then (MissingParameter, s)
      else
        match locate env p s with
        | (Rejected e, s) => (e, s)
        | (Resolved city coordinates, s) =>
            if negb (PyMore.truth city) then (MissingLocation, s)
            else
              match fetch env self (subject p) city s with
              | (Py.Raise, s) => (ServerError, s)
              | (Py.Return None, s) => (Unavailable (subject p) city, s)
              | (Py.Return (Some market_price), s) =>
                  match multiplier_of city coordinates with
                  | Py.Raise => (ServerError, s)
                  | Py.Return multiplier =>
                      let min_price := (market_price * 0.95)%float in
                      let max_price := (market_price * 1.05)%float in
                      (Recommendation (subject p) city
                         (Py.round2 market_price) (Py.round2 min_price)
                         (Py.round2 max_price) (location_type_of multiplier)
                         (PyMore.round_to 3 multiplier) coordinates, s)
                  end
              end
        end
  end.

(** The lists of [list_cities]. *)
Definition major_hubs : list string :=
  ["miami"; "orlando"; "tampa"; "jacksonville"; "tallahassee"; "key west"]%string.

Definition other_cities : list string :=
  ["naples"; "sarasota"; "gainesville"; "pensacola"; "clearwater";
   "fort lauderdale"; "daytona beach"]%string.

End Api.

(** ** Observations on the endpoints *)

Module Endpoint.

Import Scrapper.

(** The two price endpoints, each with the name of its required
    parameter. *)
Definition handlers
  : list (string
          * (Api.environment -> RealTimeScraper -> Api.request -> Api.state
             -> Api.response * Api.state)) :=
  [("product"%string, Api.check_price); ("item"%string, Api.vendor_pricing)].

(** The fields ["city"], ["multiplier"] and ["coordinates"] of a response
    with status 200. *)
Definition answered_city (a : Api.response) : option json :=
  match a with
  | Api.Price _ city _ _ _ _ => Some city
  | Api.Recommendation _ city _ _ _ _ _ _ => Some city
  | _ => None
  end.

Definition answered_multiplier (a : Api.response) : option float :=
  match a with
  | Api.Price _ _ _ _ multiplier _ => Some multiplier
  | Api.Recommendation _ _ _ _ _ _ multiplier _ => Some multiplier
  | _ => None
  end.

Definition answered_coordinates (a : Api.response) : option (float * float) :=
  match a with
  | Api.Price _ _ _ _ _ coordinates => coordinates
  | Api.Recommendation _ _ _ _ _ _ _ coordinates => coordinates
  | _ => None
  end.

Definition answered_level (a : Api.response) : option Api.level :=
  match a with
  | Api.Price _ _ _ location_type _ _ => Some location_type
  | Api.Recommendation _ _ _ _ _ location_type _ _ => Some location_type
  | _ => None
  end.

(** A multiplier answered for a city name: within [[0.93, 1.25]] after
    rounding to three decimals. *)
Definition rounded_within (r : Py.outcome float) : bool :=
  match r with
  | Py.Return m =>
      (0.93 <=? PyMore.round_to 3 m)%float
      && (PyMore.round_to 3 m <=? 1.25)%float
  | Py.Raise => false
  end.

(** A city name that [get_coordinates] finds among the hubs or the other
    known cities. *)
Definition known (city_name : string) : bool :=
  let city_name := Py.strip (Py.lower city_name) in
  match RegionModel.lookup city_name RegionModel.hubs,
        RegionModel.lookup city_name RegionModel.known_others with
  | None, None => false
  | _, _ => true
  end.

(** The work of a handler between two states: what it added to the trace
    of the geocoding service and to the trace of the scraper. *)
Definition work (s s' : Api.state)
    (lookup : list Geocoding.event) (scraping : list event) : Prop :=
  Api.located s' = Api.located s ++ lookup
  /\ Api.scraped s' = Api.scraped s ++ scraping.

(** A request for which a handler raises before doing anything: its body
    cannot be read as a dictionary, or one of the coordinates given is of a
    type, or an integer of a size, that [float] does not take. *)
Definition malformed (key : string) (r : Api.request) : Prop :=
  Api.read_parameters key r = Py.Raise
  \/ exists p,
       Api.read_parameters key r = Py.Return p
       /\ PyMore.truth (Api.latitude p) && PyMore.truth (Api.longitude p)
          = true
       /\ (Api.to_float (Api.latitude p) = Api.OtherError
           \/ Api.to_float (Api.longitude p) = Api.OtherError).

(** The three ways in which a handler ends: before any call, after a call
    of the geocoding service that gave no city, or after the scraper ran. *)
Definition untouched (key : string) (r : Api.request) (a : Api.response)
    (s s' : Api.state) : Prop :=
  s' = s
  /\ (a = Api.MissingParameter \/ a = Api.MissingLocation
      \/ a = Api.InvalidCoordinates \/ a = Api.OutsideBounds
      \/ (a = Api.ServerError /\ malformed key r)).

Definition unplaced (key : string) (env : Api.environment) (r : Api.request)
    (a : Api.response) (s s' : Api.state) : Prop :=
  Api.scraped s' = Api.scraped s
  /\ (exists d, a = Api.GeocodeFailed d \/ a = Api.CityUndetermined d)
  /\ (exists p,
        Api.read_parameters key r = Py.Return p
        /\ PyMore.truth (Api.latitude p) && PyMore.truth (Api.longitude p)
           = true)
  /\ exists lat lon d,
       Geocoding.reverse_geocode lat lon (Api.nominatim env) (Api.geocoding s)
         (Api.located s)
       = (d, Api.geocoding s', Api.located s').

Definition served (key : string) (env : Api.environment)
    (self : RealTimeScraper) (r : Api.request) (a : Api.response)
    (s s' : Api.state) : Prop :=
  exists p c coordinates s1,
    Api.read_parameters key r = Py.Return p
    /\ PyMore.truth (Api.subject p) = true
    /\ Api.locate env p s = (Api.Resolved c coordinates, s1)
    /\ PyMore.truth c = true
    /\ s' = snd (Api.fetch env self (Api.subject p) c s1)
    /\ match fst (Api.fetch env self (Api.subject p) c s1) with
       | Py.Raise => a = Api.ServerError
       | Py.Return None => a = Api.Unavailable (Api.subject p) c
       | Py.Return (Some price) =>
           match Api.multiplier_of c coordinates with
           | Py.Raise => a = Api.ServerError
           | Py.Return m =>
               Api.status_code a = 200%Z
               /\ answered_city a = Some c
               /\ answered_multiplier a = Some (PyMore.round_to 3 m)
               /\ answered_level a = Some (Api.location_type_of m)
               /\ answered_coordinates a = coordinates
           end
       end.

(** A server that places every point in Miami, with a clock that stands
    at noon. *)
Definition miami_reply : Geocoding.reply :=
  Geocoding.Reply 200
    (Geocoding.Body
       (JDict [("display_name", JStr "Miami, Miami-Dade County, Florida");
               ("address",
                JDict [("city", JStr "Miami");
                       ("county", JStr "Miami-Dade County");
                       ("state", JStr "Florida");
                       ("state_code", JStr "fl")])]%string)).

Definition miami_world : Geocoding.world :=
  {| Geocoding.time := fun _ => 43200%float;
     Geocoding.sleeps := fun _ _ => true;
     Geocoding.server := fun _ => miami_reply |}.

(** Surroundings in which no site answers, and the state of a fresh
    process. *)
Definition quiet : Api.environment :=
  {| Api.str := fun _ => EmptyString;
     Api.nominatim := miami_world;
     Api.web := Spec.offline |}.

Definition fresh : Api.state :=
  {| Api.geocoding := {| Geocoding.last_request_time := 0 |};
     Api.located := [];
     Api.scraped := [] |}.

(** Surroundings in which every site shows the page of scenario A. *)
Definition busy : Api.environment :=
  {| Api.str := fun _ => EmptyString;
     Api.nominatim := miami_world;
     Api.web := Spec.stocked |}.

(** A [GET] request with the given query string. *)
Definition query (fields : list (string * string)) : Api.request :=
  {| Api.method := Api.GET;
     Api.get_json := Py.Raise;
     Api.form := [];
     Api.args := fields |}.

End Endpoint.

(** * Proofs *)

Import Scrapper Spec.

(** ** Order of floats *)

Lemma SFcompare_antisym (a b : spec_float) (c : comparison) :
  SFcompare a b = Some c -> SFcompare b a = Some (CompOpp c).
Proof.
  destruct a as [sa| sa| |sa ma ea], b as [sb| sb| |sb mb eb];
    unfold SFcompare; try discriminate;
    try (destruct sa; try destruct sb; intros [= <-]; reflexivity).
  rewrite (Z.compare_antisym ea eb).
  replace (Pos.compare_cont Eq mb ma)
    with (CompOpp (Pos.compare_cont Eq ma mb))
    by (rewrite Pos.compare_cont_antisym; reflexivity).
  destruct sa, sb; intros [= <-]; try reflexivity;
    destruct (ea ?= eb)%Z; simpl; try reflexivity;
    destruct (Pos.compare_cont Eq ma mb); reflexivity.
Qed.

Lemma SFcompare_defined (a b : spec_float) :
  SFeqb a a = true -> SFeqb b b = true -> exists c, SFcompare a b = Some c.
Proof.
  unfold SFeqb.
  destruct a as [sa| sa| |sa ma ea], b as [sb| sb| |sb mb eb]; simpl;
    try discriminate; intros _ _; eauto;
    try (destruct sa; eauto); try (destruct sb; eauto).
Qed.

Lemma ltb_false_leb (x y : float) :
  ordered x -> ordered y -> (x <? y)%float = false -> fle y x.
Proof.
  unfold ordered, fle, is_nan.
  rewrite !eqb_spec, ltb_spec, leb_spec.
  intros Hx Hy. apply negb_false_iff in Hx, Hy.
  destruct (SFcompare_defined _ _ Hx Hy) as [c Hc].
  unfold SFltb, SFleb. rewrite Hc, (SFcompare_antisym _ _ _ Hc).
  destruct c; simpl; congruence.
Qed.

Lemma ltb_leb (x y : float) : (x <? y)%float = true -> fle x y.
Proof.
  unfold fle. rewrite ltb_spec, leb_spec. unfold SFltb, SFleb.
  destruct (SFcompare _ _) as [[]|]; congruence.
Qed.

(** ** [list.sort] *)

Lemma insert_perm (x : float) (l : list float) :
  Permutation (Py.insert x l) (x :: l).
Proof.
  induction l as [|y l IH]; simpl.
  - reflexivity.
  - destruct (x <? y)%float.
    + reflexivity.
    + rewrite IH. apply perm_swap.
Qed.

Lemma fold_insert_perm (l acc : list float) :
  Permutation (fold_left (fun a x => Py.insert x a) l acc) (acc ++ l).
Proof.
  revert acc. induction l as [|x l IH]; intros acc; simpl.
  - rewrite app_nil_r. reflexivity.
  - rewrite IH, insert_perm. apply Permutation_cons_app. reflexivity.
Qed.

Lemma sorted_perm (l : list float) : Permutation (Py.sorted l) l.
Proof. apply (fold_insert_perm l []). Qed.

Lemma sorted_length (l : list float) :
  List.length (Py.sorted l) = List.length l.
Proof. apply Permutation_length, sorted_perm. Qed.

Lemma insert_hd (x a : float) (l : list float) :
  ordered x -> ordered a -> fle a x -> HdRel fle a l ->
  HdRel fle a (Py.insert x l).
Proof.
  intros Hx Ha Hax Hl. destruct l as [|y l]; simpl.
  - constructor. exact Hax.
  - destruct (x <? y)%float; constructor.
    + exact Hax.
    + inversion Hl; assumption.
Qed.

Lemma insert_sorted (x : float) (l : list float) :
  ordered x -> Forall ordered l -> Sorted fle l -> Sorted fle (Py.insert x l).
Proof.
  intros Hx Hl Hs. induction l as [|y l IH]; simpl.
  - repeat constructor.
  - inversion Hl as [|? ? Hy Hl']; subst.
    inversion Hs as [|? ? Hs' Hhd]; subst.
    destruct (x <? y)%float eqn:E.
    + constructor; [assumption|]. constructor. apply ltb_leb, E.
    + constructor; [apply IH; assumption|].
      apply insert_hd; try assumption. apply ltb_false_leb; assumption.
Qed.

Lemma insert_ordered (x : float) (l : list float) :
  ordered x -> Forall ordered l -> Forall ordered (Py.insert x l).
Proof.
  intros Hx Hl. apply (Permutation_Forall (x := x :: l)).
  - symmetry. apply insert_perm.
  - constructor; assumption.
Qed.

Lemma fold_insert_sorted (l acc : list float) :
  Forall ordered l -> Forall ordered acc -> Sorted fle acc ->
  Sorted fle (fold_left (fun a x => Py.insert x a) l acc).
Proof.
  revert acc. induction l as [|x l IH]; intros acc Hl Hacc Hs; simpl.
  - exact Hs.
  - inversion Hl; subst. apply IH; try assumption.
    + apply insert_ordered; assumption.
    + apply insert_sorted; assumption.
Qed.

Lemma sorted_ascending (l : list float) :
  Forall ordered l -> Sorted fle (Py.sorted l).
Proof. intros H. apply fold_insert_sorted; auto. Qed.

(** ** Slices *)

Lemma slice_ends {A} (l : list A) (t : nat) :
  0 < t -> 2 * t <= List.length l ->
  Py.slice l (Z.of_nat t) (- Z.of_nat t)
  = firstn (List.length l - 2 * t) (skipn t l).
Proof.
  intros Ht Hl. unfold Py.slice, Py.slice_index.
  destruct (Z.ltb_spec (Z.of_nat t) 0); [lia|].
  destruct (Z.ltb_spec (- Z.of_nat t) 0); [|lia].
  replace (Nat.min (Z.to_nat (Z.of_nat t)) (List.length l)) with t by lia.
  f_equal. lia.
Qed.


Lemma trim_outliers_large (pool : list float) :
  4 < List.length pool ->
  trim_outliers pool
  = firstn (List.length pool - 2 * (List.length pool / 5))
      (skipn (List.length pool / 5) (Py.sorted pool)).
Proof.
  intros Hn. unfold trim_outliers. rewrite sorted_length.
  destruct (Nat.ltb_spec 4 (List.length pool)); [|lia].
  assert (H5 : 5 * (List.length pool / 5) <= List.length pool)
    by (apply Nat.Div0.mul_div_le).
  assert (Ht : 1 <= List.length pool / 5)
    by (apply Nat.div_le_lower_bound; lia).
  destruct (Nat.ltb_spec 0 (List.length pool / 5)); [|lia].
  rewrite slice_ends; rewrite ?sorted_length; try lia. reflexivity.
Qed.

Lemma trim_outliers_small (pool : list float) :
  List.length pool <= 4 -> trim_outliers pool = Py.sorted pool.
Proof.
  intros Hn. unfold trim_outliers. rewrite sorted_length.
  destruct (Nat.ltb_spec 4 (List.length pool)); [lia|reflexivity].
Qed.

Lemma trim_outliers_length (pool : list float) :
  List.length (trim_outliers pool)
  = if 4 <? List.length pool
    then List.length pool - 2 * (List.length pool / 5)
    else List.length pool.
Proof.
  destruct (Nat.ltb_spec 4 (List.length pool)).
  - rewrite trim_outliers_large by assumption.
    assert (H5 : 5 * (List.length pool / 5) <= List.length pool)
      by (apply Nat.Div0.mul_div_le).
    rewrite length_firstn, length_skipn, sorted_length. lia.
  - rewrite trim_outliers_small by lia. apply sorted_length.
Qed.

Lemma trim_outliers_nonempty (pool : list float) :
  pool <> [] -> trim_outliers pool <> [].
Proof.
  intros Hp Ht. apply (f_equal (@List.length float)) in Ht.
  rewrite trim_outliers_length in Ht.
  assert (H5 : 5 * (List.length pool / 5) <= List.length pool)
    by (apply Nat.Div0.mul_div_le).
  assert (H1 : 1 <= List.length pool)
    by (destruct pool; [congruence|simpl; lia]).
  destruct (Nat.ltb_spec 4 (List.length pool)); cbn [List.length] in Ht; lia.
Qed.

(** ** The average *)

Lemma average_nonempty (l : list float) :
  l <> [] ->
  average l
  = Some (Py.sum l / Py.nearest_int (Z.of_nat (List.length l)))%float.
Proof. destruct l; [congruence|reflexivity]. Qed.

(** ** The envelope filter *)

Lemma filter_all {A} (l : list A) : filter (fun _ => true) l = l.
Proof. induction l; simpl; congruence. Qed.

Lemma truthy_self {A} (l : list A) : (if Py.truthy l then l else l) = l.
Proof. destruct l; reflexivity. Qed.

Lemma truthy_twice {A} (r l : list A) :
  (if Py.truthy (if Py.truthy r then r else l)
   then (if Py.truthy r then r else l) else l)
  = if Py.truthy r then r else l.
Proof. destruct r, l; reflexivity. Qed.

Lemma truthy_twice_neg {A} (r l : list A) :
  (if Py.truthy (if negb (Py.truthy r) then l else r)
   then (if negb (Py.truthy r) then l else r) else l)
  = if Py.truthy r then r else l.
Proof. destruct r, l; reflexivity. Qed.

Lemma filter_by_envelope (prices : list float) (item_name : string) :
  _filter_prices_by_product_type prices item_name
  = if Py.truthy (restrict (classify item_name) prices)
    then restrict (classify item_name) prices else prices.
Proof.
  unfold _filter_prices_by_product_type, classify, restrict, in_envelope.
  destruct (Py.any_in _ (Py.lower item_name)).
  - destruct (Py.any_in _ (Py.lower item_name)); cbn [negb envelope].
    + rewrite filter_all. rewrite !truthy_self. reflexivity.
    + apply truthy_twice.
  - destruct (Py.contains "chip" (Py.lower item_name)).
    + destruct (_ || _); cbn [envelope]; apply truthy_twice_neg.
    + destruct (Py.contains "chocolate" (Py.lower item_name)).
      * destruct (Py.any_in _ (Py.lower item_name)); cbn [negb envelope].
        -- rewrite filter_all. rewrite !truthy_self. reflexivity.
        -- apply truthy_twice.
      * cbn [envelope]. rewrite filter_all. rewrite !truthy_self. reflexivity.
Qed.

Lemma filter_nonempty (prices : list float) (item_name : string) :
  prices <> [] -> _filter_prices_by_product_type prices item_name <> [].
Proof.
  intros Hp. rewrite filter_by_envelope.
  destruct (restrict _ prices); simpl; congruence.
Qed.

(** ** The price extractor *)

Lemma accept_in_bound (c : option float) : Forall in_bound (accept c).
Proof.
  destruct c as [p|]; simpl; [|constructor].
  destruct (plausible p) eqn:E; repeat constructor. exact E.
Qed.

Lemma selector_prices_in_bound (sp : soup) (selector : string) :
  Forall in_bound (selector_prices sp selector).
Proof.
  unfold selector_prices, element_prices.
  apply Forall_flat_map, Forall_forall. intros text _.
  apply Forall_flat_map, Forall_forall. intros s _. apply accept_in_bound.
Qed.

Lemma script_prices_in_bound (loaded : option json) :
  Forall in_bound (script_prices loaded).
Proof.
  unfold script_prices.
  destruct loaded as [[| | | | | |data]|]; try constructor.
  destruct (dict_get "offers" data) as [[| | | | | |offers]|];
    try (destruct (dict_get "price" data);
         [apply accept_in_bound|constructor]).
  destruct (dict_get "price" offers); [apply accept_in_bound|constructor].
Qed.

Lemma text_prices_in_bound (sp : soup) : Forall in_bound (text_prices sp).
Proof.
  unfold text_prices. apply Forall_flat_map, Forall_forall. intros s _.
  apply accept_in_bound.
Qed.

Lemma extract_in_bound (sp : soup) :
  Forall in_bound (_extract_prices_from_soup sp).
Proof.
  unfold _extract_prices_from_soup.
  apply Forall_app; split; [|apply Forall_app; split].
  - apply Forall_flat_map, Forall_forall. intros s _.
    apply selector_prices_in_bound.
  - apply Forall_flat_map, Forall_forall. intros s _.
    apply script_prices_in_bound.
  - apply text_prices_in_bound.
Qed.

(** ** Traces *)

Lemma tried_terms_app (a b : list event) :
  tried_terms (a ++ b) = tried_terms a ++ tried_terms b.
Proof.
  induction a as [|[[]| | | |] a IH]; simpl; rewrite ?IH; reflexivity.
Qed.

Lemma found_count_app (a b : list event) :
  found_count (a ++ b) = found_count a + found_count b.
Proof.
  induction a as [|[[]| | | |] a IH]; simpl; rewrite ?IH; lia.
Qed.

Lemma fallback_count_app (a b : list event) :
  fallback_count (a ++ b) = fallback_count a + fallback_count b.
Proof.
  induction a as [|[[]| | | |] a IH]; simpl; rewrite ?IH; lia.
Qed.

Lemma requested_app (a b : list event) :
  requested (a ++ b) = requested a ++ requested b.
Proof.
  induction a as [|[[]| | | |] a IH]; simpl; rewrite ?IH; reflexivity.
Qed.

Lemma starts_below_five_app (a b : list event) (c : nat) :
  starts_below_five c (a ++ b)
  <-> starts_below_five c a /\ starts_below_five (c + found_count a) b.
Proof.
  revert c. induction a as [|[[]| | | |] a IH]; intros c; simpl;
    rewrite ?IH, ?Nat.add_0_r, ?Nat.add_assoc; tauto.
Qed.

Lemma silent_app (a b : list event) : silent a -> silent b -> silent (a ++ b).
Proof. intros Ha Hb. apply Forall_app; split; assumption. Qed.

Lemma silent_observations (tr : list event) :
  silent tr ->
  tried_terms tr = [] /\ found_count tr = 0 /\ fallback_count tr = 0
  /\ forall c, starts_below_five c tr.
Proof.
  induction 1 as [|e tr He _ IH]; [simpl; auto|].
  destruct IH as (H1 & H2 & H3 & H4).
  destruct e; [contradiction| | | |]; simpl; auto.
Qed.


(** ** Running a computation *)

Lemma run_bind {A B} (m : M A) (f : A -> M B) (w : world) (h : list event) :
  bind m f w h = f (fst (m w h)) w (snd (m w h)).
Proof. unfold bind. destruct (m w h). reflexivity. Qed.

Lemma source_ok_ret (l : list float) : Forall in_bound l -> source_ok (ret l).
Proof.
  intros Hl w h. exists []. simpl. rewrite app_nil_r.
  repeat split; try constructor. exact Hl.
Qed.

Lemma source_ok_via_driver (url : string) (wait : nat) :
  is_google url = false -> source_ok (via_driver url wait).
Proof.
  intros Hu w h. unfold via_driver, get, sleep, read_page, bind, ret.
  destruct (driver_get w h url).
  - destruct (page_source w _) as [sp|];
      exists [DriverGet url; Sleep wait; PageSource];
      rewrite <- !app_assoc; simpl;
      (repeat split; [repeat constructor | repeat constructor; exact Hu | ]).
    + apply extract_in_bound.
    + constructor.
  - exists [DriverGet url]. simpl.
    repeat split; repeat constructor. exact Hu.
Qed.

Lemma source_ok_via_session (url : string) :
  is_google url = false -> source_ok (via_session url).
Proof.
  intros Hu w h. unfold via_session, request, bind, ret.
  exists [SessionGet url].
  destruct (session_get w h url) as [[status sp]|]; simpl;
    [destruct (status =? 200)%Z|]; simpl;
    (repeat split; [repeat constructor | repeat constructor; exact Hu | ]);
    try constructor.
  apply extract_in_bound.
Qed.

Lemma source_ok_bind (m : M (list float)) (f : list float -> M (list float)) :
  source_ok m -> (forall l, Forall in_bound l -> source_ok (f l)) ->
  source_ok (bind m f).
Proof.
  intros Hm Hf w h. rewrite run_bind.
  destruct (Hm w h) as (e1 & E1 & S1 & G1 & B1).
  destruct (Hf _ B1 w (snd (m w h))) as (e2 & E2 & S2 & G2 & B2).
  rewrite E1 in E2, B2.
  exists (e1 ++ e2). rewrite E1, E2, app_assoc.
  repeat split; try assumption.
  - apply silent_app; assumption.
  - rewrite requested_app. apply Forall_app; split; assumption.
Qed.

Lemma source_ok_retry (first : M (list float)) (second : M (list float)) :
  source_ok first -> source_ok second ->
  source_ok (prices <- first ;;
             if negb (Py.truthy prices)
             then more <- second ;; ret (prices ++ more)
             else ret prices).
Proof.
  intros H1 H2. apply source_ok_bind; [exact H1|]. intros l Hl.
  destruct (negb (Py.truthy l)).
  - apply source_ok_bind; [exact H2|]. intros l' Hl'.
    apply source_ok_ret, Forall_app; split; assumption.
  - apply source_ok_ret, Hl.
Qed.

Lemma source_ok_if_driver (self : RealTimeScraper) (m : M (list float)) :
  source_ok m -> source_ok (if driver self then m else ret []).
Proof.
  intros Hm. destruct (driver self); [exact Hm|].
  apply source_ok_ret. constructor.
Qed.

Lemma source_ok_walmart self item_name city :
  source_ok (_scrape_walmart self item_name city).
Proof.
  apply source_ok_retry.
  - apply source_ok_if_driver, source_ok_via_driver. reflexivity.
  - apply source_ok_via_session. reflexivity.
Qed.

Lemma source_ok_target self item_name city :
  source_ok (_scrape_target self item_name city).
Proof.
  apply source_ok_retry.
  - apply source_ok_if_driver, source_ok_via_driver. reflexivity.
  - apply source_ok_via_session. reflexivity.
Qed.

Lemma source_ok_publix self item_name :
  source_ok (_scrape_publix_api self item_name).
Proof.
  apply source_ok_retry.
  - apply source_ok_if_driver, source_ok_via_driver. reflexivity.
  - apply source_ok_via_session. reflexivity.
Qed.

Lemma source_ok_instacart self item_name city :
  source_ok (_scrape_instacart self item_name city).
Proof.
  apply source_ok_if_driver, source_ok_via_driver. reflexivity.
Qed.

Lemma sources_ok self search_term city :
  Forall (fun s => source_ok (snd s)) (sources self search_term city).
Proof.
  repeat constructor; simpl.
  - apply source_ok_walmart.
  - apply source_ok_target.
  - apply source_ok_instacart.
  - apply source_ok_publix.
Qed.

(** ** The loops of [fetch_price_data] *)

Lemma scrape_sources_spec (srcs : list (string * M (list float))) :
  Forall (fun s => source_ok (snd s)) srcs ->
  forall all_prices w h, exists evs added,
    scrape_sources srcs all_prices w h = (all_prices ++ added, h ++ evs)
    /\ List.length added = found_count evs
    /\ tried_terms evs = []
    /\ fallback_count evs = 0
    /\ (forall c, starts_below_five c evs)
    /\ Forall (fun u => is_google u = false) (requested evs)
    /\ Forall in_bound added.
Proof.
  induction 1 as [|[source_name scrape_func] rest Hok _ IH];
    intros all_prices w h.
  - exists [], []. simpl. unfold ret. rewrite !app_nil_r.
    repeat split; auto.
  - cbn [scrape_sources]. rewrite run_bind.
    destruct (Hok w h) as (e1 & E1 & S1 & G1 & B1). simpl snd in *.
    destruct (silent_observations _ S1) as (T1 & F1 & K1 & L1).
    rewrite E1.
    destruct (fst (scrape_func w h)) as [|p prices] eqn:Ep; cbn [Py.truthy].
    + destruct (IH all_prices w (h ++ e1)) as (e2 & added & E2 & HF & HT & HK & HL & HG & HB).
      exists (e1 ++ e2), added. rewrite E2, app_assoc.
      rewrite tried_terms_app, found_count_app, fallback_count_app,
        requested_app, T1, F1, K1, HT, HK.
      repeat split; auto.
      * intros c. apply starts_below_five_app. split; [apply L1|apply HL].
      * apply Forall_app; split; assumption.
    + rewrite !run_bind. cbn [print sleep fst snd].
      destruct (IH (all_prices ++ p :: prices) w
                  (((h ++ e1) ++ [Print (Found (List.length (p :: prices)) source_name)])
                     ++ [Sleep 500]))
        as (e2 & added & E2 & HF & HT & HK & HL & HG & HB).
      exists (e1 ++ [Print (Found (List.length (p :: prices)) source_name);
                     Sleep 500] ++ e2), ((p :: prices) ++ added).
      rewrite E2. rewrite <- !app_assoc.
      rewrite !tried_terms_app, !found_count_app, !fallback_count_app,
        !requested_app, T1, F1, K1, HT, HK.
      split; [reflexivity|].
      split; [rewrite length_app; cbn [found_count]; lia|].
      repeat split; auto.
      * intros c. apply starts_below_five_app. split; [apply L1|].
        simpl. apply HL.
      * apply Forall_app; split; [assumption|]. simpl. exact HG.
      * apply Forall_app; split; assumption.
Qed.

Lemma try_terms_spec self city (terms : list string) :
  forall all_prices w h,
    List.length all_prices < 5 ->
    exists evs added,
      try_terms self city terms all_prices w h = (all_prices ++ added, h ++ evs)
      /\ List.length added = found_count evs
      /\ fallback_count evs = 0
      /\ starts_below_five (List.length all_prices) evs
      /\ Forall (fun u => is_google u = false) (requested evs)
      /\ Forall in_bound added
      /\ (exists rest, terms = tried_terms evs ++ rest)
      /\ (List.length (all_prices ++ added) < 5 -> tried_terms evs = terms).
Proof.
  induction terms as [|search_term rest IH]; intros all_prices w h Hlt.
  - exists [], []. simpl. unfold ret. rewrite !app_nil_r.
    repeat split; auto. exists []. reflexivity.
  - cbn [try_terms]. rewrite !run_bind. cbn [print fst snd].
    destruct (scrape_sources_spec _ (sources_ok self search_term city)
                all_prices w (h ++ [Print (Trying search_term)]))
      as (e1 & a1 & E1 & F1 & T1 & K1 & L1 & G1 & B1).
    rewrite E1. cbn [fst snd].
    destruct (Nat.leb_spec 5 (List.length (all_prices ++ a1))) as [Hge|Hlt'].
    + exists (Print (Trying search_term) :: e1), a1.
      unfold ret. rewrite <- app_assoc. simpl.
      rewrite T1. repeat split; auto.
      * exists rest. reflexivity.
      * lia.
    + destruct (IH (all_prices ++ a1) w
                  ((h ++ [Print (Trying search_term)]) ++ e1) Hlt')
        as (e2 & a2 & E2 & F2 & K2 & L2 & G2 & B2 & [rest' P2] & A2).
      exists (Print (Trying search_term) :: e1 ++ e2), (a1 ++ a2).
      rewrite E2. rewrite <- !app_assoc. simpl.
      rewrite !tried_terms_app, !found_count_app, !fallback_count_app,
        !requested_app, T1, K1, K2. simpl.
      split; [reflexivity|].
      split; [rewrite length_app; lia|].
      repeat split; auto.
      * apply starts_below_five_app. split; [apply L1|].
        rewrite <- F1, <- length_app. exact L2.
      * apply Forall_app; split; assumption.
      * apply Forall_app; split; assumption.
      * exists rest'. rewrite P2 at 1. reflexivity.
      * intros Hfin. rewrite app_assoc in Hfin. rewrite (A2 Hfin). reflexivity.
Qed.

(** ** The fallback source *)

Lemma google_spec self item_name city w h :
  exists evs,
    snd (_scrape_google_shopping self item_name city w h) = h ++ evs
    /\ silent evs
    /\ requested evs = [google_url item_name city]
    /\ Forall in_bound (fst (_scrape_google_shopping self item_name city w h)).
Proof.
  unfold _scrape_google_shopping, via_driver, get, sleep, read_page, request,
    bind, ret.
  destruct (driver self).
  - destruct (driver_get w h _).
    + exists [DriverGet (google_url item_name city); Sleep 2000; PageSource].
      destruct (page_source w _) as [sp|]; rewrite <- !app_assoc; simpl;
        (repeat split; [repeat constructor|]).
      * apply extract_in_bound.
      * constructor.
    + exists [DriverGet (google_url item_name city)]. simpl.
      repeat split; repeat constructor.
  - exists [SessionGet (google_url item_name city)].
    destruct (session_get w h _) as [[status sp]|]; simpl;
      (repeat split; [repeat constructor|]).
    + apply extract_in_bound.
    + constructor.
Qed.

(** ** The two phases of [collect_prices] *)

Lemma term_phase_spec self item_name city w :
  exists evs added,
    term_phase self item_name city w []
    = (added, Print (Searching item_name city) :: evs)
    /\ List.length added = found_count evs
    /\ fallback_count evs = 0
    /\ starts_below_five 0 evs
    /\ Forall (fun u => is_google u = false) (requested evs)
    /\ Forall in_bound added
    /\ (exists rest, expand item_name = tried_terms evs ++ rest)
    /\ (List.length added < 5 -> tried_terms evs = expand item_name).
Proof.
  unfold term_phase. rewrite run_bind. cbn [print fst snd app].
  destruct (try_terms_spec self city (expand item_name) [] w
              [Print (Searching item_name city)])
    as (evs & added & E & F & K & L & G & B & P & A); [simpl; lia|].
  exists evs, added. rewrite E. simpl. repeat split; auto.
Qed.

Lemma collect_prices_split self item_name city w :
  collect_prices self item_name city w []
  = let (all_prices, h) := term_phase self item_name city w [] in
    if Py.truthy all_prices then (all_prices, h)
    else _scrape_google_shopping self item_name city w
           (h ++ [Print TryingFallback]).
Proof.
  unfold collect_prices, term_phase. rewrite !run_bind. cbn [print fst snd app].
  destruct (try_terms _ _ _ _ _ _) as [all_prices h]. cbn [fst snd].
  destruct all_prices; cbn [Py.truthy negb].
  - rewrite run_bind. reflexivity.
  - reflexivity.
Qed.

Lemma fetch_price_data_split self item_name city w :
  fetch_price_data self item_name city w []
  = summarize (fst (collect_prices self item_name city w [])) item_name w
      (snd (collect_prices self item_name city w [])).
Proof. unfold fetch_price_data. rewrite run_bind. reflexivity. Qed.

Lemma summarize_nonempty (pool : list float) (item_name : string) w h :
  pool <> [] ->
  let kept := trim_outliers (_filter_prices_by_product_type pool item_name) in
  summarize pool item_name w h
  = (Py.Return
       (Some (Py.round2
                (Py.sum kept / Py.nearest_int (Z.of_nat (List.length kept))))),
     h ++ [Print (Collected (List.length kept))]).
Proof.
  intros Hp kept. unfold summarize.
  destruct pool as [|p pool]; [congruence|]. cbn [Py.truthy].
  fold kept. rewrite average_nonempty.
  - rewrite run_bind. reflexivity.
  - apply trim_outliers_nonempty, filter_nonempty. discriminate.
Qed.

Lemma summarize_empty (item_name : string) w h :
  summarize [] item_name w h = (Py.Return None, h).
Proof. reflexivity. Qed.

(** ** When nothing is found, everything was attempted *)

Lemma scrape_sources_nothing (srcs : list (string * M (list float))) :
  Forall (fun s => source_ok (snd s)) srcs ->
  forall all_prices w h,
    fst (scrape_sources srcs all_prices w h) = all_prices ->
    snd (scrape_sources srcs all_prices w h)
    = snd (run_all (map snd srcs) w h).
Proof.
  induction 1 as [|[source_name scrape_func] rest Hok Hrest IH];
    intros all_prices w h Hfst.
  - reflexivity.
  - cbn [scrape_sources map run_all snd] in *. rewrite run_bind in *.
    rewrite (run_bind scrape_func).
    destruct (fst (scrape_func w h)) as [|p prices] eqn:Ep; cbn [Py.truthy] in *.
    + apply IH. exact Hfst.
    + exfalso. rewrite !run_bind in Hfst. cbn [print sleep fst snd] in Hfst.
      destruct (scrape_sources_spec rest Hrest (all_prices ++ p :: prices) w
                  ((snd (scrape_func w h)
                      ++ [Print (Found (List.length (p :: prices)) source_name)])
                     ++ [Sleep 500]))
        as (e2 & added & E2 & _).
      rewrite E2 in Hfst. cbn [fst] in Hfst.
      apply (f_equal (@List.length float)) in Hfst.
      rewrite !length_app in Hfst. simpl in Hfst. lia.
Qed.

Lemma try_terms_nothing self city (terms : list string) :
  forall w h,
    fst (try_terms self city terms [] w h) = [] ->
    snd (try_terms self city terms [] w h)
    = snd (attempt_terms self city terms w h).
Proof.
  induction terms as [|search_term rest IH]; intros w h Hfst.
  - reflexivity.
  - cbn [try_terms attempt_terms] in *. rewrite !run_bind in *.
    cbn [print fst snd] in *.
    destruct (scrape_sources_spec _ (sources_ok self search_term city)
                [] w (h ++ [Print (Trying search_term)]))
      as (e1 & a1 & E1 & F1 & _).
    rewrite E1 in Hfst. cbn [fst snd app] in Hfst.
    assert (Ha : a1 = []).
    { destruct (5 <=? List.length a1) eqn:E5.
      - exact Hfst.
      - destruct (try_terms_spec self city rest a1 w
                    ((h ++ [Print (Trying search_term)]) ++ e1))
          as (e2 & a2 & E2 & _); [apply Nat.leb_gt, E5|].
        rewrite E2 in Hfst. cbn [fst] in Hfst.
        destruct a1; [reflexivity|discriminate]. }
    subst a1.
    assert (Hs : snd (scrape_sources (sources self search_term city) [] w
                        (h ++ [Print (Trying search_term)]))
                 = snd (run_all (map snd (sources self search_term city)) w
                          (h ++ [Print (Trying search_term)]))).
    { apply scrape_sources_nothing; [apply sources_ok|].
      rewrite E1. reflexivity. }
    rewrite E1 in *. cbn [fst snd app List.length Nat.leb] in *.
    rewrite <- Hs. apply IH. exact Hfst.
Qed.

Lemma collect_nothing self item_name city w :
  fst (collect_prices self item_name city w []) = [] ->
  snd (collect_prices self item_name city w [])
  = snd (attempt_everything self item_name city w []).
Proof.
  intros Hfst. unfold collect_prices, attempt_everything in *.
  rewrite !run_bind in *. cbn [print fst snd app] in *.
  destruct (fst (try_terms self city (expand item_name) [] w
                   [Print (Searching item_name city)])) eqn:Et;
    cbn [Py.truthy negb] in *.
  - rewrite run_bind in *. cbn [print fst snd] in *.
    rewrite (try_terms_nothing _ _ _ _ _ Et). reflexivity.
  - unfold ret in Hfst. cbn [fst] in Hfst. discriminate.
Qed.

Lemma fetch_trace self item_name city w :
  exists tail,
    snd (fetch_price_data self item_name city w [])
    = snd (collect_prices self item_name city w []) ++ tail
    /\ summary_tail tail.
Proof.
  rewrite fetch_price_data_split.
  destruct (fst (collect_prices self item_name city w [])) as [|p pool] eqn:E.
  - exists []. rewrite summarize_empty, app_nil_r. split; [reflexivity|].
    left. reflexivity.
  - rewrite summarize_nonempty by discriminate. eexists. split; [reflexivity|].
    right. eexists. reflexivity.
Qed.

Lemma summary_tail_observations (tail : list event) :
  summary_tail tail ->
  tried_terms tail = [] /\ found_count tail = 0 /\ fallback_count tail = 0
  /\ requested tail = [] /\ forall c, starts_below_five c tail.
Proof. intros [->|[n ->]]; simpl; auto. Qed.

Lemma filter_none {A} (f : A -> bool) (l : list A) :
  Forall (fun x => f x = false) l -> filter f l = [].
Proof.
  induction 1 as [|x l Hx _ IH]; simpl; [reflexivity|]. rewrite Hx. exact IH.
Qed.

Lemma starts_below_five_split (c : nat) (tr pre post : list event) t :
  starts_below_five c tr -> tr = pre ++ Print (Trying t) :: post ->
  c + found_count pre < 5.
Proof.
  intros H ->. apply starts_below_five_app in H. destruct H as [_ H].
  simpl in H. tauto.
Qed.

Lemma search_terms_head (item_name : string) :
  exists tl, search_terms item_name = item_name :: tl.
Proof.
  unfold search_terms.
  repeat match goal with
         | |- context [if ?b then _ else _] => destruct b
         end;
    simpl; eexists; reflexivity.
Qed.

(** ** The model on sample inputs *)

Example findall_price_example :
  findall match_price "$ 1.99 and 12.345 1234.5 $3 5. .7 1.2.3"
  = ["1.99"; "12.34"; "5"; "1234.5"; "3"; "5."; "7"; "1.2"; "3"]%string.
Proof. reflexivity. Qed.

Example findall_dollar_price_example :
  findall match_dollar_price "a $1.99 b $ 2.5 c $3.999 $ 100.00$$5.55"
  = ["1.99"; "3.99"; "100.00"; "5.55"]%string.
Proof. reflexivity. Qed.

Example float_of_string_examples :
  map Py.float_of_string
    ["1.95"; " 2.05 "; "5."; ".5"; "."; "1e3"; "1_000.5"; "1__0"; "-inf";
     "1e"; "12abc"; "1e400"]%string
  = [Some 1.95; Some 2.05; Some 5; Some 0.5; None; Some 1000; Some 1000.5;
     None; Some neg_infinity; None; None; Some infinity]%float.
Proof. vm_compute. reflexivity. Qed.

Example round2_examples :
  map Py.round2 [1.9966666666666668; 2.675; 0.125; 0.375; 199.995; 1.005]%float
  = [2; 2.67; 0.12; 0.38; 200; 1]%float.
Proof. vm_compute. reflexivity. Qed.

Example slice_examples :
  Py.slice [1; 2; 3; 4; 5; 6] 1 (-1) = [2; 3; 4; 5]
  /\ Py.slice [1; 2; 3] 2 (-2) = []
  /\ Py.slice [1; 2; 3] (-5) 2 = [1; 2].
Proof. repeat split; reflexivity. Qed.

Example search_terms_examples :
  search_terms "coke"
  = ["coke"; "coca cola 20 oz"; "coca cola can"; "coca cola bottle";
     "coca cola"; "coca cola 2 liter"]%string
  /\ expand "coke" = ["coke"; "coca cola 20 oz"; "coca cola can"]%string
  /\ expand "milk" = ["milk"%string].
Proof. repeat split; reflexivity. Qed.

Example offline_run :
  fetch_price_data {| driver := false |} "milk" "miami" offline []
  = (Py.Return None,
     [Print (Searching "milk" "miami"); Print (Trying "milk");
      SessionGet "https://www.walmart.com/search?q=milk";
      SessionGet "https://www.target.com/s?searchTerm=milk";
      SessionGet "https://www.publix.com/shop/search?query=milk";
      Print TryingFallback;
      SessionGet
        "https://www.google.com/search?q=milk+price+miami+Florida+grocery+store&tbm=shop"]).
Proof. vm_compute. reflexivity. Qed.

Example stocked_run :
  fetch_price_data {| driver := false |} "coke" "miami" stocked []
  = (Py.Return (Some 2%float),
     [Print (Searching "coke" "miami"); Print (Trying "coke");
      SessionGet "https://www.walmart.com/search?q=coke";
      Print (Found 6 "Walmart"); Sleep 500;
      SessionGet "https://www.target.com/s?searchTerm=coke";
      Print (Found 6 "Target"); Sleep 500;
      SessionGet "https://www.publix.com/shop/search?query=coke";
      Print (Found 6 "Publix"); Sleep 500; Print (Collected 9)]).
Proof. vm_compute. reflexivity. Qed.

(** * The claims *)

(** C1. The result of [fetch_price_data] is [None] exactly when the pool
    gathered by lines 333-395 is empty; a pool that is not empty always
    gives a number, and the call never raises. When the pool is empty,
    every source of every search term and the fallback source were
    attempted: the trace is the one of [attempt_everything]. *)
Theorem no_data_iff_empty_pool self item_name city w :
  let pool := fst (collect_prices self item_name city w []) in
  let result := fst (fetch_price_data self item_name city w []) in
  (result = Py.Return None <-> pool = [])
  /\ (pool <> [] -> exists v, result = Py.Return (Some v))
  /\ (pool = [] ->
      snd (fetch_price_data self item_name city w [])
      = snd (attempt_everything self item_name city w [])).
Proof.
  intros pool result. subst result. rewrite fetch_price_data_split. fold pool.
  destruct pool as [|p rest] eqn:E.
  - rewrite summarize_empty. cbn [fst snd]. repeat split; auto.
    + congruence.
    + intros _. apply collect_nothing. exact E.
  - rewrite summarize_nonempty by discriminate. cbn [fst snd].
    repeat split; try discriminate.
    intros _. eexists. reflexivity.
Qed.


(** C3. On a pool that is not empty the envelope filter returns a pool that
    is not empty: the pool restricted to the envelope of the item's
    category, or the whole pool when that restriction is empty. *)
Theorem envelope_filter_never_empties (prices : list float)
    (item_name : string) :
  prices <> [] ->
  _filter_prices_by_product_type prices item_name <> []
  /\ _filter_prices_by_product_type prices item_name
     = match restrict (classify item_name) prices with
       | [] => prices
       | kept => kept
       end.
Proof.
  intros Hp. split; [apply filter_nonempty, Hp|].
  rewrite filter_by_envelope. destruct (restrict _ prices); reflexivity.
Qed.

Lemma envelope_filter_keeps_lone_bulk_price :
  _filter_prices_by_product_type [10.50]%float "coke" <> []
  /\ _filter_prices_by_product_type [10.50]%float "coke" = [10.50]%float.
Proof.
  apply (envelope_filter_never_empties [10.50]%float "coke"). discriminate.
Defined.

(** C4. Every price that the extractor returns lies strictly between 0.50
    and 200, in each of its three layers (selectors, JSON-LD scripts, free
    text); a candidate outside the bound is left out and nothing is raised.
    The bound belongs to the extractor, which does not see the item name,
    so every price of the pool gathered by [collect_prices] obeys it. *)
Theorem extraction_bound (sp : soup) :
  let bounded := Forall (fun p => (0.50 <? p)%float = true
                                  /\ (p <? 200)%float = true) in
  bounded (_extract_prices_from_soup sp)
  /\ (forall selector, bounded (selector_prices sp selector))
  /\ (forall loaded, bounded (script_prices loaded))
  /\ bounded (text_prices sp)
  /\ (forall p, plausible p = false -> accept (Some p) = [])
  /\ (forall self item_name city w h,
        bounded (fst (collect_prices self item_name city w h))).
Proof.
  intros bounded.
  assert (Hb : forall l, Forall in_bound l -> bounded l).
  { intros l Hl. unfold bounded. eapply Forall_impl; [|exact Hl].
    intros p Hp. apply andb_prop in Hp. exact Hp. }
  split; [apply Hb, extract_in_bound|].
  split; [intros; apply Hb, selector_prices_in_bound|].
  split; [intros; apply Hb, script_prices_in_bound|].
  split; [apply Hb, text_prices_in_bound|].
  split; [intros p Hp; simpl; rewrite Hp; reflexivity|].
  intros self item_name city w h. apply Hb.
  unfold collect_prices. rewrite !run_bind. cbn [print fst snd].
  destruct (try_terms_spec self city (expand item_name) [] w
              (h ++ [Print (Searching item_name city)]))
    as (evs & added & E & _ & _ & _ & _ & B & _); [simpl; lia|].
  rewrite E. cbn [fst snd app].
  destruct added as [|p added]; cbn [Py.truthy negb].
  - rewrite run_bind. cbn [print fst snd].
    destruct (google_spec self item_name city w
                (((h ++ [Print (Searching item_name city)]) ++ evs)
                   ++ [Print TryingFallback])) as (e & _ & _ & _ & Hg).
    exact Hg.
  - exact B.
Qed.

(** C5. Scenario A: for an item name of category [beverage_single] the pool
    1.89, 1.95, 1.99, 2.05, 2.10, 10.50 is filtered to its first five
    prices, trimming leaves 1.95, 1.99, 2.05, their mean is 1.9966..., and
    the value returned is 2.00. *)
Theorem scenario_a (item_name : string) :
  classify item_name = beverage_single ->
  let pool := [1.89; 1.95; 1.99; 2.05; 2.10; 10.50]%float in
  _filter_prices_by_product_type pool item_name
  = [1.89; 1.95; 1.99; 2.05; 2.10]%float
  /\ trim_outliers [1.89; 1.95; 1.99; 2.05; 2.10]%float
     = [1.95; 1.99; 2.05]%float
  /\ average [1.95; 1.99; 2.05]%float = Some 1.9966666666666668%float
  /\ forall w h,
       fst (summarize pool item_name w h) = Py.Return (Some 2.00%float).
Proof.
  intros Hc pool.
  assert (Hf : _filter_prices_by_product_type pool item_name
               = [1.89; 1.95; 1.99; 2.05; 2.10]%float).
  { rewrite filter_by_envelope, Hc. vm_compute. reflexivity. }
  split; [exact Hf|].
  split; [vm_compute; reflexivity|].
  split; [vm_compute; reflexivity|].
  intros w h. rewrite summarize_nonempty by discriminate.
  cbv zeta. rewrite Hf. cbn [fst]. vm_compute. reflexivity.
Qed.

Lemma scenario_a_coke :
  classify "coke" = beverage_single
  /\ forall w h,
       fst (summarize [1.89; 1.95; 1.99; 2.05; 2.10; 10.50]%float "coke" w h)
       = Py.Return (Some 2.00%float).
Proof.
  split; [reflexivity|].
  apply (scenario_a "coke"). reflexivity.
Defined.

(** C6. In one call of [fetch_price_data] the fallback is announced at most
    once and the fallback search engine is asked at most one page. When the
    search terms gave at least one price, the fallback is not used at all.
    When they gave none, every search term had been tried, and the pool is
    what [_scrape_google_shopping] returns for the original item name and
    city: the one page asked of the search engine is [google_url] of these
    two. *)
Theorem fallback_once_with_original_name self item_name city w :
  let before := term_phase self item_name city w [] in
  let run := collect_prices self item_name city w [] in
  let tr := snd (fetch_price_data self item_name city w []) in
  fallback_count tr <= 1
  /\ List.length (filter is_google (requested tr)) <= 1
  /\ (fst before <> [] ->
      run = before
      /\ fallback_count tr = 0
      /\ filter is_google (requested tr) = [])
  /\ (fst before = [] ->
      tried_terms (snd before) = expand item_name
      /\ run = _scrape_google_shopping self item_name city w
                 (snd before ++ [Print TryingFallback])
      /\ fallback_count tr = 1
      /\ filter is_google (requested tr) = [google_url item_name city]).
Proof.
  intros before run tr.
  destruct (fetch_trace self item_name city w) as (tail & Etr & Htail).
  destruct (summary_tail_observations _ Htail) as (_ & _ & Kt & Rt & _).
  fold tr in Etr. fold run in Etr.
  destruct (term_phase_spec self item_name city w)
    as (evs & added & E & F & K & L & G & B & P & A).
  fold before in E.
  assert (Hrun := collect_prices_split self item_name city w).
  fold run in Hrun. fold before in Hrun. rewrite E in Hrun.
  rewrite E. cbn [fst snd].
  destruct added as [|p added]; cbn [Py.truthy] in Hrun.
  - destruct (google_spec self item_name city w
                ((Print (Searching item_name city) :: evs)
                   ++ [Print TryingFallback])) as (e & Eg & Sg & Rg & _).
    destruct (silent_observations _ Sg) as (_ & _ & Kg & _).
    assert (Hk : fallback_count tr = 1).
    { rewrite Etr, Hrun, Eg, !fallback_count_app. simpl. lia. }
    assert (Hr : filter is_google (requested tr) = [google_url item_name city]).
    { rewrite Etr, Hrun, Eg, !requested_app, Rt, Rg. simpl.
      rewrite !app_nil_r, filter_app, (filter_none _ _ G). reflexivity. }
    rewrite Hk, Hr. repeat split; auto; try congruence.
    apply A. simpl. lia.
  - assert (Hk : fallback_count tr = 0).
    { rewrite Etr, Hrun, !fallback_count_app. simpl. lia. }
    assert (Hr : filter is_google (requested tr) = []).
    { rewrite Etr, Hrun, !requested_app, Rt. simpl.
      rewrite !app_nil_r. apply filter_none, G. }
    rewrite Hk, Hr. repeat split; auto; try discriminate.
Qed.

(** C7. Whenever a search term is started, the prices announced so far,
    which are the prices of the pool, are fewer than five. The pool left by
    the loop over the terms has as many prices as were announced, and a
    term after which the pool holds five prices or more ends the loop,
    whatever terms remain. *)
Theorem no_term_started_with_five self item_name city w
    (pre post : list event) (t : string) :
  snd (fetch_price_data self item_name city w [])
  = pre ++ Print (Trying t) :: post ->
  found_count pre < 5
  /\ List.length (fst (term_phase self item_name city w []))
     = found_count (snd (term_phase self item_name city w []))
  /\ (forall rest all_prices h,
        5 <= List.length
               (fst (scrape_sources (sources self t city) all_prices w
                       (h ++ [Print (Trying t)]))) ->
        try_terms self city (t :: rest) all_prices w h
        = scrape_sources (sources self t city) all_prices w
            (h ++ [Print (Trying t)])).
Proof.
  intros Hsplit.
  destruct (fetch_trace self item_name city w) as (tail & Etr & Htail).
  destruct (summary_tail_observations _ Htail) as (_ & _ & _ & _ & Lt).
  destruct (term_phase_spec self item_name city w)
    as (evs & added & E & F & K & L & G & B & P & A).
  assert (Hrun := collect_prices_split self item_name city w).
  rewrite E in Hrun.
  assert (Hall : starts_below_five 0
                   (snd (fetch_price_data self item_name city w []))).
  { rewrite Etr, Hrun. apply starts_below_five_app. split; [|apply Lt].
    destruct added as [|p added]; cbn [Py.truthy].
    - destruct (google_spec self item_name city w
                  ((Print (Searching item_name city) :: evs)
                     ++ [Print TryingFallback])) as (e & Eg & Sg & _).
      destruct (silent_observations _ Sg) as (_ & _ & _ & Lg).
      rewrite Eg. rewrite <- app_assoc. simpl.
      apply starts_below_five_app. split; [exact L|]. simpl. apply Lg.
    - simpl. exact L. }
  split; [|split].
  - apply (starts_below_five_split 0 _ _ _ _ Hall Hsplit).
  - rewrite E. simpl. exact F.
  - intros rest all_prices h H5. cbn [try_terms]. rewrite !run_bind.
    cbn [print fst snd].
    destruct (Nat.leb_spec 5
                (List.length
                   (fst (scrape_sources (sources self t city) all_prices w
                           (h ++ [Print (Trying t)]))))); [|lia].
    unfold ret. destruct (scrape_sources _ _ _ _). reflexivity.
Qed.

Lemma no_term_started_with_five_stocked :
  found_count [Print (Searching "coke" "miami")] < 5.
Proof.
  apply (no_term_started_with_five {| driver := false |} "coke" "miami"
           stocked [Print (Searching "coke" "miami")]
           [SessionGet "https://www.walmart.com/search?q=coke";
            Print (Found 6 "Walmart"); Sleep 500;
            SessionGet "https://www.target.com/s?searchTerm=coke";
            Print (Found 6 "Target"); Sleep 500;
            SessionGet "https://www.publix.com/shop/search?query=coke";
            Print (Found 6 "Publix"); Sleep 500; Print (Collected 9)]
           "coke").
  vm_compute. reflexivity.
Defined.

(** C8. The search terms that the loop iterates over are at least one and
    at most three, the first is the item name as given, and they depend on
    the item name alone: in every world and for every city the terms tried
    by [fetch_price_data] are an initial segment of them, in their order. *)
Theorem expand_shape (item_name : string) :
  1 <= List.length (expand item_name) <= 3
  /\ hd_error (expand item_name) = Some item_name
  /\ forall self city w,
       exists rest,
         expand item_name
         = tried_terms (snd (fetch_price_data self item_name city w []))
           ++ rest.
Proof.
  destruct (search_terms_head item_name) as [tl Htl].
  unfold expand at 1 2 3. rewrite Htl, firstn_cons.
  cbn [hd_error List.length].
  split; [|split; [reflexivity|]].
  - pose proof (firstn_le_length 2 tl). lia.
  - intros self city w.
    destruct (fetch_trace self item_name city w) as (tail & Etr & Htail).
    destruct (summary_tail_observations _ Htail) as (Tt & _).
    destruct (term_phase_spec self item_name city w)
      as (evs & added & E & F & K & L & G & B & [rest P] & A).
    assert (Hrun := collect_prices_split self item_name city w).
    rewrite E in Hrun. exists rest.
    rewrite Etr, Hrun, tried_terms_app, Tt, app_nil_r.
    destruct added as [|p added]; cbn [Py.truthy].
    + destruct (google_spec self item_name city w
                  ((Print (Searching item_name city) :: evs)
                     ++ [Print TryingFallback])) as (e & Eg & Sg & _).
      destruct (silent_observations _ Sg) as (Tg & _).
      rewrite Eg, !tried_terms_app, Tg. simpl. rewrite !app_nil_r. exact P.
    + simpl. exact P.
Qed.

(** ** The price pattern *)

Lemma span_digits_spec (s : string) :
  all_digits (fst (Py.span_digits s)) = true
  /\ s = String.append (fst (Py.span_digits s)) (snd (Py.span_digits s))
  /\ take_digits 2 (snd (Py.span_digits s)) = EmptyString.
Proof.
  induction s as [|c s IH]; simpl; [auto|].
  destruct (Py.isdigit c) eqn:Ec.
  - destruct (Py.span_digits s) as [d r]. simpl in *.
    destruct IH as (H1 & H2 & H3). unfold all_digits in *. simpl.
    rewrite Ec, H1. repeat split; auto. congruence.
  - simpl. rewrite Ec. auto.
Qed.

Lemma take_digits_spec (n : nat) (s : string) :
  all_digits (take_digits n s) = true /\ String.length (take_digits n s) <= n.
Proof.
  revert s. induction n as [|n IH]; intros s; simpl.
  - split; [reflexivity|lia].
  - destruct s as [|c s]; simpl; [split; [reflexivity|lia]|].
    destruct (Py.isdigit c) eqn:Ec; simpl.
    + destruct (IH s) as [H1 H2]. unfold all_digits in *. simpl.
      rewrite Ec, H1. split; [reflexivity|lia].
    + split; [reflexivity|lia].
Qed.

Lemma match_price_shape (s g : string) (len : nat) :
  match_price s = Some (g, len) -> currency_shaped g.
Proof.
  unfold match_price.
  set (s1 := match s with String "$" r => (1, r) | _ => (0, s) end).
  destruct s1 as [n0 s1]. destruct (skip_spaces s1) as [n1 s2].
  destruct (span_digits_spec s2) as (Hd & _ & Hr).
  destruct (Py.span_digits s2) as [ip r1]. simpl in Hd, Hr.
  destruct ip as [|c ip]; [discriminate|].
  set (dr := match r1 with
             | String "." r => (String "." EmptyString, r)
             | _ => (EmptyString, r1)
             end).
  assert (Hdr : (fst dr = EmptyString /\ take_digits 2 (snd dr) = EmptyString)
                \/ fst dr = String "." EmptyString).
  { subst dr. destruct r1 as [|c1 r]; [left; auto|].
    destruct (Ascii.eqb_spec c1 "."%char) as [->|Hne].
    - right. reflexivity.
    - left. assert (E : (match c1 with
                         | "."%char => (String "." EmptyString, r)
                         | _ => (EmptyString, String c1 r)
                         end) = (EmptyString, String c1 r)).
      { destruct c1 as [[] [] [] [] [] [] [] []]; try reflexivity.
        congruence. }
      rewrite E. split; [reflexivity|exact Hr]. }
  destruct dr as [dot r2]. simpl in Hdr. intros [= <- _].
  destruct (take_digits_spec 2 r2) as [Hf Hl].
  exists (String c ip), dot, (take_digits 2 r2).
  repeat split; auto.
  - simpl. lia.
  - destruct Hdr as [[-> _]| ->]; auto.
  - intros ->. destruct Hdr as [[_ H]|H]; [exact H|discriminate].
Qed.

Lemma findall_from_matched (matcher : string -> option (string * nat))
    (s g : string) (skip : nat) :
  In g (findall_from matcher skip s) ->
  exists s' len, matcher s' = Some (g, len).
Proof.
  revert skip. induction s as [|c s IH]; intros skip; simpl; [tauto|].
  destruct skip as [|k]; [|apply IH].
  destruct (matcher (String c s)) as [[group len]|] eqn:E; [|apply IH].
  intros [<-|Hin]; [eauto|]. apply IH in Hin. exact Hin.
Qed.

Lemma price_matches_shape (text g : string) :
  In g (price_matches text) -> currency_shaped g.
Proof.
  unfold price_matches, findall. intros Hin.
  destruct (findall_from_matched _ _ _ _ Hin) as (s' & len & Hm).
  eapply match_price_shape, Hm.
Qed.

Lemma accept_length (c : option float) : List.length (accept c) <= 1.
Proof.
  destruct c as [p|]; simpl; [|lia]. destruct (plausible p); simpl; lia.
Qed.

Lemma flat_map_length_le {A B} (f : A -> list B) (l : list A) (k : nat) :
  (forall x, In x l -> List.length (f x) <= k) ->
  List.length (flat_map f l) <= List.length l * k.
Proof.
  induction l as [|x l IH]; intros H; simpl; [lia|].
  rewrite length_app.
  assert (List.length (f x) <= k) by (apply H; left; reflexivity).
  assert (List.length (flat_map f l) <= List.length l * k)
    by (apply IH; intros y Hy; apply H; right; exact Hy).
  lia.
Qed.

Lemma element_prices_length (text : string) :
  List.length (element_prices text) <= List.length (price_matches text).
Proof.
  unfold element_prices.
  pose proof (flat_map_length_le
                (fun price_str => accept (Py.float_of_string price_str))
                (price_matches text) 1 (fun x _ => accept_length _)).
  lia.
Qed.

(** C9, as the specification states it, fails: one element matched by the
    selector [.price] whose text holds sixteen prices contributes sixteen
    prices. *)
Lemma sixteen_prices_from_one_selector :
  nth_error price_selectors 4 = Some ".price"%string
  /\ List.length (select crowded_page ".price") = 1
  /\ List.length (selector_prices crowded_page ".price") = 16.
Proof. vm_compute. repeat split; reflexivity. Qed.

(** The prices of one element, counted: one for each match whose value
    passes the bound. *)
Lemma element_prices_count (text : string) :
  List.length (element_prices text)
  = List.length
      (filter (fun g => match Py.float_of_string g with
                        | Some p => plausible p
                        | None => false
                        end) (price_matches text)).
Proof.
  unfold element_prices.
  induction (price_matches text) as [|g l IH]; [reflexivity|].
  cbn [flat_map filter]. rewrite length_app, IH.
  destruct (Py.float_of_string g) as [q|]; cbn [accept]; [|reflexivity].
  destruct (plausible q); reflexivity.
Qed.

Lemma flat_map_count {A B} (f : A -> list B) (l : list A) :
  List.length (flat_map f l)
  = list_sum (map (fun x => List.length (f x)) l).
Proof.
  induction l as [|x l IH]; [reflexivity|].
  cbn [flat_map map list_sum]. rewrite length_app, IH. reflexivity.
Qed.

(** C9, amended. For each selector the extractor scans the first fifteen
    matched elements only: later elements contribute nothing. Every price
    contributed is the plausible value of a match of the price pattern
    in the text of one of these elements, a match being digits, then
    nothing, a dot, or a dot and up to two digits. The number of matches of
    one element is not capped: with at most [k] matches in each element a
    selector contributes at most [15 * k] prices. Nothing else is left
    out: the value of every match in one of the first fifteen elements
    that passes the bound is contributed, and the selector contributes
    exactly one price for each such match. *)
Theorem selector_scans_fifteen_elements (sp : soup) (selector : string) :
  selector_prices sp selector = selector_prices (first_fifteen sp) selector
  /\ (forall p,
        In p (selector_prices sp selector) ->
        exists text g,
          In text (firstn 15 (select sp selector))
          /\ In g (price_matches text)
          /\ currency_shaped g
          /\ Py.float_of_string g = Some p
          /\ plausible p = true)
  /\ (forall k,
        (forall text, In text (firstn 15 (select sp selector)) ->
                      List.length (price_matches text) <= k) ->
        List.length (selector_prices sp selector) <= 15 * k)
  /\ (forall text g p,
        In text (firstn 15 (select sp selector)) ->
        In g (price_matches text) ->
        Py.float_of_string g = Some p ->
        plausible p = true ->
        In p (selector_prices sp selector))
  /\ List.length (selector_prices sp selector)
     = list_sum
         (map (fun text =>
                 List.length
                   (filter (fun g => match Py.float_of_string g with
                                     | Some p => plausible p
                                     | None => false
                                     end) (price_matches text)))
            (firstn 15 (select sp selector))).
Proof.
  split; [|split; [|split; [|split]]].
  - unfold selector_prices, first_fifteen. cbn [select].
    rewrite firstn_firstn. reflexivity.
  - intros p Hp. unfold selector_prices, element_prices in Hp.
    apply in_flat_map in Hp. destruct Hp as (text & Ht & Hp).
    apply in_flat_map in Hp. destruct Hp as (g & Hg & Hp).
    exists text, g.
    destruct (Py.float_of_string g) as [q|]; simpl in Hp; [|tauto].
    destruct (plausible q) eqn:Eq; simpl in Hp; [|tauto].
    destruct Hp as [<-|[]].
    repeat split; auto. eapply price_matches_shape, Hg.
  - intros k Hk. unfold selector_prices.
    pose proof (flat_map_length_le element_prices
                  (firstn 15 (select sp selector)) k) as H.
    pose proof (firstn_le_length 15 (select sp selector)) as H15.
    assert (Hle : List.length (flat_map element_prices
                                 (firstn 15 (select sp selector)))
                  <= List.length (firstn 15 (select sp selector)) * k).
    { apply H. intros text Ht.
      pose proof (element_prices_length text). specialize (Hk text Ht). lia. }
    nia.
  - intros text g p Ht Hg Hf Hp. unfold selector_prices, element_prices.
    apply in_flat_map. exists text. split; [exact Ht|].
    apply in_flat_map. exists g. split; [exact Hg|].
    rewrite Hf. cbn [accept]. rewrite Hp. left. reflexivity.
  - unfold selector_prices. rewrite flat_map_count.
    f_equal. apply map_ext. intros text. apply element_prices_count.
Qed.

(** ** The regional multiplier *)

Lemma lookup_in {A} (key : string) (items : list (string * A)) (v : A) :
  RegionModel.lookup key items = Some v -> In v (map snd items).
Proof.
  induction items as [|[k x] items IH]; simpl; [discriminate|].
  destruct (String.eqb k key).
  - intros [= ->]. left. reflexivity.
  - intros H. right. apply IH, H.
Qed.

Lemma get_coordinates_cases (city : string) :
  In (RegionModel.get_coordinates city) RegionModel.city_coordinates.
Proof.
  unfold RegionModel.get_coordinates, RegionModel.city_coordinates.
  destruct (RegionModel.lookup _ RegionModel.hubs) as [data|] eqn:Eh.
  - apply in_or_app. left. apply lookup_in in Eh.
    apply in_map_iff in Eh. destruct Eh as (x & <- & Hx).
    apply in_map_iff. exists x. split; [reflexivity|exact Hx].
  - apply in_or_app. right.
    destruct (RegionModel.lookup _ RegionModel.known_others) as [c|] eqn:Eo.
    + apply in_or_app. left. apply lookup_in in Eo. exact Eo.
    + apply in_or_app. right. left. reflexivity.
Qed.


(** *** Exact arithmetic *)

Section Exact.
Import RegionModel.
Local Open Scope R_scope.










End Exact.


(** Coordinates that are NaN give NaN, infinite or huge ones raise. *)
Example multiplier_of_degenerate_coordinates :
  RegionModel.get_regional_multiplier None (Some nan) (Some nan)
  = Py.Return nan
  /\ RegionModel.get_regional_multiplier None (Some infinity) (Some 0%float)
     = Py.Raise
  /\ RegionModel.get_regional_multiplier None (Some 1e200%float)
       (Some 0%float) = Py.Raise.
Proof. vm_compute. repeat split; reflexivity. Qed.


(** * Further properties of the scraper *)

Section EventInvariant.

Import Cost.

Variable P : event -> Prop.
Hypothesis P_print : forall m, P (Print m).
Hypothesis P_pause : P (Sleep 500).

Lemma emits_ret {A} (a : A) : emits P (ret a).
Proof. intros w h. exists []. simpl. rewrite app_nil_r. auto. Qed.

Lemma emits_bind {A B} (m : M A) (f : A -> M B) :
  emits P m -> (forall a, emits P (f a)) -> emits P (bind m f).
Proof.
  intros Hm Hf w h. rewrite run_bind.
  destruct (Hm w h) as (e1 & E1 & P1).
  destruct (Hf (fst (m w h)) w (snd (m w h))) as (e2 & E2 & P2).
  exists (e1 ++ e2). rewrite E2, E1, app_assoc. split; [reflexivity|].
  apply Forall_app; split; assumption.
Qed.

Lemma emits_print (m : message) : emits P (print m).
Proof. intros w h. exists [Print m]. split; [reflexivity|]. auto. Qed.

Lemma emits_pause : emits P (sleep 500).
Proof. intros w h. exists [Sleep 500]. split; [reflexivity|]. auto. Qed.

Lemma scrape_sources_emits (srcs : list (string * M (list float))) :
  Forall (fun s => emits P (snd s)) srcs ->
  forall all_prices, emits P (scrape_sources srcs all_prices).
Proof.
  induction 1 as [|[source_name scrape_func] rest Hok _ IH]; intros all_prices.
  - apply emits_ret.
  - cbn [scrape_sources]. apply emits_bind; [exact Hok|]. intros prices.
    destruct (Py.truthy prices); [|apply IH].
    apply emits_bind; [apply emits_print|]. intros _.
    apply emits_bind; [apply emits_pause|]. intros _. apply IH.
Qed.

Lemma try_terms_emits self city (terms : list string) :
  (forall t, Forall (fun s => emits P (snd s)) (sources self t city)) ->
  forall all_prices, emits P (try_terms self city terms all_prices).
Proof.
  intros Hsrc. induction terms as [|t rest IH]; intros all_prices.
  - apply emits_ret.
  - cbn [try_terms]. apply emits_bind; [apply emits_print|]. intros _.
    apply emits_bind; [apply scrape_sources_emits, Hsrc|]. intros found.
    destruct (5 <=? List.length found); [apply emits_ret|apply IH].
Qed.

Lemma fetch_price_data_emits self item_name city :
  (forall t, Forall (fun s => emits P (snd s)) (sources self t city)) ->
  emits P (_scrape_google_shopping self item_name city) ->
  emits P (fetch_price_data self item_name city).
Proof.
  intros Hsrc Hg. unfold fetch_price_data, collect_prices.
  apply emits_bind.
  - apply emits_bind; [apply emits_print|]. intros _.
    apply emits_bind; [apply try_terms_emits, Hsrc|]. intros found.
    destruct (negb (Py.truthy found)); [|apply emits_ret].
    apply emits_bind; [apply emits_print|]. intros _. exact Hg.
  - intros all_prices. unfold summarize.
    destruct (Py.truthy all_prices); [|apply emits_ret].
    destruct (average _); [|apply emits_ret].
    apply emits_bind; [apply emits_print|]. intros _. apply emits_ret.
Qed.

Lemma emits_via_driver (url : string) (wait : nat) :
  P (DriverGet url) -> P (Sleep wait) -> P PageSource ->
  emits P (via_driver url wait).
Proof.
  intros H1 H2 H3 w h. unfold via_driver, get, sleep, read_page, bind, ret.
  destruct (driver_get w h url).
  - exists [DriverGet url; Sleep wait; PageSource].
    destruct (page_source w _); rewrite <- !app_assoc; simpl;
      (split; [reflexivity|]); repeat constructor; assumption.
  - exists [DriverGet url]. simpl. split; [reflexivity|].
    repeat constructor; assumption.
Qed.

Lemma emits_via_session (url : string) :
  P (SessionGet url) -> emits P (via_session url).
Proof.
  intros H1 w h. unfold via_session, request, bind, ret.
  exists [SessionGet url].
  destruct (session_get w h url) as [[status sp]|]; simpl;
    [destruct (status =? 200)%Z|]; simpl;
    (split; [reflexivity|]); repeat constructor; assumption.
Qed.

End EventInvariant.

Section Browser.

Import Cost.

Lemma sources_browserless self search_term city :
  driver self = false ->
  Forall (fun s => emits browserless (snd s)) (sources self search_term city).
Proof.
  intros Hd.
  assert (Hb : forall (m : M (list float)) (f : list float -> M (list float)),
             (forall l, emits browserless (f l)) ->
             emits browserless
               (bind (if driver self then m else ret []) f)).
  { intros m f Hf. rewrite Hd.
    apply emits_bind; [intros; apply emits_ret|exact Hf]. }
  assert (Hs : forall url (prices : list float),
             emits browserless
               (if negb (Py.truthy prices)
                then bind (via_session url) (fun more => ret (prices ++ more))
                else ret prices)).
  { intros url prices. destruct (negb (Py.truthy prices)); [|apply emits_ret].
    apply emits_bind; [apply emits_via_session; exact I|].
    intros more. apply emits_ret. }
  repeat constructor; cbn [snd].
  - apply Hb. intros l. apply Hs.
  - apply Hb. intros l. apply Hs.
  - unfold _scrape_instacart. rewrite Hd. apply emits_ret.
  - apply Hb. intros l. apply Hs.
Qed.

Lemma google_browserless self item_name city :
  driver self = false ->
  emits browserless (_scrape_google_shopping self item_name city).
Proof.
  intros Hd. unfold _scrape_google_shopping. rewrite Hd.
  intros w h. unfold request, bind, ret.
  exists [SessionGet (google_url item_name city)].
  destruct (session_get w h _) as [[status sp]|]; simpl;
    (split; [reflexivity|]); repeat constructor.
Qed.

(** X1. A scraper without a browser session never touches the browser:
    the trace of [fetch_price_data] holds no [driver.get] and no read of
    [page_source], pages are asked through [requests] only, and every pause
    is the half second that follows a source with prices (the three-second
    and two-second waits belong to the browser). *)
Theorem no_driver_no_browser self item_name city w :
  driver self = false ->
  Forall browserless (snd (fetch_price_data self item_name city w [])).
Proof.
  intros Hd.
  destruct (fetch_price_data_emits browserless (fun _ => I) eq_refl
              self item_name city
              (fun t => sources_browserless self t city Hd)
              (google_browserless self item_name city Hd) w [])
    as (evs & E & HP).
  rewrite E. exact HP.
Qed.

Lemma no_driver_no_browser_offline :
  Forall browserless
    (snd (fetch_price_data {| driver := false |} "milk" "miami" offline [])).
Proof.
  apply (no_driver_no_browser {| driver := false |} "milk" "miami" offline).
  reflexivity.
Defined.

End Browser.

Section Urls.

Import Cost.

Lemma no_space_append (a b : string) :
  no_space (String.append a b) = no_space a && no_space b.
Proof.
  unfold no_space. induction a as [|c a IH]; simpl; [reflexivity|].
  rewrite IH. apply andb_assoc.
Qed.

Lemma no_space_replace (new s : string) :
  no_space new = true -> no_space (Py.replace " " new s) = true.
Proof.
  intros Hn. induction s as [|c s IH]; simpl; [reflexivity|].
  destruct (Ascii.eqb c " ") eqn:Ec.
  - rewrite no_space_append, Hn, IH. reflexivity.
  - unfold no_space in *. simpl. rewrite Ec, IH. reflexivity.
Qed.

Lemma prefix_append (a b : string) : String.prefix a (String.append a b) = true.
Proof.
  induction a as [|c a IH]; simpl; [destruct b; reflexivity|].
  destruct (ascii_dec c c); [exact IH|congruence].
Qed.

Lemma well_formed_site (site query : string) :
  In site sites -> no_space site = true -> no_space query = true ->
  well_formed (String.append site query) = true.
Proof.
  intros Hin Hs Hq. unfold well_formed.
  rewrite no_space_append, Hs, Hq. cbn [andb].
  apply existsb_exists. exists site. split; [exact Hin|apply prefix_append].
Qed.

Ltac site_url :=
  apply well_formed_site;
  [ simpl; tauto
  | reflexivity
  | rewrite ?no_space_append, ?no_space_replace by reflexivity; reflexivity ].

Lemma sources_well_formed self search_term city :
  Forall (fun s => emits asks_well_formed (snd s))
    (sources self search_term city).
Proof.
  assert (Hd : forall url, well_formed url = true ->
                 emits asks_well_formed
                   (if driver self then via_driver url 3000 else ret [])).
  { intros url Hu. destruct (driver self); [|apply emits_ret].
    apply emits_via_driver; simpl; auto. }
  assert (Hs : forall url (prices : list float), well_formed url = true ->
             emits asks_well_formed
               (if negb (Py.truthy prices)
                then bind (via_session url) (fun more => ret (prices ++ more))
                else ret prices)).
  { intros url prices Hu.
    destruct (negb (Py.truthy prices)); [|apply emits_ret].
    apply emits_bind; [apply emits_via_session; exact Hu|].
    intros more. apply emits_ret. }
  repeat constructor; cbn [snd].
  - apply emits_bind; [apply Hd; site_url|]. intros l. apply Hs. site_url.
  - apply emits_bind; [apply Hd; site_url|]. intros l. apply Hs. site_url.
  - apply Hd. site_url.
  - apply emits_bind; [apply Hd; site_url|]. intros l. apply Hs. site_url.
Qed.

Lemma google_well_formed self item_name city :
  emits asks_well_formed (_scrape_google_shopping self item_name city).
Proof.
  assert (Hu : well_formed (google_url item_name city) = true).
  { unfold google_url. site_url. }
  unfold _scrape_google_shopping. destruct (driver self).
  - apply emits_via_driver; simpl; auto.
  - intros w h. unfold request, bind, ret.
    exists [SessionGet (google_url item_name city)].
    destruct (session_get w h _) as [[status sp]|]; simpl;
      (split; [reflexivity|]); repeat constructor; exact Hu.
Qed.

(** X2. Every page that [fetch_price_data] asks for, through the browser
    or through [requests], is a search page of one of the five sites
    (Walmart, Target, Instacart, Publix, Google), and its URL holds no
    space, whatever the item name and the city are. *)
Theorem requested_urls_well_formed self item_name city w :
  Forall (fun url => well_formed url = true)
    (requested (snd (fetch_price_data self item_name city w []))).
Proof.
  destruct (fetch_price_data_emits asks_well_formed (fun _ => I) I
              self item_name city
              (fun t => sources_well_formed self t city)
              (google_well_formed self item_name city) w [])
    as (evs & E & HP).
  rewrite E. simpl. clear E.
  induction HP as [|e evs He _ IH]; [constructor|].
  destruct e; simpl in *; auto.
Qed.

End Urls.

Section Budget.

Import Cost.

Lemma slept_app (a b : list event) : slept (a ++ b) = slept a + slept b.
Proof.
  induction a as [|[[]| | | |] a IH]; simpl; rewrite ?IH; lia.
Qed.

Lemma found_lines_app (a b : list event) :
  found_lines (a ++ b) = found_lines a + found_lines b.
Proof.
  induction a as [|[[]| | | |] a IH]; simpl; rewrite ?IH; lia.
Qed.

Lemma silent_found_lines (tr : list event) : silent tr -> found_lines tr = 0.
Proof.
  induction 1 as [|e tr He _ IH]; [reflexivity|].
  destruct e; [contradiction| | | |]; simpl; auto.
Qed.

Lemma costs_ret (l : list float) : costs 0 0 (ret l).
Proof.
  intros w h. exists []. simpl. rewrite app_nil_r.
  repeat split; auto. constructor.
Qed.

Lemma costs_weaken (r s r' s' : nat) (m : M (list float)) :
  costs r s m -> r <= r' -> s <= s' -> costs r' s' m.
Proof.
  intros Hm Hr Hs w h. destruct (Hm w h) as (evs & E & S & R & T).
  exists evs. repeat split; auto; lia.
Qed.

Lemma costs_bind (r1 s1 r2 s2 : nat) (m : M (list float))
    (f : list float -> M (list float)) :
  costs r1 s1 m -> (forall l, costs r2 s2 (f l)) ->
  costs (r1 + r2) (s1 + s2) (bind m f).
Proof.
  intros Hm Hf w h. rewrite run_bind.
  destruct (Hm w h) as (e1 & E1 & S1 & R1 & T1).
  destruct (Hf (fst (m w h)) w (snd (m w h))) as (e2 & E2 & S2 & R2 & T2).
  exists (e1 ++ e2). rewrite E2, E1, app_assoc.
  rewrite requested_app, length_app, slept_app.
  repeat split; auto; try lia. apply silent_app; assumption.
Qed.

Lemma costs_via_driver (url : string) (wait : nat) :
  costs 1 wait (via_driver url wait).
Proof.
  intros w h. unfold via_driver, get, sleep, read_page, bind, ret.
  destruct (driver_get w h url).
  - exists [DriverGet url; Sleep wait; PageSource].
    destruct (page_source w _); rewrite <- !app_assoc; simpl;
      repeat split; repeat constructor; lia.
  - exists [DriverGet url]. simpl. repeat split; repeat constructor; lia.
Qed.

Lemma costs_via_session (url : string) : costs 1 0 (via_session url).
Proof.
  intros w h. unfold via_session, request, bind, ret.
  exists [SessionGet url].
  destruct (session_get w h url) as [[status sp]|]; simpl;
    [destruct (status =? 200)%Z|]; simpl;
    repeat split; repeat constructor.
Qed.

Lemma costs_if_driver self (m : M (list float)) (r s : nat) :
  costs r s m -> costs r s (if driver self then m else ret []).
Proof.
  intros Hm. destruct (driver self); [exact Hm|].
  eapply costs_weaken; [apply costs_ret|lia|lia].
Qed.

Lemma costs_retry (first second : M (list float)) (r1 s1 r2 s2 : nat) :
  costs r1 s1 first -> costs r2 s2 second ->
  costs (r1 + r2) (s1 + s2)
    (prices <- first ;;
     if negb (Py.truthy prices)
     then more <- second ;; ret (prices ++ more)
     else ret prices).
Proof.
  intros H1 H2. apply costs_bind; [exact H1|]. intros l.
  destruct (negb (Py.truthy l)).
  - replace r2 with (r2 + 0) by lia. replace s2 with (s2 + 0) by lia.
    apply costs_bind; [exact H2|]. intros l'. apply costs_ret.
  - eapply costs_weaken; [apply costs_ret|lia|lia].
Qed.

(** What each source may cost: pages asked and milliseconds slept. *)
Lemma sources_costs self search_term city :
  Forall2 (fun s b => costs (fst b) (snd b) (snd s))
    (sources self search_term city)
    [(2, 3000); (2, 3000); (1, 3000); (2, 3000)].
Proof.
  repeat constructor; cbn [fst snd].
  - apply (costs_retry _ _ 1 3000 1 0);
      [apply costs_if_driver, costs_via_driver|apply costs_via_session].
  - apply (costs_retry _ _ 1 3000 1 0);
      [apply costs_if_driver, costs_via_driver|apply costs_via_session].
  - apply costs_if_driver, costs_via_driver.
  - apply (costs_retry _ _ 1 3000 1 0);
      [apply costs_if_driver, costs_via_driver|apply costs_via_session].
Qed.

Lemma costs_google self item_name city :
  costs 1 2000 (_scrape_google_shopping self item_name city).
Proof.
  unfold _scrape_google_shopping. destruct (driver self).
  - apply costs_via_driver.
  - intros w h. unfold request, bind, ret.
    exists [SessionGet (google_url item_name city)].
    destruct (session_get w h _) as [[status sp]|]; simpl;
      repeat split; repeat constructor; lia.
Qed.

Lemma scrape_sources_cost (srcs : list (string * M (list float)))
    (bounds : list (nat * nat)) :
  Forall2 (fun s b => costs (fst b) (snd b) (snd s)) srcs bounds ->
  forall all_prices w h, exists evs,
    snd (scrape_sources srcs all_prices w h) = h ++ evs
    /\ List.length (requested evs) <= list_sum (map fst bounds)
    /\ slept evs <= list_sum (map snd bounds) + 500 * found_lines evs
    /\ found_lines evs <= List.length srcs
    /\ found_lines evs <= found_count evs.
Proof.
  induction 1 as [|[source_name scrape_func] [r s] rest bounds Hc _ IH];
    intros all_prices w h.
  - exists []. simpl. rewrite app_nil_r. repeat split; lia.
  - cbn [scrape_sources]. rewrite run_bind.
    destruct (Hc w h) as (e1 & E1 & S1 & R1 & T1). cbn [fst snd] in *.
    pose proof (silent_found_lines _ S1) as L1.
    destruct (silent_observations _ S1) as (_ & F1 & _).
    rewrite E1.
    destruct (fst (scrape_func w h)) as [|p prices]; cbn [Py.truthy].
    + destruct (IH all_prices w (h ++ e1)) as (e2 & E2 & R2 & T2 & L2 & C2).
      exists (e1 ++ e2). rewrite E2, app_assoc.
      rewrite requested_app, length_app, slept_app, found_lines_app,
        found_count_app, L1, F1.
      unfold list_sum in *; cbn [map fold_right fst snd List.length]. repeat split; lia.
    + rewrite !run_bind. cbn [print sleep fst snd].
      destruct (IH (all_prices ++ p :: prices) w
                  (((h ++ e1)
                      ++ [Print (Found (List.length (p :: prices)) source_name)])
                     ++ [Sleep 500]))
        as (e2 & E2 & R2 & T2 & L2 & C2).
      exists (e1 ++ [Print (Found (List.length (p :: prices)) source_name);
                     Sleep 500] ++ e2).
      rewrite E2. rewrite <- !app_assoc.
      rewrite !requested_app, !length_app, !slept_app, !found_lines_app,
        !found_count_app, L1, F1.
      unfold list_sum in *; cbn [map fold_right fst snd List.length requested slept found_lines
             found_count app].
      repeat split; lia.
Qed.

Lemma try_terms_cost self city (terms : list string) :
  forall all_prices w h,
    List.length all_prices < 5 ->
    exists evs,
      snd (try_terms self city terms all_prices w h) = h ++ evs
      /\ List.length (requested evs) <= 7 * List.length terms
      /\ slept evs <= 4 * 3000 * List.length terms + 500 * found_lines evs
      /\ found_lines evs <= 8 - List.length all_prices
      /\ found_lines evs <= found_count evs.
Proof.
  induction terms as [|search_term rest IH]; intros all_prices w h Hlt.
  - exists []. simpl. rewrite app_nil_r. repeat split; lia.
  - cbn [try_terms]. rewrite !run_bind. cbn [print fst snd].
    destruct (scrape_sources_cost _ _ (sources_costs self search_term city)
                all_prices w (h ++ [Print (Trying search_term)]))
      as (e1 & E1 & R1 & T1 & L1 & C1).
    destruct (scrape_sources_spec _ (sources_ok self search_term city)
                all_prices w (h ++ [Print (Trying search_term)]))
      as (e1' & a1 & E1' & F1 & _).
    assert (e1' = e1).
    { apply (f_equal snd) in E1'. cbn [snd] in E1'. rewrite E1 in E1'.
      apply app_inv_head in E1'. congruence. }
    subst e1'. rewrite E1'. cbn [fst snd].
    unfold list_sum in *; cbn [map fold_right fst snd List.length] in *.
    unfold sources in L1. cbn [List.length] in L1.
    destruct (Nat.leb_spec 5 (List.length (all_prices ++ a1))) as [Hge|Hlt'].
    + exists (Print (Trying search_term) :: e1).
      unfold ret. rewrite <- app_assoc. cbn [snd app].
      cbn [requested slept found_lines found_count List.length].
      repeat split; lia.
    + destruct (IH (all_prices ++ a1) w
                  ((h ++ [Print (Trying search_term)]) ++ e1) Hlt')
        as (e2 & E2 & R2 & T2 & L2 & C2).
      exists (Print (Trying search_term) :: e1 ++ e2).
      rewrite E2. rewrite <- !app_assoc. cbn [app].
      cbn [requested slept found_lines found_count].
      rewrite requested_app, length_app, slept_app, found_lines_app,
        found_count_app.
      rewrite length_app in L2, Hlt'. cbn [List.length].
      repeat split; try lia.
Qed.

(** The same bound from any history, for a caller of the scraper. *)
Lemma fetch_price_data_cost self item_name city w h :
  exists evs,
    snd (fetch_price_data self item_name city w h) = h ++ evs
    /\ List.length (requested evs) <= 22
    /\ slept evs <= 40 * 1000.
Proof.
  assert (H3 : List.length (expand item_name) <= 3)
    by (unfold expand; apply firstn_le_length).
  unfold fetch_price_data, collect_prices.
  rewrite !run_bind. cbn [print fst snd].
  destruct (try_terms_cost self city (expand item_name) [] w
              (h ++ [Print (Searching item_name city)]))
    as (evs & E & R & T & L & C); [simpl; lia|].
  destruct (try_terms_spec self city (expand item_name) [] w
              (h ++ [Print (Searching item_name city)]))
    as (evs' & added & E' & F & _); [simpl; lia|].
  assert (evs' = evs).
  { apply (f_equal snd) in E'. cbn [snd] in E'. rewrite E in E'.
    apply app_inv_head in E'. congruence. }
  subst evs'. rewrite E'. cbn [fst snd app List.length] in *.
  destruct added as [|p added]; cbn [Py.truthy negb].
  - rewrite !run_bind. cbn [print fst snd].
    destruct (costs_google self item_name city w
                (((h ++ [Print (Searching item_name city)]) ++ evs)
                   ++ [Print TryingFallback]))
      as (e & Eg & _ & Rg & Tg).
    set (pool := fst (_scrape_google_shopping self item_name city w _)).
    rewrite Eg.
    assert (Hs : exists tail,
               snd (summarize pool item_name w
                      ((((h ++ [Print (Searching item_name city)]) ++ evs)
                          ++ [Print TryingFallback]) ++ e))
               = ((((h ++ [Print (Searching item_name city)]) ++ evs)
                     ++ [Print TryingFallback]) ++ e) ++ tail
               /\ requested tail = [] /\ slept tail = 0).
    { destruct pool as [|q pool].
      - exists []. rewrite summarize_empty, app_nil_r. auto.
      - rewrite summarize_nonempty by discriminate. eexists.
        split; [reflexivity|]. auto. }
    destruct Hs as (tail & -> & Rt & St).
    exists ((Print (Searching item_name city) :: evs)
            ++ (Print TryingFallback :: e) ++ tail).
    split; [rewrite <- !app_assoc; reflexivity|].
    cbn [app requested slept].
    rewrite !requested_app, !length_app, !slept_app.
    cbn [requested slept app List.length].
    rewrite !requested_app, !length_app, !slept_app, Rt, St.
    cbn [List.length]. simpl in F. split; lia.
  - unfold ret. cbn [fst snd].
    rewrite summarize_nonempty by discriminate. cbn [snd].
    eexists (Print (Searching item_name city) :: evs ++ [_]).
    split; [rewrite <- !app_assoc; reflexivity|].
    cbn [requested slept].
    rewrite !requested_app, !length_app, !slept_app.
    cbn [requested slept List.length]. split; lia.
Qed.

(** X3. One call of [fetch_price_data] asks at most 22 pages (seven for
    each of at most three search terms, and the fallback page) and spends
    at most 40 seconds in [time.sleep], whatever the world answers. *)
Theorem fetch_price_data_budget self item_name city w :
  let tr := snd (fetch_price_data self item_name city w []) in
  List.length (requested tr) <= 22 /\ slept tr <= 40 * 1000.
Proof.
  intros tr. subst tr.
  destruct (fetch_trace self item_name city w) as (tail & Etr & Htail).
  destruct (summary_tail_observations _ Htail) as (_ & _ & _ & Rt & _).
  assert (St : slept tail = 0) by (destruct Htail as [->|[n ->]]; reflexivity).
  destruct (term_phase_spec self item_name city w)
    as (evs & added & E & F & _).
  assert (Hrun := collect_prices_split self item_name city w).
  rewrite E in Hrun.
  assert (H3 : List.length (expand item_name) <= 3)
    by (unfold expand; apply firstn_le_length).
  destruct (try_terms_cost self city (expand item_name) [] w
              [Print (Searching item_name city)])
    as (evs' & E' & R & T & L & C); [simpl; lia|].
  assert (evs' = evs).
  { unfold term_phase in E. rewrite run_bind in E. cbn [print fst snd app] in E.
    apply (f_equal snd) in E. cbn [snd] in E. rewrite E' in E.
    cbn [app] in E. congruence. }
  subst evs'. cbn [List.length] in L.
  rewrite Etr, Hrun, requested_app, length_app, slept_app, Rt, St.
  destruct added as [|p added]; cbn [Py.truthy].
  - destruct (costs_google self item_name city w
                ((Print (Searching item_name city) :: evs)
                   ++ [Print TryingFallback]))
      as (e & Eg & _ & Rg & Tg).
    rewrite Eg. rewrite <- app_assoc. cbn [snd app requested slept].
    rewrite requested_app, length_app, slept_app.
    cbn [requested slept List.length app]. simpl in F.
    split; lia.
  - cbn [snd requested slept List.length]. split; lia.
Qed.

End Budget.

(** ** The price patterns and [float] *)

Section Parsing.

Import Cost.

Lemma plain_char (c : ascii) :
  Py.isdigit c || Ascii.eqb c "." = true ->
  Py.isspace c = false /\ Ascii.eqb c "_" = false.
Proof.
  destruct c as [[] [] [] [] [] [] [] []]; simpl; intros H;
    try discriminate H; split; reflexivity.
Qed.

Lemma plain_append (a b : string) :
  plain (String.append a b) = plain a && plain b.
Proof.
  unfold plain. induction a as [|c a IH]; simpl; [reflexivity|].
  rewrite IH. apply andb_assoc.
Qed.

Lemma digits_plain (s : string) : all_digits s = true -> plain s = true.
Proof.
  unfold all_digits, plain. induction s as [|c s IH]; simpl; [reflexivity|].
  intros H. apply andb_prop in H. destruct H as [Hc Hs].
  rewrite Hc, (IH Hs). reflexivity.
Qed.

Lemma rstrip_plain (s : string) : plain s = true -> Py.rstrip s = s.
Proof.
  unfold plain. induction s as [|c s IH]; simpl; [reflexivity|].
  intros H. apply andb_prop in H. destruct H as [Hc Hs].
  rewrite (IH Hs). destruct (plain_char c Hc) as [Hsp _].
  destruct s; [rewrite Hsp|]; reflexivity.
Qed.

Lemma lstrip_plain (s : string) : plain s = true -> Py.lstrip s = s.
Proof.
  unfold plain. destruct s as [|c s]; simpl; [reflexivity|].
  intros H. apply andb_prop in H. destruct H as [Hc Hs].
  destruct (plain_char c Hc) as [Hsp _]. rewrite Hsp. reflexivity.
Qed.

Lemma plain_char_c (c : ascii) :
  Py.isdigit c || Ascii.eqb c "." = true -> Py.isspace_c c = false.
Proof.
  destruct c as [[] [] [] [] [] [] [] []]; simpl; intros H;
    try discriminate H; reflexivity.
Qed.

Lemma rstrip_c_plain (s : string) : plain s = true -> Py.rstrip_c s = s.
Proof.
  unfold plain. induction s as [|c s IH]; simpl; [reflexivity|].
  intros H. apply andb_prop in H. destruct H as [Hc Hs].
  rewrite (IH Hs). rewrite (plain_char_c c Hc).
  destruct s; reflexivity.
Qed.

Lemma lstrip_c_plain (s : string) : plain s = true -> Py.lstrip_c s = s.
Proof.
  unfold plain. destruct s as [|c s]; simpl; [reflexivity|].
  intros H. apply andb_prop in H. destruct H as [Hc Hs].
  rewrite (plain_char_c c Hc). reflexivity.
Qed.

Lemma underscores_ok_plain (s : string) (prev : option ascii) :
  plain s = true -> prev <> Some "_"%char ->
  Py.underscores_ok prev s = true.
Proof.
  unfold plain. revert prev. induction s as [|c s IH]; intros prev; simpl.
  - intros _ Hp. destruct prev as [p|]; [|reflexivity].
    destruct (Ascii.eqb_spec p "_"); [subst; congruence|].
    destruct p as [[] [] [] [] [] [] [] []]; try reflexivity. congruence.
  - intros H Hp. apply andb_prop in H. destruct H as [Hc Hs].
    destruct (plain_char c Hc) as [_ Hu]. rewrite Hu.
    rewrite IH; [|exact Hs|].
    + rewrite andb_true_r. destruct prev as [p|]; [|reflexivity].
      destruct p as [[] [] [] [] [] [] [] []]; try reflexivity. congruence.
    + intros [= ->]. discriminate Hu.
Qed.

Lemma remove_underscores_plain (s : string) :
  plain s = true -> Py.remove_underscores s = s.
Proof.
  unfold plain, Py.remove_underscores.
  induction s as [|c s IH]; simpl; [reflexivity|].
  intros H. apply andb_prop in H. destruct H as [Hc Hs].
  destruct (plain_char c Hc) as [_ Hu]. rewrite Hu, (IH Hs). reflexivity.
Qed.

Lemma append_empty (s : string) : String.append s EmptyString = s.
Proof. induction s; simpl; congruence. Qed.

Lemma span_digits_all (s : string) :
  all_digits s = true -> Py.span_digits s = (s, EmptyString).
Proof.
  unfold all_digits. induction s as [|c s IH]; simpl; [reflexivity|].
  intros H. apply andb_prop in H. destruct H as [Hc Hs].
  rewrite Hc, (IH Hs). reflexivity.
Qed.

Lemma span_digits_dot (s r : string) :
  all_digits s = true ->
  Py.span_digits (String.append s (String "." r)) = (s, String "." r).
Proof.
  unfold all_digits. induction s as [|c s IH]; simpl; [reflexivity|].
  intros H. apply andb_prop in H. destruct H as [Hc Hs].
  rewrite Hc, (IH Hs). reflexivity.
Qed.

(** The first steps of [float] on a string that starts with a digit: no
    sign, and none of the words [inf], [infinity], [nan]. *)
Lemma digit_first (d : ascii) (rest : string) :
  Py.isdigit d = true ->
  Py.split_sign (String d rest) = (false, String d rest)
  /\ String.eqb (Py.lower (String d rest)) "inf"
     || String.eqb (Py.lower (String d rest)) "infinity" = false
  /\ String.eqb (Py.lower (String d rest)) "nan" = false.
Proof.
  destruct d as [[] [] [] [] [] [] [] []]; simpl; intros H;
    try discriminate H; repeat split; reflexivity.
Qed.

Lemma float_of_shaped (ip fp : string) (dotted : bool) :
  all_digits ip = true -> 1 <= String.length ip ->
  all_digits fp = true -> (dotted = false -> fp = EmptyString) ->
  Py.float_of_string
    (String.append ip (if dotted then String "." fp else EmptyString))
  = Some (Py.decimal_value false
            (Py.digits_value 0 (String.append ip fp))
            (0 - Z.of_nat (String.length fp))).
Proof.
  intros Hip Hlen Hfp Hdot.
  set (g := String.append ip (if dotted then String "." fp else EmptyString)).
  assert (Hg : plain g = true).
  { subst g. rewrite plain_append, (digits_plain _ Hip).
    destruct dotted; [|reflexivity].
    unfold plain. simpl. apply (digits_plain _ Hfp). }
  unfold Py.float_of_string, Py.strip_c.
  rewrite (lstrip_c_plain _ Hg), (rstrip_c_plain _ Hg).
  rewrite (underscores_ok_plain _ None Hg) by discriminate.
  rewrite (remove_underscores_plain _ Hg). cbn [negb].
  destruct ip as [|d ip]; [simpl in Hlen; lia|].
  assert (Hd : Py.isdigit d = true).
  { unfold all_digits in Hip. simpl in Hip. apply andb_prop in Hip. tauto. }
  destruct (digit_first d
              (String.append ip
                 (if dotted then String "." fp else EmptyString)) Hd)
    as (Hs & Hw & Hn).
  subst g. cbn [String.append] in *. rewrite Hs, Hw, Hn.
  change (String d
            (String.append ip
               (if dotted then String "." fp else EmptyString)))
    with (String.append (String d ip)
            (if dotted then String "." fp else EmptyString)).
  destruct dotted.
  - rewrite (span_digits_dot _ _ Hip), (span_digits_all _ Hfp).
    cbn [String.length Nat.add]. reflexivity.
  - pose proof (Hdot eq_refl) as Hf. subst fp.
    repeat rewrite append_empty. rewrite (span_digits_all _ Hip).
    repeat rewrite append_empty. cbn [String.length Nat.add]. reflexivity.
Qed.

Lemma shaped_cases (g : string) :
  currency_shaped g ->
  exists (ip fp : string) (dotted : bool),
    g = String.append ip (if dotted then String "." fp else EmptyString)
    /\ all_digits ip = true /\ 1 <= String.length ip
    /\ all_digits fp = true /\ String.length fp <= 2
    /\ (dotted = false -> fp = EmptyString).
Proof.
  intros (ip & sep & fp & Hg & Hip & Hlen & Hdot & Hfp & Hfl & He).
  subst g.
  destruct Hdot as [->| ->].
  - exists ip, fp, false. rewrite (He eq_refl). simpl.
    repeat split; auto.
  - exists ip, fp, true. simpl. repeat split; auto. discriminate.
Qed.

Lemma match_dollar_price_shape (s g : string) (len : nat) :
  match_dollar_price s = Some (g, len) -> currency_shaped g.
Proof.
  unfold match_dollar_price.
  destruct s as [|c s]; [discriminate|].
  destruct (Ascii.eqb_spec c "$"%char) as [->|Hne];
    [|destruct c as [[] [] [] [] [] [] [] []]; try discriminate; congruence].
  destruct (skip_spaces s) as [n1 s2].
  destruct (span_digits_spec s2) as (Hd & _ & _).
  destruct (Py.span_digits s2) as [ip r1]. simpl in Hd.
  destruct ip as [|d ip]; [discriminate|].
  destruct r1 as [|c1 r1]; [discriminate|].
  destruct (Ascii.eqb_spec c1 "."%char) as [->|Hne];
    [|destruct c1 as [[] [] [] [] [] [] [] []]; try discriminate; congruence].
  destruct r1 as [|a [|b r]]; try discriminate.
  destruct (Py.isdigit a) eqn:Ea; [|discriminate].
  destruct (Py.isdigit b) eqn:Eb; [|discriminate].
  cbn [andb]. intros [= <- _].
  exists (String d ip), (String "." EmptyString), (String a (String b EmptyString)).
  unfold all_digits in *. simpl. rewrite Ea, Eb.
  repeat split; auto; try lia. discriminate.
Qed.

(** X4. Every match of the two price patterns is a string that [float]
    accepts, so the [except: continue] of the selector and free-text
    layers is never taken: a found match is left out only by the bound.
    The match is one or more digits, alone or followed by a point and at
    most two digits, and the value is the decimal that these digits
    spell, correctly rounded. *)
Theorem matches_always_parse (text g : string) :
  In g (price_matches text) \/ In g (findall match_dollar_price text) ->
  exists ip fp,
    (g = ip /\ fp = EmptyString \/ g = String.append ip (String "." fp))
    /\ all_digits ip = true /\ 1 <= String.length ip
    /\ all_digits fp = true /\ String.length fp <= 2
    /\ Py.float_of_string g
       = Some (Py.decimal_value false
                 (Py.digits_value 0 (String.append ip fp))
                 (0 - Z.of_nat (String.length fp)))
    /\ accept (Py.float_of_string g)
       = filter plausible
           [Py.decimal_value false
              (Py.digits_value 0 (String.append ip fp))
              (0 - Z.of_nat (String.length fp))].
Proof.
  intros Hin.
  assert (Hs : currency_shaped g).
  { destruct Hin as [Hin|Hin].
    - eapply price_matches_shape, Hin.
    - unfold findall in Hin.
      destruct (findall_from_matched _ _ _ _ Hin) as (s' & len & Hm).
      eapply match_dollar_price_shape, Hm. }
  destruct (shaped_cases g Hs) as (ip & fp & dotted & -> & Hip & Hl & Hfp & Hfl & He).
  exists ip, fp. rewrite (float_of_shaped ip fp dotted Hip Hl Hfp He).
  split.
  { destruct dotted; [right; reflexivity|left].
    split; [apply append_empty|apply He; reflexivity]. }
  repeat split; auto.
Qed.

End Parsing.

Lemma matches_always_parse_sample :
  exists ip fp,
    ("1.99"%string = ip /\ fp = EmptyString
     \/ "1.99"%string = String.append ip (String "." fp))
    /\ all_digits ip = true /\ 1 <= String.length ip
    /\ all_digits fp = true /\ String.length fp <= 2
    /\ Py.float_of_string "1.99"
       = Some (Py.decimal_value false
                 (Py.digits_value 0 (String.append ip fp))
                 (0 - Z.of_nat (String.length fp)))
    /\ accept (Py.float_of_string "1.99")
       = filter plausible
           [Py.decimal_value false
              (Py.digits_value 0 (String.append ip fp))
              (0 - Z.of_nat (String.length fp))].
Proof.
  apply (matches_always_parse "$1.99" "1.99").
  left. vm_compute. left. reflexivity.
Defined.

(** ** The layers of the extractor *)

(** X5. The free-text layer contributes at most twenty prices and each
    JSON-LD script at most one, whatever the page holds; a page without
    matching element, script and text gives no price. *)
Theorem extractor_layer_limits (sp : soup) :
  List.length (text_prices sp) <= 20
  /\ List.length (flat_map script_prices (ld_json sp))
     <= List.length (ld_json sp)
  /\ ((forall selector, select sp selector = []) ->
      ld_json sp = [] -> get_text sp = EmptyString ->
      _extract_prices_from_soup sp = []).
Proof.
  split; [|split].
  - unfold text_prices.
    pose proof (flat_map_length_le
                  (fun m => accept (Py.float_of_string m))
                  (firstn 20 (findall match_dollar_price (get_text sp))) 1
                  (fun x _ => accept_length _)) as H.
    pose proof (firstn_le_length 20
                  (findall match_dollar_price (get_text sp))). lia.
  - pose proof (flat_map_length_le script_prices (ld_json sp) 1) as H.
    rewrite Nat.mul_1_r in H. apply H. intros loaded _.
    unfold script_prices.
    destruct loaded as [[| | | | | |data]|]; simpl; try lia.
    destruct (dict_get "offers" data) as [[| | | | | |offers]|];
      try (destruct (dict_get "price" data);
           [apply accept_length|simpl; lia]).
    destruct (dict_get "price" offers); [apply accept_length|simpl; lia].
  - intros Hsel Hld Htext. unfold _extract_prices_from_soup, text_prices.
    rewrite Hld, Htext. cbn [flat_map findall findall_from firstn app].
    rewrite app_nil_r. generalize price_selectors. intros l.
    induction l as [|selector l IH]; cbn [flat_map]; [reflexivity|].
    unfold selector_prices at 1. rewrite Hsel. cbn [firstn flat_map app].
    exact IH.
Qed.

(** ** The envelope filter, again *)

Lemma filter_twice {A} (f : A -> bool) (l : list A) :
  filter f (filter f l) = filter f l.
Proof.
  induction l as [|x l IH]; simpl; [reflexivity|].
  destruct (f x) eqn:E; simpl; rewrite ?E, IH; reflexivity.
Qed.

Lemma filter_by_type_incl (prices : list float) (item_name : string) :
  incl (_filter_prices_by_product_type prices item_name) prices.
Proof.
  rewrite filter_by_envelope. unfold restrict.
  destruct (Py.truthy _); [|apply incl_refl].
  intros x Hx. apply filter_In in Hx. tauto.
Qed.

(** X6. Filtering by product type is idempotent, and what it returns is
    made of prices of the pool: never more than the pool holds. *)
Theorem filter_idempotent (prices : list float) (item_name : string) :
  _filter_prices_by_product_type
    (_filter_prices_by_product_type prices item_name) item_name
  = _filter_prices_by_product_type prices item_name
  /\ incl (_filter_prices_by_product_type prices item_name) prices
  /\ List.length (_filter_prices_by_product_type prices item_name)
     <= List.length prices.
Proof.
  rewrite !filter_by_envelope. unfold restrict.
  destruct (filter (in_envelope (classify item_name)) prices) as [|p kept] eqn:E;
    cbn [Py.truthy].
  - rewrite E. cbn [Py.truthy]. split; [reflexivity|].
    split; [apply incl_refl|lia].
  - rewrite <- E, filter_twice, E. cbn [Py.truthy]. split; [reflexivity|].
    rewrite <- E. split.
    + intros x Hx. apply filter_In in Hx. tauto.
    + apply filter_length_le.
Qed.

(** ** Chocolate is cola *)

Lemma chocolate_has_cola (s : string) :
  Py.contains "chocolate" s = true -> Py.contains "cola" s = true.
Proof.
  induction s as [|c s IH]; [discriminate|].
  cbn [Py.contains]. intros H. apply orb_prop in H. destruct H as [H|H].
  - clear IH. cbn [String.prefix] in H.
    repeat match type of H with
           | (if ?d then _ else _) = true =>
               destruct d; [subst|discriminate H]
           | String.prefix (String _ _) ?t = true =>
               destruct t; [discriminate H|]; cbn [String.prefix] in H
           end.
    vm_compute. reflexivity.
  - rewrite (IH H). apply orb_true_r.
Qed.

(** X7. The word "chocolate" holds the word "cola": an item that mentions
    chocolate is handled by the rule for drinks in
    [_filter_prices_by_product_type] (the chocolate branch is never
    reached: "multi" does not switch the filter off, "family", "bulk",
    "12", "24" do), and unless it also mentions "coca cola", "pack", "case",
    "12" or "24", the three search terms tried are the item name,
    "coca cola 20 oz" and "coca cola can". *)
Theorem chocolate_is_cola (item_name : string) :
  Py.contains "chocolate" (Py.lower item_name) = true ->
  (forall prices,
     _filter_prices_by_product_type prices item_name
     = if Py.any_in ["pack"; "case"; "12"; "24"; "family"; "bulk"]%string
            (Py.lower item_name)
       then prices
       else match filter (between 0.50 5.00) prices with
            | [] => prices
            | single_item_prices => single_item_prices
            end)
  /\ (Py.contains "coca cola" (Py.lower item_name) = false ->
      Py.any_in ["pack"; "case"; "12"; "24"]%string (Py.lower item_name)
      = false ->
      expand item_name
      = [item_name; "coca cola 20 oz"; "coca cola can"]%string).
Proof.
  intros Hc. pose proof (chocolate_has_cola _ Hc) as Hcola. split.
  - intros prices. unfold _filter_prices_by_product_type.
    assert (Ha : Py.any_in
                   ["coke"; "coca cola"; "cola"; "soda"; "drink"; "beverage"]%string
                   (Py.lower item_name) = true).
    { unfold Py.any_in. cbn [existsb]. rewrite Hcola.
      rewrite !orb_true_r. reflexivity. }
    rewrite Ha.
    destruct (Py.any_in ["pack"; "case"; "12"; "24"; "family"; "bulk"]%string
                (Py.lower item_name)); cbn [negb].
    + apply truthy_self.
    + destruct (filter (between 0.50 5.00) prices); [|reflexivity].
      cbn [Py.truthy]. apply truthy_self.
  - intros Hcc Hp. unfold expand, search_terms.
    assert (Ha : Py.any_in ["coke"; "coca cola"; "cola"]%string
                   (Py.lower item_name) = true).
    { unfold Py.any_in. cbn [existsb]. rewrite Hcola.
      rewrite !orb_true_r. reflexivity. }
    rewrite Ha, Hcc, Hp, Hc. cbn [negb andb app].
    destruct (Py.contains "chip" (Py.lower item_name)); reflexivity.
Qed.

Lemma chocolate_is_cola_bar :
  expand "chocolate bar"
  = ["chocolate bar"; "coca cola 20 oz"; "coca cola can"]%string.
Proof.
  apply (chocolate_is_cola "chocolate bar"); reflexivity.
Defined.

(** ** Trimming *)

Lemma in_firstn {A} (x : A) (n : nat) (l : list A) :
  In x (firstn n l) -> In x l.
Proof.
  intros H. rewrite <- (firstn_skipn n l). apply in_or_app. left. exact H.
Qed.

Lemma in_skipn {A} (x : A) (n : nat) (l : list A) :
  In x (skipn n l) -> In x l.
Proof.
  intros H. rewrite <- (firstn_skipn n l). apply in_or_app. right. exact H.
Qed.

(** X8. Trimming keeps prices of the pool, at least three fifths of them,
    and at least one when the pool is not empty. *)
Theorem trim_outliers_keeps_most (pool : list float) :
  incl (trim_outliers pool) pool
  /\ 3 * List.length pool <= 5 * List.length (trim_outliers pool)
  /\ List.length (trim_outliers pool) <= List.length pool
  /\ (pool <> [] -> trim_outliers pool <> []).
Proof.
  assert (H5 : 5 * (List.length pool / 5) <= List.length pool)
    by (apply Nat.Div0.mul_div_le).
  split; [|split; [|split]].
  - intros x Hx. apply (Permutation_in x (sorted_perm pool)).
    destruct (Nat.ltb_spec 4 (List.length pool)).
    + rewrite trim_outliers_large in Hx by assumption.
      apply in_firstn, in_skipn in Hx. exact Hx.
    + rewrite trim_outliers_small in Hx by lia. exact Hx.
  - rewrite trim_outliers_length.
    destruct (Nat.ltb_spec 4 (List.length pool)); lia.
  - rewrite trim_outliers_length.
    destruct (Nat.ltb_spec 4 (List.length pool)); lia.
  - apply trim_outliers_nonempty.
Qed.

(** ** The estimate does not depend on the order of discovery *)

Section Order.

Import Cost.

Lemma in_bound_finite (p : float) :
  in_bound p -> exists m e, Prim2SF p = S754_finite false m e.
Proof.
  unfold in_bound, plausible. intros H. apply andb_prop in H.
  destruct H as [Hlo Hhi]. rewrite ltb_spec in Hlo, Hhi.
  remember (Prim2SF 0.50) as lo eqn:Elo. vm_compute in Elo.
  remember (Prim2SF 200) as hi eqn:Ehi. vm_compute in Ehi.
  subst lo hi.
  destruct (Prim2SF p) as [s|s| |s m e]; try discriminate.
  - destruct s; discriminate.
  - destruct s; [discriminate|]. eauto.
Qed.

Lemma positive_leb (m1 m2 : positive) (e1 e2 : Z) :
  SFleb (S754_finite false m1 e1) (S754_finite false m2 e2) = true
  <-> (e1 < e2)%Z \/ (e1 = e2 /\ (m1 <= m2)%positive).
Proof.
  unfold SFleb, SFcompare.
  change (Pos.compare_cont Eq m1 m2) with (Pos.compare m1 m2).
  destruct (Z.compare_spec e1 e2); destruct (Pos.compare_spec m1 m2);
    split; intros H'; try reflexivity; try discriminate; try lia.
Qed.

Lemma in_bound_ordered (p : float) : in_bound p -> ordered p.
Proof.
  intros H. destruct (in_bound_finite p H) as (m & e & E).
  unfold ordered, is_nan. rewrite eqb_spec, E. unfold SFeqb, SFcompare.
  rewrite Z.compare_refl.
  change (Pos.compare_cont Eq m m) with (Pos.compare m m).
  rewrite Pos.compare_refl. reflexivity.
Qed.

Lemma price_le_trans (a b c : float) :
  price_le a b -> price_le b c -> price_le a c.
Proof.
  unfold price_le, fle. intros (Ha & Hb & Hab) (_ & Hc & Hbc).
  repeat split; try assumption. rewrite leb_spec in *.
  destruct (in_bound_finite a Ha) as (ma & ea & Ea).
  destruct (in_bound_finite b Hb) as (mb & eb & Eb).
  destruct (in_bound_finite c Hc) as (mc & ec & Ec).
  rewrite Ea, Eb, Ec in *. apply positive_leb in Hab, Hbc.
  apply positive_leb. lia.
Qed.

Lemma price_le_antisym (a b : float) : price_le a b -> price_le b a -> a = b.
Proof.
  unfold price_le, fle. intros (Ha & Hb & Hab) (_ & _ & Hba).
  rewrite leb_spec in *.
  destruct (in_bound_finite a Ha) as (ma & ea & Ea).
  destruct (in_bound_finite b Hb) as (mb & eb & Eb).
  rewrite Ea, Eb in *. apply positive_leb in Hab, Hba.
  apply Prim2SF_inj. rewrite Ea, Eb.
  assert (ea = eb) by lia. assert (ma = mb) by lia. congruence.
Qed.

Lemma sorted_price_le (l : list float) :
  Forall in_bound l -> Sorted fle l -> StronglySorted price_le l.
Proof.
  intros Hb Hs. apply Sorted_StronglySorted.
  - intros a b c. apply price_le_trans.
  - induction Hs as [|a l Hs IH Hhd]; [constructor|].
    inversion Hb as [|? ? Ha Hl]; subst.
    constructor; [apply IH, Hl|].
    destruct Hhd as [|b l Hab]; constructor.
    inversion Hl; subst. repeat split; assumption.
Qed.

Lemma strongly_sorted_unique (l1 l2 : list float) :
  StronglySorted price_le l1 -> StronglySorted price_le l2 ->
  Permutation l1 l2 -> l1 = l2.
Proof.
  intros H1. revert l2. induction H1 as [|a l1 H1 IH Ha]; intros l2 H2 Hp.
  - apply Permutation_nil in Hp. congruence.
  - destruct H2 as [|b l2 H2 Hb].
    + apply Permutation_sym, Permutation_nil in Hp. discriminate.
    + assert (Hab : a = b).
      { assert (Hin1 : In a (b :: l2))
          by (apply (Permutation_in a Hp); left; reflexivity).
        assert (Hin2 : In b (a :: l1))
          by (apply (Permutation_in b (Permutation_sym Hp)); left; reflexivity).
        destruct Hin1 as [->|Hin1]; [reflexivity|].
        destruct Hin2 as [->|Hin2]; [reflexivity|].
        rewrite Forall_forall in Ha, Hb.
        apply price_le_antisym; [apply Ha, Hin2|apply Hb, Hin1]. }
      subst b. f_equal. apply IH; [exact H2|].
      apply Permutation_cons_inv in Hp. exact Hp.
Qed.

Lemma sorted_of_permutation (l1 l2 : list float) :
  Forall in_bound l1 -> Permutation l1 l2 -> Py.sorted l1 = Py.sorted l2.
Proof.
  intros Hb Hp.
  assert (Hb2 : Forall in_bound l2) by (eapply Permutation_Forall; eassumption).
  assert (Hs : forall l, Forall in_bound l ->
                         StronglySorted price_le (Py.sorted l)).
  { intros l Hl. apply sorted_price_le.
    - eapply Permutation_Forall; [apply Permutation_sym, sorted_perm|exact Hl].
    - apply sorted_ascending. eapply Forall_impl; [|exact Hl].
      apply in_bound_ordered. }
  apply strongly_sorted_unique; [apply Hs, Hb|apply Hs, Hb2|].
  rewrite (sorted_perm l1), (sorted_perm l2). exact Hp.
Qed.

Lemma filter_permutation {A} (f : A -> bool) (l1 l2 : list A) :
  Permutation l1 l2 -> Permutation (filter f l1) (filter f l2).
Proof.
  induction 1 as [|x l1 l2 _ IH|x y l|l1 l2 l3 _ IH1 _ IH2]; simpl.
  - constructor.
  - destruct (f x); [constructor|]; exact IH.
  - destruct (f x), (f y); try reflexivity. apply perm_swap.
  - etransitivity; eassumption.
Qed.

Lemma truthy_permutation {A} (l1 l2 : list A) :
  Permutation l1 l2 -> Py.truthy l1 = Py.truthy l2.
Proof.
  intros Hp. destruct l1, l2; try reflexivity.
  - apply Permutation_nil in Hp. discriminate.
  - apply Permutation_sym, Permutation_nil in Hp. discriminate.
Qed.

(** X9. The estimate does not depend on the order in which the prices
    were found: two pools of plausible prices that are permutations of
    each other give the same kept prices and the same result. *)
Theorem summarize_order_independent (pool1 pool2 : list float)
    (item_name : string) w h :
  Forall in_bound pool1 -> Permutation pool1 pool2 ->
  trim_outliers (_filter_prices_by_product_type pool1 item_name)
  = trim_outliers (_filter_prices_by_product_type pool2 item_name)
  /\ summarize pool1 item_name w h = summarize pool2 item_name w h.
Proof.
  intros Hb Hp.
  assert (Hf : Permutation (_filter_prices_by_product_type pool1 item_name)
                 (_filter_prices_by_product_type pool2 item_name)).
  { rewrite !filter_by_envelope. unfold restrict.
    pose proof (filter_permutation (in_envelope (classify item_name)) _ _ Hp)
      as Hr.
    rewrite (truthy_permutation _ _ Hr).
    destruct (Py.truthy _); assumption. }
  assert (Hfb : Forall in_bound (_filter_prices_by_product_type pool1 item_name)).
  { rewrite Forall_forall in *. intros x Hx. apply Hb.
    apply (filter_by_type_incl pool1 item_name), Hx. }
  assert (Ht : trim_outliers (_filter_prices_by_product_type pool1 item_name)
               = trim_outliers (_filter_prices_by_product_type pool2 item_name)).
  { unfold trim_outliers. rewrite (sorted_of_permutation _ _ Hfb Hf).
    reflexivity. }
  split; [exact Ht|].
  unfold summarize. rewrite (truthy_permutation _ _ Hp), Ht. reflexivity.
Qed.

Lemma summarize_order_independent_sample :
  summarize [1.99; 2.50; 10.50]%float "coke" offline []
  = summarize [10.50; 1.99; 2.50]%float "coke" offline [].
Proof.
  apply (summarize_order_independent [1.99; 2.50; 10.50]%float
           [10.50; 1.99; 2.50]%float "coke" offline []).
  - repeat constructor.
  - apply Permutation_sym, (Permutation_cons_append [1.99; 2.50]%float).
Defined.

End Order.

(** * Further properties of the region model *)

Section Cities.

Lemma lower_char_twice (c : ascii) :
  Py.lower_char (Py.lower_char c) = Py.lower_char c
  /\ Py.isspace (Py.lower_char c) = Py.isspace c.
Proof. destruct c as [[] [] [] [] [] [] [] []]; split; reflexivity. Qed.

Lemma lower_twice (s : string) : Py.lower (Py.lower s) = Py.lower s.
Proof.
  induction s as [|c s IH]; simpl; [reflexivity|].
  rewrite IH, (proj1 (lower_char_twice c)). reflexivity.
Qed.

Lemma lstrip_lower (s : string) : Py.lstrip (Py.lower s) = Py.lower (Py.lstrip s).
Proof.
  induction s as [|c s IH]; simpl; [reflexivity|].
  rewrite (proj2 (lower_char_twice c)). destruct (Py.isspace c); auto.
Qed.

Lemma rstrip_lower (s : string) : Py.rstrip (Py.lower s) = Py.lower (Py.rstrip s).
Proof.
  induction s as [|c s IH]; simpl; [reflexivity|].
  rewrite IH, (proj2 (lower_char_twice c)).
  destruct (Py.rstrip s); simpl; [destruct (Py.isspace c)|]; reflexivity.
Qed.

Lemma strip_lower (s : string) : Py.strip (Py.lower s) = Py.lower (Py.strip s).
Proof. unfold Py.strip. rewrite lstrip_lower, rstrip_lower. reflexivity. Qed.

Import Cost.

Lemma lstrip_tidy (s : string) : tidy (Py.lstrip s).
Proof.
  induction s as [|c s IH]; simpl; [exact I|].
  destruct (Py.isspace c) eqn:E; [exact IH|exact E].
Qed.

Lemma tidy_lstrip (s : string) : tidy s -> Py.lstrip s = s.
Proof. destruct s as [|c s]; simpl; [reflexivity|]. intros ->. reflexivity. Qed.

Lemma rstrip_tidy (s : string) : tidy s -> tidy (Py.rstrip s).
Proof.
  destruct s as [|c s]; simpl; [auto|]. intros Hc.
  destruct (Py.rstrip s); [rewrite Hc|]; exact Hc.
Qed.

Lemma rstrip_twice (s : string) : Py.rstrip (Py.rstrip s) = Py.rstrip s.
Proof.
  induction s as [|c s IH]; simpl; [reflexivity|].
  destruct (Py.rstrip s) as [|a r] eqn:E.
  - destruct (Py.isspace c) eqn:Ec; simpl; [reflexivity|].
    rewrite Ec. reflexivity.
  - change (Py.rstrip (String c (String a r)))
      with (match Py.rstrip (String a r) with
            | EmptyString =>
                if Py.isspace c then EmptyString else String c EmptyString
            | String x y => String c (String x y)
            end).
    rewrite IH. reflexivity.
Qed.

Lemma strip_twice (s : string) : Py.strip (Py.strip s) = Py.strip s.
Proof.
  unfold Py.strip.
  rewrite (tidy_lstrip (Py.rstrip (Py.lstrip s)))
    by (apply rstrip_tidy, lstrip_tidy).
  apply rstrip_twice.
Qed.

(** X10. The city given to the region model is looked up without regard
    to case and to surrounding white space: the lower-cased name and the
    stripped name get the coordinates, and the multiplier, of the name
    itself. *)
Theorem city_lookup_ignores_case_and_margins (city : string) :
  RegionModel.get_coordinates (Py.lower city)
  = RegionModel.get_coordinates city
  /\ RegionModel.get_coordinates (Py.strip city)
     = RegionModel.get_coordinates city
  /\ RegionModel.get_regional_multiplier (Some (Py.lower city)) None None
     = RegionModel.get_regional_multiplier (Some city) None None
  /\ RegionModel.get_regional_multiplier (Some (Py.strip city)) None None
     = RegionModel.get_regional_multiplier (Some city) None None.
Proof.
  assert (H1 : RegionModel.get_coordinates (Py.lower city)
               = RegionModel.get_coordinates city).
  { unfold RegionModel.get_coordinates. rewrite lower_twice. reflexivity. }
  assert (H2 : RegionModel.get_coordinates (Py.strip city)
               = RegionModel.get_coordinates city).
  { unfold RegionModel.get_coordinates.
    rewrite <- strip_lower, strip_twice. reflexivity. }
  unfold RegionModel.get_regional_multiplier. rewrite H1, H2. auto.
Qed.

(** X11. A city that is neither a hub nor one of the six other known
    cities is placed at the centre of Florida, which is Orlando: its
    multiplier is Orlando's index, 1.02. *)
Theorem unknown_city_is_orlando (city : string) :
  RegionModel.lookup (Py.strip (Py.lower city)) RegionModel.hubs = None ->
  RegionModel.lookup (Py.strip (Py.lower city)) RegionModel.known_others
  = None ->
  RegionModel.get_coordinates city = RegionModel.florida_center
  /\ RegionModel.get_regional_multiplier (Some city) None None
     = Py.Return 1.02%float
  /\ RegionModel.get_regional_multiplier (Some city) None None
     = RegionModel.get_regional_multiplier (Some "orlando"%string) None None.
Proof.
  intros Hh Ho.
  assert (Hc : RegionModel.get_coordinates city = RegionModel.florida_center).
  { unfold RegionModel.get_coordinates. rewrite Hh, Ho. reflexivity. }
  split; [exact Hc|].
  unfold RegionModel.get_regional_multiplier at 1 2. rewrite Hc.
  split; vm_compute; reflexivity.
Qed.

Lemma unknown_city_is_orlando_daytona :
  RegionModel.get_coordinates "Daytona Beach" = RegionModel.florida_center
  /\ RegionModel.get_regional_multiplier (Some "Daytona Beach"%string)
       None None = Py.Return 1.02%float
  /\ RegionModel.get_regional_multiplier (Some "Daytona Beach"%string)
       None None
     = RegionModel.get_regional_multiplier (Some "orlando"%string) None None.
Proof.
  apply (unknown_city_is_orlando "Daytona Beach"); reflexivity.
Defined.

End Cities.

(** * The geocoding service *)

Section Florida.

Import Geocoding.

Lemma outside_florida_false (state state_code : json) :
  outside_florida state state_code = Some false ->
  exists code,
    state_code = JStr code
    /\ (PyMore.upper code = "FL"%string
        \/ exists name,
             state = JStr name
             /\ Py.contains "florida" (Py.lower name) = true).
Proof.
  unfold outside_florida, as_str.
  destruct state_code as [| | | |code| |]; try discriminate.
  destruct (String.eqb (PyMore.upper code) "FL") eqn:E; cbn [negb].
  - intros _. exists code. split; [reflexivity|]. left.
    apply String.eqb_eq, E.
  - destruct state as [| | | |name| |]; try discriminate.
    intros [= H]. exists code. split; [reflexivity|]. right.
    exists name. split; [reflexivity|].
    apply negb_false_iff, H.
Qed.

Lemma city_of_cases (address : list (string * json)) (city : json) :
  city_of address = Some city ->
  PyMore.truth city = true
  \/ exists county, county_of address = Some county /\ city = JStr county.
Proof.
  unfold city_of.
  destruct (PyMore.truth (PyMore.get "city" address)) eqn:E1;
    [intros [= <-]; left; exact E1|].
  destruct (PyMore.truth (PyMore.get "town" address)) eqn:E2;
    [intros [= <-]; left; exact E2|].
  destruct (PyMore.truth (PyMore.get "village" address)) eqn:E3;
    [intros [= <-]; left; exact E3|].
  destruct (PyMore.truth (PyMore.get "municipality" address)) eqn:E4;
    [intros [= <-]; left; exact E4|].
  destruct (county_of address) as [county|]; [|discriminate].
  intros [= <-]. right. exists county. auto.
Qed.

Lemma read_address_located (data : json) (lat lon : float)
    city state state_code county la lo full raw :
  read_address data lat lon
  = Some (Located city state state_code county la lo full raw) ->
  la = lat /\ lo = lon
  /\ outside_florida state state_code = Some false
  /\ city_of raw = Some city
  /\ county_of raw = Some county
  /\ exists items,
       data = JDict items
       /\ dict_get "address" items = Some (JDict raw)
       /\ full = PyMore.get_default "display_name" (JStr EmptyString) items.
Proof.
  unfold read_address.
  destruct (has_address data) as [[|]|]; try discriminate.
  destruct data as [| | | | | |items]; try discriminate.
  destruct (dict_get "address" items) as [[| | | | | |address]|] eqn:Ea;
    try discriminate.
  destruct (city_of address) as [c|] eqn:Ec; [|discriminate].
  destruct (county_of address) as [k|] eqn:Ek; [|discriminate].
  destruct (outside_florida _ _) as [[|]|] eqn:Eo; try discriminate.
  intros [= <- <- <- <- <- <- <- <-].
  repeat split; auto. exists items. auto.
Qed.

Lemma rate_limit_trace (w : world) (self : GeocodingService)
    (h : list event) :
  exists evs,
    snd (_rate_limit w self h) = h ++ evs /\ lookups evs = [].
Proof.
  unfold _rate_limit.
  destruct (_ <? _)%float; [destruct (sleeps w _ _)|]; cbn [snd];
    rewrite <- ?app_assoc; eexists; split; reflexivity.
Qed.

Lemma lookups_app (a b : list event) : lookups (a ++ b) = lookups a ++ lookups b.
Proof. unfold lookups. apply flat_map_app. Qed.

(** The trace of a call: the events of [_rate_limit], then at most one
    request, for the coordinates given. *)
Lemma reverse_geocode_trace (lat lon : float) (w : world)
    (self : GeocodingService) (h : list event) :
  let '(d, _, tr) := reverse_geocode lat lon w self h in
  exists evs,
    tr = h ++ evs
    /\ (lookups evs = [(lat, lon)]
        \/ lookups evs = [] /\ d = Failure GeocodingError).
Proof.
  unfold reverse_geocode.
  destruct (rate_limit_trace w self h) as (evs & E & L).
  destruct (_rate_limit w self h) as [[[u|] self'] h']; cbn [snd] in E; subst h'.
  - exists (evs ++ [Reverse lat lon]). rewrite app_assoc. split; [reflexivity|].
    left. rewrite lookups_app, L. reflexivity.
  - exists evs. auto.
Qed.

Lemma success_coordinates (lat lon : float) (w : world)
    (self : GeocodingService) (h : list event)
    city state state_code county la lo full raw :
  fst (fst (reverse_geocode lat lon w self h))
  = Located city state state_code county la lo full raw ->
  la = lat /\ lo = lon.
Proof.
  unfold reverse_geocode.
  destruct (_rate_limit w self h) as [[[u|] self'] h']; cbn [fst snd];
    [|discriminate].
  unfold interpret.
  destruct (server w h') as [status b|[|]]; try discriminate.
  destruct (status =? 200)%Z; [|discriminate].
  destruct b as [data|[|]]; try discriminate.
  destruct (read_address data lat lon) as [d|] eqn:Er; [|discriminate].
  intros ->. apply read_address_located in Er. tauto.
Qed.

(** The fields of the dictionary answered with ['success': True], read off
    the address. *)
Lemma read_address_fields (data : json) (lat lon : float)
    city state state_code county la lo full raw :
  read_address data lat lon
  = Some (Located city state state_code county la lo full raw) ->
  state = PyMore.get_default "state" (JStr EmptyString) raw
  /\ state_code = PyMore.get_default "state_code" (JStr EmptyString) raw.
Proof.
  unfold read_address.
  destruct (has_address data) as [[|]|]; try discriminate.
  destruct data as [| | | | | |items]; try discriminate.
  destruct (dict_get "address" items) as [[| | | | | |address]|] eqn:Ea;
    try discriminate.
  destruct (city_of address) as [c|] eqn:Ec; [|discriminate].
  destruct (county_of address) as [k|] eqn:Ek; [|discriminate].
  destruct (outside_florida _ _) as [[|]|] eqn:Eo; try discriminate.
  intros [= <- <- <- <- <- <- <- <-]. split; reflexivity.
Qed.

Lemma county_of_named (address : list (string * json)) (county : string) :
  county_of address = Some county ->
  exists named,
    PyMore.get_default "county" (JStr EmptyString) address = JStr named
    /\ county = PyMore.replace_all " County" EmptyString named.
Proof.
  unfold county_of, as_str.
  destruct (PyMore.get_default "county" (JStr EmptyString) address)
    as [| | | |named| |]; try discriminate.
  intros [= <-]. exists named. split; reflexivity.
Qed.

Lemma city_of_first_true (address : list (string * json)) (city : json)
    (county : string) :
  city_of address = Some city ->
  county_of address = Some county ->
  (PyMore.truth (PyMore.get "city" address) = true
   /\ city = PyMore.get "city" address)
  \/ (PyMore.truth (PyMore.get "city" address) = false
      /\ PyMore.truth (PyMore.get "town" address) = true
      /\ city = PyMore.get "town" address)
  \/ (PyMore.truth (PyMore.get "city" address) = false
      /\ PyMore.truth (PyMore.get "town" address) = false
      /\ PyMore.truth (PyMore.get "village" address) = true
      /\ city = PyMore.get "village" address)
  \/ (PyMore.truth (PyMore.get "city" address) = false
      /\ PyMore.truth (PyMore.get "town" address) = false
      /\ PyMore.truth (PyMore.get "village" address) = false
      /\ PyMore.truth (PyMore.get "municipality" address) = true
      /\ city = PyMore.get "municipality" address)
  \/ (PyMore.truth (PyMore.get "city" address) = false
      /\ PyMore.truth (PyMore.get "town" address) = false
      /\ PyMore.truth (PyMore.get "village" address) = false
      /\ PyMore.truth (PyMore.get "municipality" address) = false
      /\ city = JStr county).
Proof.
  unfold city_of. intros Hc Hk.
  destruct (PyMore.truth (PyMore.get "city" address)) eqn:E1.
  { injection Hc as <-. left. auto. }
  destruct (PyMore.truth (PyMore.get "town" address)) eqn:E2.
  { injection Hc as <-. right; left. auto. }
  destruct (PyMore.truth (PyMore.get "village" address)) eqn:E3.
  { injection Hc as <-. right; right; left. auto. }
  destruct (PyMore.truth (PyMore.get "municipality" address)) eqn:E4.
  { injection Hc as <-. right; right; right; left. auto. }
  rewrite Hk in Hc. injection Hc as <-. right; right; right; right. auto.
Qed.

(** X12. [reverse_geocode] answers ['success': True] only for a
    reply with status 200 whose body is a dictionary with a dictionary
    under ['address'], and only when the state code of that address is
    "FL" in any case or its state name holds "florida" in any case. Every
    field answered is read off that reply: the coordinates are the ones
    asked, and the request was sent for them; the state and the state
    code are the entries ['state'] and ['state_code'] of the address (the
    empty string when absent); the county is its entry ['county'], a
    string, with every " County" taken out; the city is the first of the
    entries ['city'], ['town'], ['village'] and ['municipality'] that is
    true, and that county (which may be the empty string) when none is;
    the full address is the entry ['display_name'] of the body. *)
Theorem success_only_in_florida (lat lon : float) (w : world)
    (self : GeocodingService) (h : list event)
    city state state_code county la lo full raw :
  fst (fst (reverse_geocode lat lon w self h))
  = Located city state state_code county la lo full raw ->
  la = lat /\ lo = lon
  /\ (exists code,
        state_code = JStr code
        /\ (PyMore.upper code = "FL"%string
            \/ exists name,
                 state = JStr name
                 /\ Py.contains "florida" (Py.lower name) = true))
  /\ (PyMore.truth city = true \/ city = JStr county)
  /\ (exists before items,
        snd (reverse_geocode lat lon w self h) = before ++ [Reverse lat lon]
        /\ server w before = Reply 200 (Body (JDict items))
        /\ dict_get "address" items = Some (JDict raw)
        /\ full = PyMore.get_default "display_name" (JStr EmptyString) items)
  /\ state = PyMore.get_default "state" (JStr EmptyString) raw
  /\ state_code = PyMore.get_default "state_code" (JStr EmptyString) raw
  /\ (exists named,
        PyMore.get_default "county" (JStr EmptyString) raw = JStr named
        /\ county = PyMore.replace_all " County" EmptyString named)
  /\ ((PyMore.truth (PyMore.get "city" raw) = true
       /\ city = PyMore.get "city" raw)
      \/ (PyMore.truth (PyMore.get "city" raw) = false
          /\ PyMore.truth (PyMore.get "town" raw) = true
          /\ city = PyMore.get "town" raw)
      \/ (PyMore.truth (PyMore.get "city" raw) = false
          /\ PyMore.truth (PyMore.get "town" raw) = false
          /\ PyMore.truth (PyMore.get "village" raw) = true
          /\ city = PyMore.get "village" raw)
      \/ (PyMore.truth (PyMore.get "city" raw) = false
          /\ PyMore.truth (PyMore.get "town" raw) = false
          /\ PyMore.truth (PyMore.get "village" raw) = false
          /\ PyMore.truth (PyMore.get "municipality" raw) = true
          /\ city = PyMore.get "municipality" raw)
      \/ (PyMore.truth (PyMore.get "city" raw) = false
          /\ PyMore.truth (PyMore.get "town" raw) = false
          /\ PyMore.truth (PyMore.get "village" raw) = false
          /\ PyMore.truth (PyMore.get "municipality" raw) = false
          /\ city = JStr county)).
Proof.
  unfold reverse_geocode.
  destruct (_rate_limit w self h) as [[[u|] self'] h']; cbn [fst snd];
    [|discriminate].
  unfold interpret.
  destruct (server w h') as [status b|[|]] eqn:Es; try discriminate.
  destruct (status =? 200)%Z eqn:E200; [|discriminate].
  apply Z.eqb_eq in E200. subst status.
  destruct b as [data|[|]]; try discriminate.
  destruct (read_address data lat lon) as [d|] eqn:Er; [|discriminate].
  intros ->.
  pose proof (read_address_fields _ _ _ _ _ _ _ _ _ _ _ Er) as [Hst Hsc].
  apply read_address_located in Er.
  destruct Er as (-> & -> & Ho & Hc & Hk & items & -> & Ha & Hfull).
  split; [reflexivity|]. split; [reflexivity|].
  split; [apply outside_florida_false, Ho|].
  split.
  { destruct (city_of_cases _ _ Hc) as [H|(k & Hk' & ->)]; [left; exact H|].
    right. congruence. }
  split; [exists h', items; auto|].
  split; [exact Hst|]. split; [exact Hsc|].
  split; [apply county_of_named, Hk|].
  apply city_of_first_true; assumption.
Qed.

End Florida.

Lemma success_only_in_florida_miami :
  (exists code,
     JStr "fl" = JStr code
     /\ (PyMore.upper code = "FL"%string
         \/ exists name,
              JStr "Florida" = JStr name
              /\ Py.contains "florida" (Py.lower name) = true))
  /\ (exists named,
        JStr "Miami-Dade County" = JStr named
        /\ "Miami-Dade"%string
           = PyMore.replace_all " County" EmptyString named).
Proof.
  pose proof
    (success_only_in_florida 25.7617 (-80.1918) Endpoint.miami_world
       {| Geocoding.last_request_time := 0 |} []
       (JStr "Miami") (JStr "Florida") (JStr "fl") "Miami-Dade"
       25.7617 (-80.1918) (JStr "Miami, Miami-Dade County, Florida")
       [("city", JStr "Miami");
        ("county", JStr "Miami-Dade County");
        ("state", JStr "Florida");
        ("state_code", JStr "fl")]%string) as H.
  destruct H as (_ & _ & Hcode & _ & _ & _ & _ & Hcounty & _).
  { vm_compute. reflexivity. }
  split; [exact Hcode|exact Hcounty].
Defined.

(** * The price endpoints *)

Section Endpoints.

Import Api Endpoint.

Lemma fetch_price_data_returns self item_name city w h :
  exists v, fst (fetch_price_data self item_name city w h) = Py.Return v.
Proof.
  unfold fetch_price_data. rewrite run_bind.
  destruct (fst (collect_prices self item_name city w h)) as [|p pool] eqn:E.
  - rewrite summarize_empty. eexists. reflexivity.
  - rewrite summarize_nonempty by discriminate. eexists. reflexivity.
Qed.

(** What lines 88-119 leave behind. *)
Lemma locate_cases (env : environment) (p : parameters) (s : state) :
  match locate env p s with
  | (Resolved c None, s') =>
      s' = s /\ c = city p
      /\ PyMore.truth (latitude p) && PyMore.truth (longitude p) = false
  | (Resolved c (Some (lat, lon)), s') =>
      PyMore.truth c = true
      /\ in_florida_bounds lat lon = true
      /\ to_float (latitude p) = Number lat
      /\ to_float (longitude p) = Number lon
      /\ scraped s' = scraped s
      /\ exists st sc county full raw,
           Geocoding.reverse_geocode lat lon (nominatim env) (geocoding s)
             (located s)
           = (Geocoding.Located c st sc county lat lon full raw,
              geocoding s', located s')
  | (Rejected a, s') =>
      PyMore.truth (latitude p) && PyMore.truth (longitude p) = true
      /\ match a with
         | GeocodeFailed _ | CityUndetermined _ =>
             scraped s' = scraped s
             /\ exists lat lon d,
                  Geocoding.reverse_geocode lat lon (nominatim env)
                    (geocoding s) (located s)
                  = (d, geocoding s', located s')
         | InvalidCoordinates | OutsideBounds => s' = s
         | ServerError =>
             s' = s
             /\ (to_float (latitude p) = OtherError
                 \/ to_float (longitude p) = OtherError)
         | _ => False
         end
  end.
Proof.
  unfold locate.
  destruct (PyMore.truth (latitude p) && PyMore.truth (longitude p)) eqn:Et;
    [|auto].
  destruct (to_float (latitude p)) as [lat| |] eqn:Elat;
    [|cbn; auto|cbn; auto].
  destruct (to_float (longitude p)) as [lon| |] eqn:Elon;
    [|cbn; auto|cbn; auto].
  destruct (in_florida_bounds lat lon) eqn:Eb; cbn [negb]; [|cbn; auto].
  destruct (Geocoding.reverse_geocode lat lon (nominatim env) (geocoding s)
              (located s)) as [[d service] h] eqn:Eg.
  destruct d as [st sc|c st sc county la lo full raw|why].
  - cbn. split; [auto|]. split; [reflexivity|].
    exists lat, lon. eexists. exact Eg.
  - assert (Hd := f_equal (fun x => fst (fst x)) Eg). cbn [fst] in Hd.
    apply success_coordinates in Hd. destruct Hd as [-> ->].
    destruct (PyMore.truth c) eqn:Ec.
    + cbn. repeat split; auto. exists st, sc, county, full, raw. exact Eg.
    + cbn. split; [auto|]. split; [reflexivity|].
      exists lat, lon. eexists. exact Eg.
  - cbn. split; [auto|]. split; [reflexivity|].
    exists lat, lon. eexists. exact Eg.
Qed.

Lemma fetch_keeps_geocoding env self subject city (s : state) :
  geocoding (snd (fetch env self subject city s)) = geocoding s
  /\ located (snd (fetch env self subject city s)) = located s.
Proof.
  unfold fetch. destruct subject; try (cbn; auto).
  destruct (fetch_price_data _ _ _ _ _). cbn. auto.
Qed.

Lemma rejected_cases key env r (p : parameters) (a : response)
    (s s1 : state) :
  read_parameters key r = Py.Return p ->
  PyMore.truth (latitude p) && PyMore.truth (longitude p) = true
  /\ match a with
     | GeocodeFailed _ | CityUndetermined _ =>
         scraped s1 = scraped s
         /\ exists lat lon d,
              Geocoding.reverse_geocode lat lon (nominatim env)
                (geocoding s) (located s)
              = (d, geocoding s1, located s1)
     | InvalidCoordinates | OutsideBounds => s1 = s
     | ServerError =>
         s1 = s
         /\ (to_float (latitude p) = OtherError
             \/ to_float (longitude p) = OtherError)
     | _ => False
     end ->
  untouched key r a s s1 \/ unplaced key env r a s s1.
Proof.
  intros Ep [Ht H].
  destruct a; try contradiction.
  - left. split; [exact H|tauto].
  - right. destruct H as [Hs Hg]. repeat split; eauto.
  - right. destruct H as [Hs Hg]. repeat split; eauto.
  - left. split; [exact H|tauto].
  - left. destruct H as [Hs Ho]. split; [exact Hs|].
    do 4 right. split; [reflexivity|]. right. exists p. auto.
Qed.

Ltac endpoint_tail p c coordinates s1 :=
  right; right; exists p, c, coordinates, s1;
  repeat (split; [first [reflexivity|assumption]|]);
  destruct (fetch _ _ (subject p) c s1) as [[[price|]|] s2];
  cbn [fst snd]; repeat split; try reflexivity;
  destruct (multiplier_of c coordinates); cbn; repeat split; auto.

Ltac endpoint_body key r env s :=
  let p := fresh "p" in
  let c := fresh "c" in
  let coordinates := fresh "coordinates" in
  let s1 := fresh "s1" in
  let a := fresh "a" in
  let Ep := fresh "Ep" in
  let Hl := fresh "Hl" in
  destruct (read_parameters key r) as [p|] eqn:Ep;
    [|left; split; [reflexivity|]; do 4 right; split; [reflexivity|];
      left; exact Ep];
  destruct (PyMore.truth (subject p)) eqn:?; cbn [negb];
    [|left; split; cbn; auto];
  pose proof (locate_cases env p s) as Hl;
  destruct (locate env p s) as [[c coordinates|a] s1] eqn:?; cbn [fst snd];
  [ destruct (PyMore.truth c) eqn:?; cbn [negb];
    [ endpoint_tail p c coordinates s1
    | destruct coordinates as [[? ?]|];
        [destruct Hl as [Hl _]; congruence|];
      destruct Hl as [-> _]; left; split; cbn; auto ]
  | destruct (rejected_cases key env r p a s s1 Ep Hl) as [?|?]; auto ].

Lemma endpoint_cases key handler env self r s :
  In (key, handler) handlers ->
  untouched key r (fst (handler env self r s)) s
    (snd (handler env self r s))
  \/ unplaced key env r (fst (handler env self r s)) s
       (snd (handler env self r s))
  \/ served key env self r (fst (handler env self r s)) s
       (snd (handler env self r s)).
Proof.
  intros Hin.
  assert (Hk : (key = "product"%string /\ handler = check_price)
               \/ (key = "item"%string /\ handler = vendor_pricing)).
  { destruct Hin as [[= <- <-]|[[= <- <-]|[]]]; auto. }
  clear Hin.
  destruct Hk as [[-> ->]|[-> ->]].
  - unfold check_price. endpoint_body "product"%string r env s.
  - unfold vendor_pricing. endpoint_body "item"%string r env s.
Qed.

Lemma unplaced_trace key env r a s s' :
  unplaced key env r a s s' ->
  scraped s' = scraped s
  /\ exists evs,
       located s' = located s ++ evs
       /\ List.length (Geocoding.lookups evs) <= 1.
Proof.
  intros (Hs & _ & _ & lat & lon & d & Hg). split; [exact Hs|].
  pose proof (reverse_geocode_trace lat lon (nominatim env) (geocoding s)
                (located s)) as Ht.
  rewrite Hg in Ht. destruct Ht as (evs & -> & [L|[L _]]);
    exists evs; rewrite L; cbn; auto.
Qed.

Lemma served_status key env self r a s s' :
  served key env self r a s s' ->
  status_code a = 200%Z \/ status_code a = 404%Z \/ a = ServerError.
Proof.
  intros (p & c & coordinates & s1 & _ & _ & _ & _ & _ & H).
  destruct (fst (fetch env self (subject p) c s1)) as [[price|]|].
  - destruct (multiplier_of c coordinates); [tauto|auto].
  - subst a. auto.
  - auto.
Qed.

(** X13. A request answered with status 400 has cost no scraping: the
    trace of the scraper is as it was. The geocoding service was asked at
    most once, and not at all unless the response is the one that reports
    its failure or the one that reports a location without city. *)
Theorem rejected_before_scraping key handler env self r s :
  In (key, handler) handlers ->
  status_code (fst (handler env self r s)) = 400%Z ->
  scraped (snd (handler env self r s)) = scraped s
  /\ (exists evs,
        located (snd (handler env self r s)) = located s ++ evs
        /\ List.length (Geocoding.lookups evs) <= 1)
  /\ match fst (handler env self r s) with
     | GeocodeFailed _ | CityUndetermined _ => True
     | _ => snd (handler env self r s) = s
     end.
Proof.
  intros Hin H400.
  destruct (endpoint_cases key handler env self r s Hin) as [[-> Ha]|[H|H]].
  - split; [reflexivity|]. split.
    + exists []. rewrite app_nil_r. cbn. auto.
    + destruct Ha as [Ha|[Ha|[Ha|[Ha|[Ha _]]]]]; rewrite Ha; reflexivity.
  - destruct (unplaced_trace _ _ _ _ _ _ H) as [Hs Hg].
    split; [exact Hs|]. split; [exact Hg|].
    destruct H as (_ & (d & [->| ->]) & _); exact I.
  - apply served_status in H. destruct H as [H|[H|H]]; try congruence.
    rewrite H in H400. discriminate.
Qed.

Lemma rejected_before_scraping_no_product :
  scraped (snd (check_price quiet {| driver := true |} (query []) fresh))
  = scraped fresh.
Proof.
  refine (proj1 (rejected_before_scraping "product" check_price quiet
                   {| driver := true |} (query []) fresh _ _)).
  - left. reflexivity.
  - vm_compute. reflexivity.
Defined.

Lemma locate_ignores_city env (p1 p2 : parameters) s :
  latitude p1 = latitude p2 ->
  longitude p1 = longitude p2 ->
  PyMore.truth (latitude p1) = true ->
  PyMore.truth (longitude p1) = true ->
  locate env p1 s = locate env p2 s.
Proof.
  intros Hlat Hlon Tlat Tlon. unfold locate.
  rewrite <- Hlat, <- Hlon, Tlat, Tlon. reflexivity.
Qed.

(** X14. Coordinates override the city: when a latitude and a longitude
    are given (as true values), the city of the request is not looked at.
    Two requests with the same product and the same coordinates get the
    same response and leave the same state, whatever their cities are. *)
Theorem coordinates_override_city key handler env self s
    (r1 r2 : request) (p1 p2 : parameters) :
  In (key, handler) handlers ->
  read_parameters key r1 = Py.Return p1 ->
  read_parameters key r2 = Py.Return p2 ->
  subject p1 = subject p2 ->
  latitude p1 = latitude p2 ->
  longitude p1 = longitude p2 ->
  PyMore.truth (latitude p1) = true ->
  PyMore.truth (longitude p1) = true ->
  handler env self r1 s = handler env self r2 s.
Proof.
  intros Hin E1 E2 Hs Hlat Hlon Tlat Tlon.
  pose proof (locate_ignores_city env p1 p2 s Hlat Hlon Tlat Tlon) as Hl.
  destruct Hin as [[= <- <-]|[[= <- <-]|[]]].
  - unfold check_price. rewrite E1, E2, <- Hs, Hl. reflexivity.
  - unfold vendor_pricing. rewrite E1, E2, <- Hs, Hl. reflexivity.
Qed.

Lemma coordinates_override_city_sample :
  check_price busy {| driver := false |}
    (query [("product", "coke"); ("city", "Tampa");
            ("latitude", "25.7617"); ("longitude", "-80.1918")]%string) fresh
  = check_price busy {| driver := false |}
      (query [("product", "coke"); ("lat", "25.7617");
              ("lon", "-80.1918")]%string) fresh.
Proof.
  eapply (coordinates_override_city "product" check_price);
    [left; reflexivity|reflexivity|reflexivity|..]; reflexivity.
Defined.

(** X15. Coordinates in a response have been checked: they are within
    the bounds of line 95, the geocoding service was asked about them, once,
    and it answered ['success': True] with the city of the response, which
    is a true value. *)
Theorem answered_coordinates_checked key handler env self r s lat lon :
  In (key, handler) handlers ->
  answered_coordinates (fst (handler env self r s)) = Some (lat, lon) ->
  in_florida_bounds lat lon = true
  /\ Geocoding.lookups (located (snd (handler env self r s)))
     = Geocoding.lookups (located s) ++ [(lat, lon)]
  /\ exists c st sc county full raw,
       answered_city (fst (handler env self r s)) = Some c
       /\ PyMore.truth c = true
       /\ fst (fst (Geocoding.reverse_geocode lat lon (nominatim env)
                      (geocoding s) (located s)))
          = Geocoding.Located c st sc county lat lon full raw.
Proof.
  intros Hin Hc.
  destruct (endpoint_cases key handler env self r s Hin)
    as [[_ Ha]|[(_ & (d & Ha) & _)|H]].
  - destruct Ha as [Ha|[Ha|[Ha|[Ha|[Ha _]]]]]; rewrite Ha in Hc; discriminate.
  - destruct Ha as [Ha|Ha]; rewrite Ha in Hc; discriminate.
  - destruct H as (p & c & coordinates & s1 & _ & _ & El & Tc & Es & H).
    pose proof (fetch_keeps_geocoding env self (subject p) c s1) as [_ Hk].
    rewrite <- Es in Hk.
    destruct (fst (fetch env self (subject p) c s1)) as [[price|]|];
      try (rewrite H in Hc; discriminate).
    destruct (multiplier_of c coordinates) as [m|];
      [|rewrite H in Hc; discriminate].
    destruct H as (_ & Hcity & _ & _ & Hco).
    rewrite Hc in Hco. subst coordinates.
    pose proof (locate_cases env p s) as Hl. rewrite El in Hl.
    destruct Hl as (_ & Hb & _ & _ & _ & st & sc & county & full & raw & Hg).
    split; [exact Hb|]. split.
    + rewrite Hk.
      pose proof (reverse_geocode_trace lat lon (nominatim env) (geocoding s)
                    (located s)) as Ht.
      rewrite Hg in Ht. destruct Ht as (evs & -> & [L|[_ L]]);
        [|discriminate].
      rewrite lookups_app, L. reflexivity.
    + exists c, st, sc, county, full, raw. rewrite Hg. auto.
Qed.

Lemma answered_coordinates_checked_miami :
  in_florida_bounds 25.7617 (-80.1918) = true.
Proof.
  refine (proj1 (answered_coordinates_checked "product" check_price busy
                   {| driver := false |}
                   (query [("product", "coke"); ("latitude", "25.7617");
                           ("longitude", "-80.1918")]%string)
                   fresh 25.7617 (-80.1918) _ _)).
  - left. reflexivity.
  - vm_compute. reflexivity.
Defined.

Lemma first_value_text (key : string) (fields : list (string * string)) :
  first_value key fields = JNull \/ exists v, first_value key fields = JStr v.
Proof.
  induction fields as [|[k v] rest IH]; cbn; [auto|].
  destruct (String.eqb k key); [right; eauto|exact IH].
Qed.

Lemma truth_text (v : json) :
  v = JNull \/ (exists t, v = JStr t) ->
  PyMore.truth v = true ->
  exists t, v = JStr t.
Proof. intros [->|H] T; [discriminate|exact H]. Qed.

Lemma city_multipliers_rounded :
  forallb (fun c => rounded_within
                      (RegionModel.weigh RegionModel.hubs (fst c) (snd c) 0 0))
    RegionModel.city_coordinates = true.
Proof. vm_compute. reflexivity. Qed.

Lemma multiplier_of_name (name : string) :
  exists m,
    multiplier_of (JStr name) None = Py.Return m
    /\ (0.93 <=? PyMore.round_to 3 m)%float = true
    /\ (PyMore.round_to 3 m <=? 1.25)%float = true.
Proof.
  unfold multiplier_of, RegionModel.get_regional_multiplier.
  pose proof (get_coordinates_cases name) as Hin.
  pose proof city_multipliers_rounded as Hall.
  rewrite forallb_forall in Hall. specialize (Hall _ Hin).
  destruct (RegionModel.get_coordinates name) as [lat lon].
  cbn [fst snd] in Hall. unfold rounded_within in Hall.
  destruct (RegionModel.weigh RegionModel.hubs lat lon 0 0) as [m|];
    [|discriminate].
  apply andb_true_iff in Hall. exists m. tauto.
Qed.

(** X16. A [GET] request that names its place by a city, without
    coordinates, is never answered with status 500: it gets 400 (no
    product or no city), 404 (no price found) or 200, the geocoding
    service is not asked, and the multiplier of a 200 response lies in
    [[0.93, 1.25]]. *)
Theorem city_request_never_fails key handler env self r s (p : parameters) :
  In (key, handler) handlers ->
  method r <> POST ->
  read_parameters key r = Py.Return p ->
  PyMore.truth (latitude p) && PyMore.truth (longitude p) = false ->
  In (status_code (fst (handler env self r s))) [200; 400; 404]%Z
  /\ geocoding (snd (handler env self r s)) = geocoding s
  /\ located (snd (handler env self r s)) = located s
  /\ forall m,
       answered_multiplier (fst (handler env self r s)) = Some m ->
       (0.93 <=? m)%float = true /\ (m <=? 1.25)%float = true.
Proof.
  intros Hin Hm Ep Hno.
  assert (Hsub : subject p = JNull \/ exists v, subject p = JStr v).
  { unfold read_parameters in Ep. destruct (method r); try congruence;
      injection Ep as <-; apply first_value_text. }
  assert (Hcity : city p = JNull \/ exists v, city p = JStr v).
  { unfold read_parameters in Ep. destruct (method r); try congruence;
      injection Ep as <-; apply first_value_text. }
  assert (El : locate env p s = (Resolved (city p) None, s)).
  { unfold locate. rewrite Hno. reflexivity. }
  destruct (endpoint_cases key handler env self r s Hin)
    as [[-> Ha]|[(_ & _ & (p' & Ep' & Ht) & _)|H]].
  - split; [|split; [reflexivity|split; [reflexivity|]]].
    + destruct Ha as [Ha|[Ha|[Ha|[Ha|[Ha Hbad]]]]]; rewrite Ha; cbn; auto.
      exfalso. destruct Hbad as [Hbad|(p' & Ep' & Ht & _)]; congruence.
    + intros m. destruct Ha as [Ha|[Ha|[Ha|[Ha|[Ha _]]]]]; rewrite Ha;
        discriminate.
  - congruence.
  - destruct H as (p' & c & coordinates & s1 & Ep' & Ts & El' & Tc & Es & H).
    assert (p' = p) by congruence. subst p'.
    rewrite El in El'. injection El' as <- <- <-.
    destruct (truth_text _ Hsub Ts) as [item Ei].
    destruct (truth_text _ Hcity Tc) as [name En].
    rewrite Ei, En in *.
    pose proof (fetch_keeps_geocoding env self (JStr item) (JStr name) s)
      as [Hg Hl].
    rewrite <- Es in Hg, Hl.
    destruct (multiplier_of_name name) as (m & Em & Hlo & Hhi).
    rewrite Em in H.
    assert (Hret : exists v,
               fst (fetch env self (JStr item) (JStr name) s) = Py.Return v).
    { unfold fetch.
      destruct (fetch_price_data_returns self item (text env (JStr name))
                  (web env) (scraped s)) as [v Hv].
      destruct (fetch_price_data _ _ _ _ _) as [out h]. cbn [fst] in *.
      eauto. }
    destruct Hret as [v Hv]. rewrite Hv in H.
    destruct v as [price|].
    + destruct H as (H200 & _ & Ha & _). rewrite H200.
      split; [cbn; auto|]. split; [exact Hg|]. split; [exact Hl|].
      intros m' Hm'. rewrite Ha in Hm'. injection Hm' as <-. auto.
    + rewrite H. split; [cbn; auto|]. split; [exact Hg|].
      split; [exact Hl|]. discriminate.
Qed.

Lemma city_request_never_fails_offline :
  In (status_code
        (fst (check_price quiet {| driver := false |}
                (query [("product", "coke"); ("city", "miami")]%string)
                fresh)))
     [200; 400; 404]%Z.
Proof.
  refine (proj1 (city_request_never_fails "product" check_price quiet
                   {| driver := false |}
                   (query [("product", "coke"); ("city", "miami")]%string)
                   fresh _ _ _ _ _)).
  - left. reflexivity.
  - discriminate.
  - reflexivity.
  - reflexivity.
Defined.

Lemma fetch_cost env self subject city (s : state) :
  exists evs,
    scraped (snd (fetch env self subject city s)) = scraped s ++ evs
    /\ List.length (requested evs) <= 22
    /\ Cost.slept evs <= 40 * 1000.
Proof.
  unfold fetch.
  destruct subject as [| | | |item_name| |];
    try (cbn [snd scraped]; eexists; split; [reflexivity|];
         cbn [requested Cost.slept List.length]; lia).
  destruct (fetch_price_data_cost self item_name (text env city) (web env)
              (scraped s)) as (evs & E & R & T).
  destruct (fetch_price_data _ _ _ _ _) as [out h]. cbn [snd scraped] in *.
  exists evs. auto.
Qed.

Lemma locate_work env (p : parameters) (s : state) c coordinates s1 :
  locate env p s = (Resolved c coordinates, s1) ->
  scraped s1 = scraped s
  /\ exists evs,
       located s1 = located s ++ evs
       /\ List.length (Geocoding.lookups evs) <= 1.
Proof.
  intros El. pose proof (locate_cases env p s) as Hl. rewrite El in Hl.
  destruct coordinates as [[lat lon]|].
  - destruct Hl as (_ & _ & _ & _ & Hs & st & sc & county & full & raw & Hg).
    split; [exact Hs|].
    pose proof (reverse_geocode_trace lat lon (nominatim env) (geocoding s)
                  (located s)) as Ht.
    rewrite Hg in Ht. destruct Ht as (evs & -> & [L|[L _]]);
      exists evs; rewrite L; cbn; auto.
  - destruct Hl as (-> & _). split; [reflexivity|].
    exists []. rewrite app_nil_r. cbn. auto.
Qed.

(** X17. The work of one request is bounded: a handler asks the
    geocoding service at most once, and the scraper for at most 22 pages
    and 40 seconds of [time.sleep], whatever the request holds and
    whatever the outside world answers. What was in the two traces before
    the request stays in front. *)
Theorem request_budget key handler env self r s :
  In (key, handler) handlers ->
  exists lookup scraping,
    work s (snd (handler env self r s)) lookup scraping
    /\ List.length (Geocoding.lookups lookup) <= 1
    /\ List.length (requested scraping) <= 22
    /\ Cost.slept scraping <= 40 * 1000.
Proof.
  intros Hin. unfold work.
  destruct (endpoint_cases key handler env self r s Hin) as [[-> _]|[H|H]].
  - exists [], []. rewrite !app_nil_r.
    cbn [Geocoding.lookups flat_map requested Cost.slept List.length].
    repeat split; lia.
  - destruct (unplaced_trace _ _ _ _ _ _ H) as (Hs & evs & Hl & L).
    exists evs, []. rewrite Hs, Hl, app_nil_r.
    cbn [requested Cost.slept List.length]. repeat split; lia.
  - destruct H as (p & c & coordinates & s1 & _ & _ & El & _ & -> & _).
    destruct (locate_work _ _ _ _ _ _ El) as (Hs & evs & Hl & L).
    destruct (fetch_cost env self (subject p) c s1) as (out & Ho & R & T).
    destruct (fetch_keeps_geocoding env self (subject p) c s1) as [_ Hk].
    exists evs, out. rewrite Ho, Hk, Hs, Hl. auto.
Qed.

Lemma request_budget_vendor :
  exists lookup scraping,
    work fresh
      (snd (vendor_pricing busy {| driver := true |}
              (query [("item", "chips"); ("latitude", "25.7617");
                      ("longitude", "-80.1918")]%string) fresh))
      lookup scraping
    /\ List.length (Geocoding.lookups lookup) <= 1
    /\ List.length (requested scraping) <= 22
    /\ Cost.slept scraping <= 40 * 1000.
Proof.
  apply (request_budget "item" vendor_pricing). right. left. reflexivity.
Defined.

(** X18. Every city that [list_cities] announces is known to
    [get_coordinates] by a hub or by one of the other known cities, except
    "daytona beach": the region model has no coordinates for it and
    prices it like Orlando. *)
Theorem listed_cities_known :
  Forall (fun name => known name = true) major_hubs
  /\ Forall (fun name =>
               known name = negb (String.eqb name "daytona beach"))
       other_cities
  /\ RegionModel.get_coordinates "daytona beach" = RegionModel.florida_center
  /\ RegionModel.get_regional_multiplier (Some "daytona beach"%string)
       None None
     = RegionModel.get_regional_multiplier (Some "orlando"%string) None None.
Proof.
  split; [|split; [|split]].
  - unfold major_hubs. repeat constructor.
  - unfold other_cities. repeat constructor.
  - reflexivity.
  - reflexivity.
Qed.

End Endpoints.
